(** * Jarvis Command Center backend (server_ws.py): handlers and their properties

    The request handlers of [server_ws.py] that stamp tasks, agents and notes,
    sweep old tasks into the archive and keep the live feed, embedded as
    functions over an explicit [world] (the JSON files of the data directory,
    the in-memory feed and the trace of writes and broadcasts), followed by
    the properties proved of them. *)

From Stdlib Require Import ZArith NArith List Bool Ascii String Lia.
From stdpp Require Import gmap strings list fin_maps sorting.

Set Warnings "-register-all".
Open Scope string_scope.
Open Scope list_scope.

(** ** JSON values and the Python operations applied to them *)

Module Py.

(** What [json.load] and [request.json()] hand to the handlers.  Numbers are
    the integers; objects nested inside a value keep their fields as a list.
    Strings are byte strings: equality and order are Python's (UTF-8 keeps
    the order of code points), and a slice counts bytes, which is Python's
    count on the ASCII text of ids and timestamps. *)
Inductive json : Type :=
| JNull
| JBool (b : bool)
| JNum (n : Z)
| JStr (s : string)
| JArr (items : list json)
| JObj (fields : list (string * json)).

(** A top-level JSON object, a Python [dict] with string keys. *)
Abbreviation obj := (gmap string json).

(** [bool(v)]: None, False, 0, the empty string, list and dict are falsy. *)
Definition truthy (v : json) : bool :=
  match v with
  | JNull => false
  | JBool b => b
  | JNum n => negb (n =? 0)%Z
  | JStr s => negb (s =? "")
  | JArr items => match items with [] => false | _ => true end
  | JObj fields => match fields with [] => false | _ => true end
  end.

(** [a or b] *)
Definition py_or (a b : json) : json := if truthy a then a else b.

Fixpoint assoc (k : string) (fields : list (string * json)) : option json :=
  match fields with
  | [] => None
  | (k', v) :: rest => if (k =? k') then Some v else assoc k rest
  end.

(** [a == b]: [True == 1] and [False == 0] hold, lists compare element by
    element, dicts field by field whatever the order. *)
Fixpoint py_eq (a b : json) {struct a} : bool :=
  match a, b with
  | JNull, JNull => true
  | JBool x, JBool y => Bool.eqb x y
  | JBool x, JNum n => (Z.b2z x =? n)%Z
  | JNum n, JBool y => (n =? Z.b2z y)%Z
  | JNum x, JNum y => (x =? y)%Z
  | JStr x, JStr y => (x =? y)
  | JArr xs, JArr ys =>
      (fix each (xs ys : list json) : bool :=
         match xs, ys with
         | [], [] => true
         | x :: xs', y :: ys' => py_eq x y && each xs' ys'
         | _, _ => false
         end) xs ys
  | JObj xs, JObj ys =>
      (length xs =? length ys)%nat &&
      (fix each (xs : list (string * json)) : bool :=
         match xs with
         | [] => true
         | (k, v) :: xs' =>
             match assoc k ys with
             | Some v' => py_eq v v'
             | None => false
             end && each xs'
         end) xs
  | _, _ => false
  end.

(** [x in [a, b, ...]] on a list *)
Definition py_in (x : json) (l : list json) : bool := existsb (py_eq x) l.

(** [d.get(k)] and [d.get(k, dflt)] *)
Definition get (d : obj) (k : string) : json := default JNull (d !! k).
Definition get_or (d : obj) (k : string) (dflt : json) : json := default dflt (d !! k).

(** [{**base, **over}] and [base.update(over)]: the fields of [over] win. *)
Definition merge (base over : obj) : obj := over ∪ base.

(** [bool(d)] of a dict *)
Definition dict_truthy (d : obj) : bool := negb (size d =? 0)%nat.

(** [s[:n]] *)
Definition prefix_of (n : nat) (s : string) : string := substring 0 n s.

(** [hash(v)] exists for None, booleans, numbers and strings only. *)
Definition hashable (v : json) : bool :=
  match v with
  | JArr _ | JObj _ => false
  | _ => true
  end.

End Py.
Export Py.

(** ** The clock: [datetime.utcnow()] and its renderings *)

Module Clock.

(** A reading of [datetime.utcnow()]. *)
Record datetime : Type := mkDatetime {
  year : N; month : N; day : N;
  hour : N; minute : N; second : N; microsecond : N }.

Definition digit (n : N) : ascii := ascii_of_N (48 + n mod 10).

(** [%0<width>d] of a number of at most [width] digits *)
Fixpoint zfill (width : nat) (n : N) : string :=
  match width with
  | O => ""
  | S w => zfill w (n / 10) +:+ String (digit n) ""
  end.

(** [strftime('%Y-%m-%d')]; the C library pads the year from 1000 on only,
    which is where the clock of the server reads. *)
Definition strftime_Ymd (d : datetime) : string :=
  zfill 4 (year d) +:+ "-" +:+ zfill 2 (month d) +:+ "-" +:+ zfill 2 (day d).

(** [isoformat()], ["%04d-%02d-%02dT%02d:%02d:%02d"]; the fraction
    [".%06d"] is printed only when it is not zero. *)
Definition isoformat (d : datetime) : string :=
  zfill 4 (year d) +:+ "-" +:+ zfill 2 (month d) +:+ "-" +:+ zfill 2 (day d)
    +:+ "T" +:+ zfill 2 (hour d) +:+ ":" +:+ zfill 2 (minute d)
    +:+ ":" +:+ zfill 2 (second d)
    +:+ (if (microsecond d =? 0)%N then "" else "." +:+ zfill 6 (microsecond d)).

(** [datetime.utcnow().isoformat() + "Z"], the stamp the handlers write *)
Definition stamp (d : datetime) : string := isoformat d +:+ "Z".

Definition is_leap (y : N) : bool :=
  ((y mod 4 =? 0) && (negb (y mod 100 =? 0) || (y mod 400 =? 0)))%N.

Definition days_in_month (y m : N) : N :=
  match m with
  | 2 => if is_leap y then 29 else 28
  | 4 | 6 | 9 | 11 => 30
  | _ => 31
  end%N.

(** One day back; there is no day before 0001-01-01 (OverflowError). *)
Definition prev_day (d : datetime) : option datetime :=
  let at_date y m dd :=
    mkDatetime y m dd (hour d) (minute d) (second d) (microsecond d) in
  if (1 <? day d)%N then Some (at_date (year d) (month d) (day d - 1)%N)
  else if (1 <? month d)%N then
    Some (at_date (year d) (month d - 1)%N (days_in_month (year d) (month d - 1)))
  else if (1 <? year d)%N then Some (at_date (year d - 1)%N 12%N 31%N)
  else None.

(** [d - timedelta(days=n)] *)
Fixpoint minus_days (n : nat) (d : datetime) : option datetime :=
  match n with
  | O => Some d
  | S k => match prev_day d with Some d' => minus_days k d' | None => None end
  end.

End Clock.
Export Clock.

(** ** The world the handlers run in *)

Module World.

(** The narration lines of the activity log, kept as their template and the
    values formatted into it. *)
Inductive narration : Type :=
| NewTask (title : json)                        (* "New task: {title}" *)
| TaskMoved (new_status title : json)           (* "Task moved to {new_status}: {title}" *)
| AutoArchived (count : nat).                   (* "Auto-archived {count} completed tasks older than 7 days" *)

Record activity_entry : Type := mkActivity {
  activity_timestamp : string;
  activity_message : narration }.

(** What [activity.json] may hold: a list, a single entry, or anything else. *)
Inductive activity_doc : Type :=
| ActivityList (entries : list activity_entry)
| ActivityDict (entry : activity_entry)
| ActivityOther.

(** A feed entry, [{"id", "message", "type", "timestamp"}]. *)
Record feed_entry : Type := mkFeedEntry {
  entry_id : string;
  entry_message : json;
  entry_type : json;
  entry_timestamp : json }.

Inductive file : Type := TASKS_FILE | AGENTS_FILE | ACTIVITY_FILE | NOTES_FILE.

(** The messages handed to [broadcast], [{"type": ..., "data": ...}]. *)
Inductive message : Type :=
| task_created (task : obj)
| task_updated (data : obj)
| agent_updated (data : obj)
| note_updated (id : string) (read : bool) (readAt : string)
| tasks_archived (count : nat)
| activity (entry : activity_entry)
| feed (entry : feed_entry).

(** Coroutines started with [asyncio.create_task]. *)
Inductive coroutine : Type :=
| co_broadcast (m : message)
| co_trigger_agent (task_id : json).

(** What a handler does to the outside, in the order it does it. *)
Inductive effect : Type :=
| Saved (f : file)
| Broadcast (m : message)
| Spawned (c : coroutine).

(** A file is [None] while it is missing or does not parse: [load_json]
    then answers its default. *)
Record world : Type := mkWorld {
  tasks_file : option (list obj);
  agents_file : option (list obj);
  activity_file : option activity_doc;
  notes_file : option (list obj);
  feed_entries : list feed_entry;
  trace : list effect }.

Definition with_tasks (v : option (list obj)) (w : world) : world :=
  mkWorld v (agents_file w) (activity_file w) (notes_file w) (feed_entries w) (trace w).
Definition with_agents (v : option (list obj)) (w : world) : world :=
  mkWorld (tasks_file w) v (activity_file w) (notes_file w) (feed_entries w) (trace w).
Definition with_activity (v : option activity_doc) (w : world) : world :=
  mkWorld (tasks_file w) (agents_file w) v (notes_file w) (feed_entries w) (trace w).
Definition with_notes (v : option (list obj)) (w : world) : world :=
  mkWorld (tasks_file w) (agents_file w) (activity_file w) v (feed_entries w) (trace w).
Definition with_feed (v : list feed_entry) (w : world) : world :=
  mkWorld (tasks_file w) (agents_file w) (activity_file w) (notes_file w) v (trace w).
Definition with_trace (v : list effect) (w : world) : world :=
  mkWorld (tasks_file w) (agents_file w) (activity_file w) (notes_file w) (feed_entries w) v.

(** A handler returns or lets an exception escape (aiohttp then answers 500);
    either way the world is what the handler has made of it so far. *)
Inductive outcome (A : Type) : Type :=
| Ok (a : A)
| Raise.
Arguments Ok {A} a.
Arguments Raise {A}.

Definition M (A : Type) : Type := world -> outcome A * world.

Definition ret {A} (a : A) : M A := fun w => (Ok a, w).
Definition raise {A} : M A := fun w => (Raise, w).
Definition bind {A B} (c : M A) (k : A -> M B) : M B :=
  fun w => match c w with
           | (Ok a, w') => k a w'
           | (Raise, w') => (Raise, w')
           end.
Definition gets {A} (f : world -> A) : M A := fun w => (Ok (f w), w).
Definition modify (f : world -> world) : M unit := fun w => (Ok tt, f w).
Definition emit (e : effect) : M unit := modify (fun w => with_trace (trace w ++ [e]) w).

End World.
Export World.

Notation "'do' x <- c1 ; c2" := (bind c1 (fun x => c2))
  (at level 10, x name, c1 at level 100, c2 at level 200).
Notation "'do' ' ( x , y ) <- c1 ; c2" := (bind c1 (fun p => let '(x, y) := p in c2))
  (at level 10, x name, y name, c1 at level 100, c2 at level 200).

(** HTTP answers: [web.json_response(payload, status=...)]. *)
Inductive payload : Type :=
| RTask (task : obj)                 (* the task itself *)
| ROk                                (* {"ok": True} *)
| ROkId (id : string)                (* {"ok": True, "id": id} *)
| RArchived (count : nat)            (* {"archived": count} *)
| RError (text : string)             (* {"error": text} *)
| REntries (entries : list feed_entry).

Record response : Type := json_response { body_of : payload; http_status : nat }.

(** ** Loading and saving the collections *)

Module Store.

Definition get_tasks : M (list obj) := gets (fun w => default [] (tasks_file w)).

Definition save_tasks (tasks : list obj) : M unit :=
  do _ <- modify (with_tasks (Some tasks));
  emit (Saved TASKS_FILE).

Definition default_agents : list obj :=
  [ list_to_map
      [ ("id", JStr "claude-opus"); ("name", JStr "Jarvis (Opus 4.6)");
        ("model", JStr "claude-opus-4-6"); ("role", JStr "manager");
        ("status", JStr "Idle"); ("statusEmoji", JStr "");
        ("currentTask", JNull) ] ].

Definition save_agents (agents : list obj) : M unit :=
  do _ <- modify (with_agents (Some agents));
  emit (Saved AGENTS_FILE).

Definition get_agents : M (list obj) :=
  do stored <- gets agents_file;
  match stored with
  | Some agents => ret agents
  | None => do _ <- save_agents default_agents; ret default_agents
  end.

Definition get_notes : M (list obj) := gets (fun w => default [] (notes_file w)).

Definition save_notes (notes : list obj) : M unit :=
  do _ <- modify (with_notes (Some notes));
  emit (Saved NOTES_FILE).

Definition get_activity : M (list activity_entry) :=
  do data <- gets activity_file;
  ret match data with
      | Some (ActivityList entries) => entries
      | Some (ActivityDict entry) => [entry]
      | Some ActivityOther | None => []
      end.

(** [l[-n:]] for a positive [n] *)
Definition last_n {A} (n : nat) (l : list A) : list A := drop (length l - n) l.

Definition broadcast (m : message) : M unit := emit (Broadcast m).

Definition add_activity (now : datetime) (text : narration) : M (list activity_entry) :=
  do entries <- get_activity;
  let entry := mkActivity (stamp now) text in
  let entries := last_n 500 (entries ++ [entry]) in
  do _ <- modify (with_activity (Some (ActivityList entries)));
  do _ <- emit (Saved ACTIVITY_FILE);
  do _ <- emit (Spawned (co_broadcast (activity entry)));
  ret entries.

(** [d[k]]: KeyError when the key is missing *)
Definition subscript (d : obj) (k : string) : M json :=
  match d !! k with
  | Some v => ret v
  | None => raise
  end.

(** [v.startswith(p)]: only strings have the method *)
Definition startswith (v : json) (p : string) : M bool :=
  match v with
  | JStr s => ret (String.prefix p s)
  | _ => raise
  end.

(** [v < s] against a string: TypeError unless [v] is a string too *)
Definition lt_str (v : json) (s : string) : M bool :=
  match v with
  | JStr x => ret (x <? s)
  | _ => raise
  end.

End Store.
Export Store.

(** ** Tasks *)

Module Tasks.

(** The end of [create_task_handler]: the agent is triggered at once when
    the task is assigned to one. *)
Definition trigger_when_assigned (task : obj) : M unit :=
  let assigned_to := get_or task "assignedTo" (JStr "") in
  if truthy assigned_to then
    do agent <- startswith assigned_to "Agent:";
    if (agent : bool) then
      do id <- subscript task "id";
      emit (Spawned (co_trigger_agent id))
    else ret tt
  else ret tt.

(** [create_task_handler]; [uuid4] is the text of [uuid.uuid4()], [now] and
    [now_activity] are the clock readings of the handler and of
    [add_activity]. *)
Definition create_task_handler (body : obj) (uuid4 : string)
    (now now_activity : datetime) : M response :=
  do tasks <- get_tasks;
  let now := stamp now in
  let status := get_or body "status" (JStr "todo") in
  let task :=
    merge (list_to_map
             [ ("id", JStr (prefix_of 8 uuid4));
               ("createdAt", JStr now);
               ("startedAt", if py_eq status (JStr "in-progress") then JStr now else JNull);
               ("completedAt",
                 if py_in status [JStr "done"; JStr "archive"] then JStr now else JNull) ])
          body in
  let tasks := tasks ++ [task] in
  do _ <- save_tasks tasks;
  do _ <- add_activity now_activity (NewTask (get_or task "title" (JStr "Untitled")));
  do _ <- broadcast (task_created task);
  do _ <- trigger_when_assigned task;
  ret (json_response (RTask task) 201).

(** The [for task in tasks] loop of [update_task_handler]: the list with the
    first task of that id updated in place, and the request body as the loop
    leaves it. *)
Fixpoint update_task_loop (task_id : string) (now : string) (now_activity : datetime)
    (body : obj) (tasks : list obj) : M (list obj * obj) :=
  match tasks with
  | [] => ret ([], body)
  | task :: rest =>
      do id <- subscript task "id";
      if py_eq id (JStr task_id) then
        let old_status := get task "status" in
        let new_status := get body "status" in
        if truthy new_status && negb (py_eq new_status old_status) then
          let body :=
            if py_eq new_status (JStr "in-progress") && negb (truthy (get task "startedAt"))
            then <["startedAt" := JStr now]> body
            else if py_in new_status [JStr "done"; JStr "archive"]
                    && negb (truthy (get task "completedAt"))
            then <["completedAt" := JStr now]> body
            else body in
          let task :=
            if py_eq new_status (JStr "done") then
              match body !! "completedBy" with
              | Some by_whom => <["completedBy" := by_whom]> task
              | None => task
              end
            else task in
          do _ <- add_activity now_activity
                    (TaskMoved new_status (get_or task "title" (JStr "Untitled")));
          ret (merge task body :: rest, body)
        else ret (merge task body :: rest, body)
      else
        do '(rest', body') <- update_task_loop task_id now now_activity body rest;
        ret (task :: rest', body')
  end.

Definition update_task_handler (task_id : string) (body : obj)
    (now now_activity : datetime) : M response :=
  do tasks <- get_tasks;
  let now := stamp now in
  do '(tasks, body) <- update_task_loop task_id now now_activity body tasks;
  do _ <- save_tasks tasks;
  do _ <- broadcast (task_updated (merge {[ "id" := JStr task_id ]} body));
  ret (json_response ROk 200).

(** The loop of [archive_old_tasks_handler], with its counter. *)
Fixpoint archive_loop (cutoff : string) (count : nat) (tasks : list obj)
    : M (list obj * nat) :=
  match tasks with
  | [] => ret ([], count)
  | t :: rest =>
      do old <- (if py_eq (get t "status") (JStr "done")
                 then lt_str (py_or (get t "completedAt") (JStr "")) cutoff
                 else ret false);
      if (old : bool) then
        do '(rest', count') <- archive_loop cutoff (S count) rest;
        ret (<["status" := JStr "archive"]> t :: rest', count')
      else
        do '(rest', count') <- archive_loop cutoff count rest;
        ret (t :: rest', count')
  end.

(** [(datetime.utcnow() - timedelta(days=7)).isoformat() + 'Z'] *)
Definition cutoff_of (now : datetime) : option string :=
  stamp <$> minus_days 7 now.

Definition archive_old_tasks_handler (now now_activity : datetime) : M response :=
  do tasks <- get_tasks;
  match cutoff_of now with
  | None => raise
  | Some cutoff =>
      do '(tasks, count) <- archive_loop cutoff 0 tasks;
      do _ <- (if (0 <? count)%nat then
                 do _ <- save_tasks tasks;
                 do _ <- add_activity now_activity (AutoArchived count);
                 broadcast (tasks_archived count)
               else ret tt);
      ret (json_response (RArchived count) 200)
  end.

End Tasks.
Export Tasks.

(** ** Agents *)

Module Agents.

Definition working_statuses : list json :=
  JStr <$> ["Working"; "Thinking"; "Checking"; "Typing"; "Delegating"; "Heartbeat"; "Managing"].

(** The [for agent in agents] loop of [update_agent_handler]: the list with
    the first agent of that id updated, and [found]. *)
Fixpoint update_agent_loop (agent_id : string) (now : string) (body : obj)
    (new_status : json) (agents : list obj) : M (list obj * bool) :=
  match agents with
  | [] => ret ([], false)
  | agent :: rest =>
      do id <- subscript agent "id";
      if py_eq id (JStr agent_id) then
        let old_status := get_or agent "status" (JStr "Idle") in
        let agent := merge agent body in
        let agent :=
          if truthy new_status && py_in new_status working_statuses then
            if negb (py_in old_status working_statuses)
               || negb (truthy (get agent "startedWorkingAt"))
            then <["startedWorkingAt" := JStr now]> agent
            else agent
          else if truthy new_status && py_in new_status [JStr "Idle"; JStr "Standby"] then
            <["startedWorkingAt" := JNull]> agent
          else agent in
        ret (agent :: rest, true)
      else
        do '(rest', found) <- update_agent_loop agent_id now body new_status rest;
        ret (agent :: rest', found)
  end.

(** [next((a for a in agents if a['id'] == agent_id), None)] *)
Fixpoint next_agent (agent_id : string) (agents : list obj) : M (option obj) :=
  match agents with
  | [] => ret None
  | a :: rest =>
      do id <- subscript a "id";
      if py_eq id (JStr agent_id) then ret (Some a) else next_agent agent_id rest
  end.

Definition update_agent_handler (agent_id : string) (body : obj) (now : datetime)
    : M response :=
  do agents <- get_agents;
  let now := stamp now in
  let new_status := get body "status" in
  do '(agents, found) <- update_agent_loop agent_id now body new_status agents;
  let agents :=
    if (found : bool) then agents
    else
      let new_agent := merge {[ "id" := JStr agent_id ]} body in
      let new_agent :=
        if truthy new_status && py_in new_status working_statuses
        then <["startedWorkingAt" := JStr now]> new_agent
        else new_agent in
      agents ++ [new_agent] in
  let agent_data := merge {[ "id" := JStr agent_id ]} body in
  do target <- next_agent agent_id agents;
  let agent_data :=
    match target with
    | Some target =>
        if dict_truthy target
        then <["startedWorkingAt" := get target "startedWorkingAt"]> agent_data
        else agent_data
    | None => agent_data
    end in
  do _ <- save_agents agents;
  do _ <- broadcast (agent_updated agent_data);
  ret (json_response ROk 200).

End Agents.
Export Agents.

(** ** Notes *)

Module Notes.

(** The [for note in notes] loop of [mark_note_read_handler]. *)
Fixpoint mark_read_loop (note_id : string) (now : string) (notes : list obj)
    : M (list obj) :=
  match notes with
  | [] => ret []
  | note :: rest =>
      do id <- subscript note "id";
      if py_eq id (JStr note_id) then
        let note := <["read" := JBool true]> note in
        let note := <["readAt" := JStr now]> note in
        ret (note :: rest)
      else
        do rest' <- mark_read_loop note_id now rest;
        ret (note :: rest')
  end.

Definition mark_note_read_handler (note_id : string) (now : datetime) : M response :=
  do notes <- get_notes;
  let now := stamp now in
  do notes <- mark_read_loop note_id now notes;
  do _ <- save_notes notes;
  do _ <- broadcast (note_updated note_id true now);
  ret (json_response ROk 200).

End Notes.
Export Notes.

(** ** The live feed *)

Module Feed.

Definition FEED_VALID_TYPES : gset string :=
  {[ "thinking"; "working"; "agent-spawned"; "agent-completed";
     "agent-failed"; "validating"; "decision"; "error"; "completed" ]}.

(** [v in s] on a set of strings: TypeError when [v] cannot be hashed *)
Definition in_set (v : json) (s : gset string) : M bool :=
  match v with
  | JStr x => ret (bool_decide (x ∈ s))
  | JArr _ | JObj _ => raise
  | JNull | JBool _ | JNum _ => ret false
  end.

Fixpoint insert_sorted (x : string) (l : list string) : list string :=
  match l with
  | [] => [x]
  | y :: rest => if (x <=? y) then x :: l else y :: insert_sorted x rest
  end.

(** [sorted(s)] *)
Definition sorted (s : gset string) : list string :=
  foldr insert_sorted [] (elements s).

(** [sep.join(l)] *)
Fixpoint join (sep : string) (l : list string) : string :=
  match l with
  | [] => ""
  | [x] => x
  | x :: rest => x +:+ sep +:+ join sep rest
  end.

Definition invalid_type_error : string :=
  "Invalid type. Must be one of: " +:+ join ", " (sorted FEED_VALID_TYPES).

(** [e['timestamp'][:10] >= today]: only a string can be sliced and then
    compared with a string. *)
Definition from_today (today : string) (e : feed_entry) : M bool :=
  match entry_timestamp e with
  | JStr ts => ret (today <=? prefix_of 10 ts)
  | _ => raise
  end.

(** [[e for e in entries if keep(e)]] *)
Fixpoint comprehension (keep : feed_entry -> M bool) (entries : list feed_entry)
    : M (list feed_entry) :=
  match entries with
  | [] => ret []
  | e :: rest =>
      do k <- keep e;
      do rest' <- comprehension keep rest;
      ret (if (k : bool) then e :: rest' else rest')
  end.

Definition prune_old_feed_entries (now : datetime) : M unit :=
  let today := strftime_Ymd now in
  do entries <- gets feed_entries;
  do kept <- comprehension (from_today today) entries;
  modify (with_feed kept).

(** [post_feed_handler]; [now] is the reading used when the body brings no
    timestamp, [now_prune] the reading of [prune_old_feed_entries]. *)
Definition post_feed_handler (body : obj) (uuid4 : string)
    (now now_prune : datetime) : M response :=
  let text := get_or body "message" (JStr "") in
  let entry_type := get_or body "type" (JStr "working") in
  let timestamp := py_or (get body "timestamp") (JStr (stamp now)) in
  do valid <- in_set entry_type FEED_VALID_TYPES;
  if negb valid then ret (json_response (RError invalid_type_error) 400)
  else
    let entry_id := prefix_of 8 uuid4 in
    let entry := mkFeedEntry entry_id text entry_type timestamp in
    do _ <- prune_old_feed_entries now_prune;
    do entries <- gets feed_entries;
    do _ <- modify (with_feed (entries ++ [entry]));
    do _ <- broadcast (feed entry);
    ret (json_response (ROkId entry_id) 201).

(** [int(request.query.get(name, default))]: the parameter is missing, is
    the text of an integer, or is a text [int] rejects (ValueError). *)
Inductive int_param : Type :=
| IntMissing
| IntOf (n : Z)
| IntInvalid.

Definition int_or (dflt : Z) (p : int_param) : M Z :=
  match p with
  | IntMissing => ret dflt
  | IntOf n => ret n
  | IntInvalid => raise
  end.

(** [e['timestamp'] > since] *)
Definition after (since : string) (e : feed_entry) : M bool :=
  match entry_timestamp e with
  | JStr ts => ret (since <? ts)
  | _ => raise
  end.

Definition get_feed_handler (since_param : option string) (limit_param : int_param)
    (now : datetime) : M response :=
  let since := default "" since_param in
  do n <- int_or 100 limit_param;
  let limit := Z.min 500 (Z.max 1 n) in
  do _ <- prune_old_feed_entries now;
  do entries <- gets feed_entries;
  do entries <- (if negb (since =? "") then comprehension (after since) entries
                 else ret entries);
  let result := last_n (Z.to_nat limit) entries in
  ret (json_response (REntries result) 200).

End Feed.
Export Feed.

(** ** Vocabulary of the statements *)

Module Props.

(** *** The collections *)

(** The collections as the handlers load them. *)
Definition tasks_of (w : world) : list obj := default [] (tasks_file w).
Definition notes_of (w : world) : list obj := default [] (notes_file w).
Definition agents_of (w : world) : list obj := default default_agents (agents_file w).

(** The world once [get_agents] has run: a missing file is created with the
    default agent. *)
Definition agents_loaded (w : world) : world :=
  match agents_file w with
  | Some _ => w
  | None => with_trace (trace w ++ [Saved AGENTS_FILE]) (with_agents (Some default_agents) w)
  end.

(** The record carries this id; the record carries some other id. *)
Definition has_id (id : string) (o : obj) : Prop := o !! "id" = Some (JStr id).
Definition other_id (id : string) (o : obj) : Prop :=
  ∃ v, o !! "id" = Some v ∧ v ≠ JStr id.

(** A string, or a value Python takes for false. *)
Definition string_or_falsy (v : json) : Prop :=
  match v with
  | JStr _ => True
  | _ => truthy v = false
  end.

(** The activity log as [get_activity] reads it, and the world once
    [add_activity] has written a line to it. *)
Definition activity_of (w : world) : list activity_entry :=
  match activity_file w with
  | Some (ActivityList entries) => entries
  | Some (ActivityDict entry) => [entry]
  | Some ActivityOther | None => []
  end.

Definition logged (now : datetime) (text : narration) (w : world) : world :=
  let entry := mkActivity (stamp now) text in
  with_trace (trace w ++ [Saved ACTIVITY_FILE; Spawned (co_broadcast (activity entry))])
    (with_activity (Some (ActivityList (last_n 500 (activity_of w ++ [entry])))) w).

(** *** The order of stamps *)

(** Every field fits the width it is printed with. *)
Definition printable (d : datetime) : Prop :=
  (year d < 10000 ∧ month d < 100 ∧ day d < 100 ∧ hour d < 100 ∧ minute d < 100
   ∧ second d < 100 ∧ microsecond d < 1000000)%N.

(** The order of time on the readings of the clock. *)
Fixpoint compare_fields (a b : list N) : comparison :=
  match a, b with
  | x :: a', y :: b' =>
      match (x ?= y)%N with
      | Eq => compare_fields a' b'
      | c => c
      end
  | _, _ => Eq
  end.

Definition fields (d : datetime) : list N :=
  [year d; month d; day d; hour d; minute d; second d; microsecond d].

Definition datetime_compare (a b : datetime) : comparison :=
  compare_fields (fields a) (fields b).

Definition earlier (a b : datetime) : Prop := datetime_compare a b = Lt.

(** The order of the days. *)
Definition earlier_day (a b : datetime) : Prop :=
  compare_fields [year a; month a; day a] [year b; month b; day b] = Lt.

(** *** Task updates *)

(** The status the body brings is a new one. *)
Definition status_moves (body task : obj) : bool :=
  truthy (get body "status") && negb (py_eq (get body "status") (get task "status")).

(** The body as the update loop leaves it: with the stamp of the move. *)
Definition stamped_body (now : string) (body task : obj) : obj :=
  if status_moves body task then
    if py_eq (get body "status") (JStr "in-progress") && negb (truthy (get task "startedAt"))
    then <["startedAt" := JStr now]> body
    else if py_in (get body "status") [JStr "done"; JStr "archive"]
            && negb (truthy (get task "completedAt"))
    then <["completedAt" := JStr now]> body
    else body
  else body.

(** The task with [completedBy] copied from the body when it moves to done. *)
Definition signed_task (now : string) (body task : obj) : obj :=
  if status_moves body task && py_eq (get body "status") (JStr "done") then
    match stamped_body now body task !! "completedBy" with
    | Some by_whom => <["completedBy" := by_whom]> task
    | None => task
    end
  else task.

Definition updated_task (now : string) (body task : obj) : obj :=
  merge (signed_task now body task) (stamped_body now body task).

(** The update moves the task into in-progress; into done or archive. *)
Definition enters_in_progress (body task : obj) : Prop :=
  get body "status" = JStr "in-progress" ∧ get task "status" ≠ JStr "in-progress".

Definition enters_done_or_archive (body task : obj) : Prop :=
  (get body "status" = JStr "done" ∨ get body "status" = JStr "archive")
  ∧ get task "status" ≠ get body "status".

(** Requests to the two task handlers, and the world after serving them. *)
Inductive request : Type :=
| CreateTask (body : obj) (uuid4 : string) (now now_activity : datetime)
| UpdateTask (task_id : string) (body : obj) (now now_activity : datetime).

Definition request_body (r : request) : obj :=
  match r with
  | CreateTask body _ _ _ => body
  | UpdateTask _ body _ _ => body
  end.

Definition serve (w : world) (r : request) : world :=
  snd (match r with
       | CreateTask body uuid4 now na => create_task_handler body uuid4 now na w
       | UpdateTask task_id body now na => update_task_handler task_id body now na w
       end).

Definition serve_all (rs : list request) (w : world) : world := fold_left serve rs w.

(** The field, once it holds a value Python takes for true, is kept. *)
Definition keeps_field (k : string) (t t' : obj) : Prop :=
  ∀ v, t !! k = Some v → truthy v = true → t' !! k = Some v.

(** *** The archive sweep *)

(** A task is due when its status is done and its [completedAt] is missing,
    is a value Python takes for false, or is a text that sorts before the
    cutoff. *)
Definition is_done (t : obj) : bool :=
  match t !! "status" with
  | Some (JStr s) => (s =? "done")
  | _ => false
  end.

Definition completed_before (cutoff : string) (t : obj) : bool :=
  match t !! "completedAt" with
  | None => true
  | Some (JStr completed) => (completed <? cutoff)
  | Some v => negb (truthy v)
  end.

Definition due (cutoff : string) (t : obj) : bool := is_done t && completed_before cutoff t.

(** The sweep can compare the task with the cutoff: [completedAt] of a done
    task is a string or a value Python takes for false. *)
Definition comparable (t : obj) : bool :=
  negb (is_done t)
  || match t !! "completedAt" with
     | None | Some (JStr _) => true
     | Some v => negb (truthy v)
     end.

Definition archived (t : obj) : obj := <["status" := JStr "archive"]> t.

Definition swept (cutoff : string) (tasks : list obj) : list obj :=
  map (λ t, if due cutoff t then archived t else t) tasks.

Definition count_due (cutoff : string) (tasks : list obj) : nat :=
  length (List.filter (due cutoff) tasks).

(** *** Agents *)

Definition busy_labels : list string :=
  ["Working"; "Thinking"; "Checking"; "Typing"; "Delegating"; "Heartbeat"; "Managing"].

(** The status is one of the busy labels; the status is Idle or Standby. *)
Definition busy (v : json) : bool :=
  match v with
  | JStr s => existsb (String.eqb s) busy_labels
  | _ => false
  end.

Definition idle (v : json) : bool :=
  match v with
  | JStr s => (s =? "Idle") || (s =? "Standby")
  | _ => false
  end.

(** The agent as an update leaves it: the body merged in, then the stamp. *)
Definition updated_agent (now : string) (body agent : obj) : obj :=
  let merged := merge agent body in
  if busy (get body "status") then
    if busy (get_or agent "status" (JStr "Idle")) && truthy (get merged "startedWorkingAt")
    then merged
    else <["startedWorkingAt" := JStr now]> merged
  else if idle (get body "status") then <["startedWorkingAt" := JNull]> merged
  else merged.

(** *** The feed *)

(** The timestamp of the entry is a text. *)
Definition has_text_timestamp (e : feed_entry) : Prop := ∃ ts, entry_timestamp e = JStr ts.

Definition timestamp_text (e : feed_entry) : string :=
  match entry_timestamp e with
  | JStr ts => ts
  | _ => ""
  end.

(** The date component of the timestamp precedes the day. *)
Definition dated_before (today : string) (e : feed_entry) : bool :=
  (prefix_of 10 (timestamp_text e) <? today).

(** The buffer without the entries of earlier days. *)
Definition pruned (today : string) (entries : list feed_entry) : list feed_entry :=
  List.filter (λ e, negb (dated_before today e)) entries.

(** The timestamp is strictly greater than [since]; every entry when [since]
    is empty. *)
Definition newer_than (since : string) (e : feed_entry) : bool :=
  (since =? "") || (since <? timestamp_text e).

(** The limit of a read: the given number brought into 1..500, 100 when none
    is given. *)
Definition limit_of (p : int_param) : nat :=
  match p with
  | IntOf n => Z.to_nat (Z.max 1 (Z.min n 500))
  | IntMissing | IntInvalid => 100
  end.


End Props.
Export Props.

(** ** Worlds and clock readings of the examples *)

Module Examples.

(** Two readings of the clock on 2026-11-03. *)
Definition morning : datetime := mkDatetime 2026 11 3 9 5 0 0.
Definition noon : datetime := mkDatetime 2026 11 3 12 0 0 250.

(** A notes file with two notes. *)
Definition note_world : world :=
  mkWorld None None None
    (Some [ {[ "id" := JStr "n0"; "content" := JStr "milk" ]};
            {[ "id" := JStr "n1"; "content" := JStr "call back"; "read" := JBool false ]} ])
    [] [].

(** A task file with one task. *)
Definition report_task : obj :=
  list_to_map
    [ ("id", JStr "0a1b2c3d"); ("title", JStr "Write report"); ("status", JStr "todo");
      ("createdAt", JStr "2026-11-02T08:00:00Z"); ("startedAt", JNull);
      ("completedAt", JNull) ].

Definition task_world : world := mkWorld (Some [report_task]) None None None [] [].

(** That task once it has been moved to in-progress in the morning. *)
Definition started_world : world :=
  serve task_world (UpdateTask "0a1b2c3d" {[ "status" := JStr "in-progress" ]} morning morning).

(** A task file for the sweep: done without [completedAt], done long ago,
    done yesterday, and still open. *)
Definition sweep_world : world :=
  mkWorld
    (Some [ {[ "id" := JStr "a1"; "status" := JStr "done" ]};
            {[ "id" := JStr "b2"; "status" := JStr "done";
               "completedAt" := JStr "2026-10-20T10:00:00Z" ]};
            {[ "id" := JStr "c3"; "status" := JStr "done";
               "completedAt" := JStr "2026-11-02T10:00:00Z" ]};
            {[ "id" := JStr "d4"; "status" := JStr "todo"; "completedAt" := JNull ]} ])
    None None None [] [].

(** An agents file with one agent that is busy and has no
    [startedWorkingAt], and one that has been working since eight. *)
Definition agent_world : world :=
  mkWorld None
    (Some [ {[ "id" := JStr "scout"; "status" := JStr "Working" ]};
            {[ "id" := JStr "coder"; "status" := JStr "Typing";
               "startedWorkingAt" := JStr "2026-11-03T08:00:00Z" ]} ])
    None None [] [].

(** A feed with an entry of the day before and two of the day. *)
Definition feed_world : world :=
  mkWorld None None None None
    [ mkFeedEntry "e0000001" (JStr "nightly build") (JStr "working") (JStr "2026-11-02T23:50:00Z");
      mkFeedEntry "e0000002" (JStr "planning") (JStr "thinking") (JStr "2026-11-03T08:00:00Z");
      mkFeedEntry "e0000003" (JStr "tests failed") (JStr "error") (JStr "2026-11-03T08:30:00Z") ]
    [].

End Examples.
Export Examples.

(** ** Further vocabulary: what the handlers leave behind *)

Module Outcomes.

(** The task [create_task_handler] builds from a request. *)
Definition new_task (body : obj) (uuid4 : string) (now : datetime) : obj :=
  let status := get_or body "status" (JStr "todo") in
  merge (list_to_map
           [ ("id", JStr (prefix_of 8 uuid4));
             ("createdAt", JStr (stamp now));
             ("startedAt", if py_eq status (JStr "in-progress") then JStr (stamp now) else JNull);
             ("completedAt",
               if py_in status [JStr "done"; JStr "archive"] then JStr (stamp now) else JNull) ])
        body.

(** The world once the new task is saved, logged and announced. *)
Definition announced (body : obj) (uuid4 : string) (now na : datetime) (w : world) : world :=
  let task := new_task body uuid4 now in
  let line := mkActivity (stamp na) (NewTask (get_or task "title" (JStr "Untitled"))) in
  with_trace (trace w ++ [ Saved TASKS_FILE; Saved ACTIVITY_FILE;
                           Spawned (co_broadcast (activity line));
                           Broadcast (task_created task) ])
    (with_activity (Some (ActivityList (last_n 500 (activity_of w ++ [line]))))
       (with_tasks (Some (tasks_of w ++ [task])) w)).

(** The world of an update before the tasks are saved: with the line of the
    move in the activity log when the status moves. *)
Definition move_logged (now : string) (na : datetime) (body task : obj) (w : world) : world :=
  if status_moves body task
  then logged na (TaskMoved (get body "status")
                    (get_or (signed_task now body task) "title" (JStr "Untitled"))) w
  else w.

End Outcomes.
Export Outcomes.

(** ** The handlers that only read *)

Module Listings.

(** [web.json_response(items)] with a list for a body. *)
Record listing (A : Type) : Type := json_list_response {
  items_of : list A;
  listing_status : nat }.
Arguments json_list_response {A} items_of listing_status.
Arguments items_of {A} l.
Arguments listing_status {A} l.

(** [s.lower()] on the ASCII letters; the handlers compare the result with
    an ASCII word only, for which the other characters do not matter. *)
Definition lower_char (c : ascii) : ascii :=
  let n := N_of_ascii c in
  if ((65 <=? n) && (n <=? 90))%N then ascii_of_N (n + 32) else c.

Fixpoint lower (s : string) : string :=
  match s with
  | EmptyString => EmptyString
  | String c rest => String (lower_char c) (lower rest)
  end.

(** [t.get('status') in ('todo', 'in-progress')] *)
Definition is_active (t : obj) : bool :=
  py_in (get t "status") [JStr "todo"; JStr "in-progress"].

(** [get_tasks_handler]; [active_param] is [request.query.get('active')]. *)
Definition get_tasks_handler (active_param : option string) : M (listing obj) :=
  do tasks <- get_tasks;
  let active := lower (default "" active_param) in
  let tasks := if (active =? "true") then List.filter is_active tasks else tasks in
  ret (json_list_response tasks 200).

(** [l[start:]]: a negative [start] counts from the end. *)
Definition slice_from {A} (start : Z) (l : list A) : list A :=
  if (start <? 0)%Z then drop (Z.to_nat (Z.max 0 (Z.of_nat (length l) + start))) l
  else drop (Z.to_nat start) l.

(** [get_activity_handler]; [get_activity] always hands over a list. *)
Definition get_activity_handler (since_param : int_param) : M (listing activity_entry) :=
  do since <- int_or 0 since_param;
  do activity <- get_activity;
  ret (json_list_response (slice_from since activity) 200).

Definition get_agents_handler : M (listing obj) :=
  do agents <- get_agents;
  ret (json_list_response agents 200).

Definition get_notes_handler : M (listing obj) :=
  do notes <- get_notes;
  ret (json_list_response notes 200).

End Listings.
Export Listings.

(** ** The handlers that delete *)

Module Removal.

(** The messages these handlers broadcast, which [message] does not list. *)
Inductive notice : Type :=
| agent_removed (id : string)       (* {"type": "agent_removed", "data": {"id": id}} *)
| note_deleted (id : string)        (* {"type": "note_deleted", "data": {"id": id}} *)
| feed_cleared.                     (* {"type": "feed_cleared"} *)

(** What a handler does to the outside: an effect of the world, or the
    broadcast of a notice. *)
Inductive event : Type :=
| Did (e : effect)
| Announced (n : notice).

(** The world, and everything done so far, in order. *)
Record state : Type := mkState {
  store : world;
  events : list event }.

Definition W (A : Type) : Type := state -> outcome A * state.

Definition wret {A} (a : A) : W A := fun s => (Ok a, s).
Definition wbind {A B} (c : W A) (k : A -> W B) : W B :=
  fun s => match c s with
           | (Ok a, s') => k a s'
           | (Raise, s') => (Raise, s')
           end.

(** A computation of the world run inside: what it adds to the trace is
    added to the events. *)
Definition lift {A} (c : M A) : W A :=
  fun s => let '(o, w') := c (store s) in
           (o, mkState w' (events s ++ (Did <$> drop (length (trace (store s))) (trace w')))).

(** [await broadcast(notice)] *)
Definition announce (n : notice) : W unit :=
  fun s => (Ok tt, mkState (store s) (events s ++ [Announced n])).

End Removal.
Export Removal.

Notation "'wdo' x <- c1 ; c2" := (wbind c1 (fun x => c2))
  (at level 10, x name, c1 at level 100, c2 at level 200).

Module Deleting.

(** [[r for r in records if r['id'] != id]] *)
Fixpoint others (id : string) (records : list obj) : M (list obj) :=
  match records with
  | [] => ret []
  | r :: rest =>
      do v <- subscript r "id";
      do rest' <- others id rest;
      ret (if py_eq v (JStr id) then rest' else r :: rest')
  end.

Definition remove_agent_handler (agent_id : string) : W response :=
  wdo agents <- lift get_agents;
  wdo agents <- lift (others agent_id agents);
  wdo _ <- lift (save_agents agents);
  wdo _ <- announce (agent_removed agent_id);
  wret (json_response ROk 200).

Definition delete_note_handler (note_id : string) : W response :=
  wdo notes <- lift get_notes;
  wdo notes <- lift (others note_id notes);
  wdo _ <- lift (save_notes notes);
  wdo _ <- announce (note_deleted note_id);
  wret (json_response ROk 200).

(** [web.json_response({"ok": True, "cleared": count})] *)
Record clearing : Type := json_cleared_response {
  cleared : nat;
  clearing_status : nat }.

Definition clear_feed_handler : W clearing :=
  wdo count <- lift (gets (fun w => length (feed_entries w)));
  wdo _ <- lift (modify (with_feed []));
  wdo _ <- announce feed_cleared;
  wret (json_cleared_response count 200).

End Deleting.
Export Deleting.

(** * Properties *)

(** The end of a handler: the collection is saved and the change broadcast,
    two entries more in the trace. *)
Ltac save_and_broadcast :=
  unfold save_tasks, save_agents, save_notes, broadcast, emit, modify, bind, ret,
    with_trace, with_tasks, with_agents, with_notes;
  cbn; rewrite <- ?app_assoc; reflexivity.

(** ** Python equality against a string; the stamps of the clock *)

Lemma string_eqb_true (a b : string) : (a =? b) = true ↔ a = b.
Proof. apply String.eqb_eq. Qed.

Lemma py_eq_str (v : json) (s : string) : py_eq v (JStr s) = true ↔ v = JStr s.
Proof.
  destruct v as [| b | n | x | items | fields]; simpl;
    try (split; [discriminate | congruence]).
  rewrite string_eqb_true. split; congruence.
Qed.

Lemma py_eq_str_false (v : json) (s : string) : py_eq v (JStr s) = false ↔ v ≠ JStr s.
Proof.
  rewrite <- py_eq_str. destruct (py_eq v (JStr s)); split; congruence.
Qed.

Lemma py_eq_has_id (id : string) (o : obj) (v : json) :
  o !! "id" = Some v → py_eq v (JStr id) = true → has_id id o.
Proof. intros Hv He. apply py_eq_str in He. subst v. exact Hv. Qed.

Lemma stamp_not_empty (d : datetime) : ∃ c s, stamp d = String c s.
Proof. unfold stamp, isoformat. simpl. eauto. Qed.

Lemma stamp_truthy (d : datetime) : truthy (JStr (stamp d)) = true.
Proof. destruct (stamp_not_empty d) as (c & s & ->). reflexivity. Qed.

Lemma empty_before_stamp (d : datetime) : ("" <? stamp d) = true.
Proof. destruct (stamp_not_empty d) as (c & s & ->). reflexivity. Qed.

(** ** The order of stamps is the order of time *)

Lemma append_assoc (a b c : string) : (a +:+ b) +:+ c = a +:+ (b +:+ c).
Proof.
  induction a as [| x a IH]; [reflexivity |].
  change (String x ((a +:+ b) +:+ c) = String x (a +:+ (b +:+ c))). by rewrite IH.
Qed.

Lemma digit_compare (a b : N) :
  Ascii.compare (digit a) (digit b) = (a mod 10 ?= b mod 10)%N.
Proof.
  unfold Ascii.compare, digit.
  assert (Ha : (a mod 10 < 10)%N) by (apply N.mod_lt; lia).
  assert (Hb : (b mod 10 < 10)%N) by (apply N.mod_lt; lia).
  rewrite !N_ascii_embedding by lia.
  destruct (N.compare_spec (a mod 10) (b mod 10)) as [H | H | H];
    [apply N.compare_eq_iff | apply N.compare_lt_iff | apply N.compare_gt_iff]; lia.
Qed.

(** Two numbers printed at the same width compare as texts the way they
    compare as numbers; when they are equal the rest of the texts decides. *)
Lemma zfill_compare (width : nat) (a b : N) (r1 r2 : string) :
  (a < 10 ^ N.of_nat width)%N → (b < 10 ^ N.of_nat width)%N →
  String.compare (zfill width a +:+ r1) (zfill width b +:+ r2)
  = match (a ?= b)%N with
    | Eq => String.compare r1 r2
    | c => c
    end.
Proof.
  revert a b r1 r2. induction width as [| w IH]; intros a b r1 r2 Ha Hb.
  - simpl in Ha, Hb. assert (a = 0%N) by lia. assert (b = 0%N) by lia. subst. reflexivity.
  - cbn [zfill]. rewrite !append_assoc.
    rewrite Nat2N.inj_succ, N.pow_succ_r' in Ha, Hb.
    assert (Hqa : (a / 10 < 10 ^ N.of_nat w)%N) by (apply N.Div0.div_lt_upper_bound; lia).
    assert (Hqb : (b / 10 < 10 ^ N.of_nat w)%N) by (apply N.Div0.div_lt_upper_bound; lia).
    rewrite (IH _ _ _ _ Hqa Hqb).
    change (String (digit a) "" +:+ r1) with (String (digit a) r1).
    change (String (digit b) "" +:+ r2) with (String (digit b) r2).
    cbn [String.compare]. rewrite digit_compare.
    pose proof (N.div_mod a 10 ltac:(lia)) as Hda.
    pose proof (N.div_mod b 10 ltac:(lia)) as Hdb.
    assert (Hra : (a mod 10 < 10)%N) by (apply N.mod_lt; lia).
    assert (Hrb : (b mod 10 < 10)%N) by (apply N.mod_lt; lia).
    generalize dependent (a mod 10)%N. generalize dependent (b mod 10)%N.
    generalize dependent (a / 10)%N. generalize dependent (b / 10)%N.
    intros qb _ qa _ rb Hdb Hrb ra Hda Hra.
    destruct (N.compare_spec qa qb) as [Hq | Hq | Hq];
      [destruct (N.compare_spec ra rb) as [Hr | Hr | Hr] | |].
    + replace (a ?= b)%N with Eq by (symmetry; apply N.compare_eq_iff; lia). reflexivity.
    + replace (a ?= b)%N with Lt by (symmetry; apply N.compare_lt_iff; lia). reflexivity.
    + replace (a ?= b)%N with Gt by (symmetry; apply N.compare_gt_iff; lia). reflexivity.
    + replace (a ?= b)%N with Lt by (symmetry; apply N.compare_lt_iff; lia). reflexivity.
    + replace (a ?= b)%N with Gt by (symmetry; apply N.compare_gt_iff; lia). reflexivity.
Qed.

Lemma separator_compare (c : ascii) (r1 r2 : string) :
  String.compare (String c "" +:+ r1) (String c "" +:+ r2) = String.compare r1 r2.
Proof.
  change (String c "" +:+ r1) with (String c r1).
  change (String c "" +:+ r2) with (String c r2).
  cbn [String.compare]. unfold Ascii.compare. by rewrite N.compare_refl.
Qed.

Ltac next_field :=
  rewrite zfill_compare by (cbn; lia);
  match goal with
  | |- context [(?x ?= ?y)%N] => destruct (x ?= y)%N; [| reflexivity | reflexivity]
  end;
  rewrite ?separator_compare.

(** For readings that both have, or both lack, a fraction of a second, the
    stamps compare as texts the way the readings compare in time. *)
Lemma stamp_compare (a b : datetime) :
  printable a → printable b →
  (microsecond a = 0%N ↔ microsecond b = 0%N) →
  String.compare (stamp a) (stamp b) = datetime_compare a b.
Proof.
  intros (Hy & Hm & Hd & Hh & Hmi & Hs & Hu) (Hy' & Hm' & Hd' & Hh' & Hmi' & Hs' & Hu') Hfrac.
  unfold stamp, isoformat, datetime_compare, fields. cbn [compare_fields].
  rewrite !append_assoc.
  do 6 next_field.
  destruct (N.eqb_spec (microsecond a) 0) as [Ha | Ha];
    destruct (N.eqb_spec (microsecond b) 0) as [Hb | Hb]; try tauto.
  - rewrite Ha, Hb. reflexivity.
  - rewrite !append_assoc, separator_compare, zfill_compare by (cbn; lia).
    by destruct (microsecond a ?= microsecond b)%N.
Qed.

Lemma stamp_earlier (a b : datetime) :
  printable a → printable b →
  (microsecond a = 0%N ↔ microsecond b = 0%N) →
  (stamp a <? stamp b) = true ↔ earlier a b.
Proof.
  intros Ha Hb Hfrac. unfold String.ltb, earlier. rewrite (stamp_compare a b Ha Hb Hfrac).
  destruct (datetime_compare a b); split; congruence.
Qed.

Lemma length_append (a b : string) :
  String.length (a +:+ b) = String.length a + String.length b.
Proof.
  induction a as [| c a IH]; [reflexivity |].
  change (String c a +:+ b) with (String c (a +:+ b)). cbn [String.length]. by rewrite IH.
Qed.

Lemma zfill_length (width : nat) (n : N) : String.length (zfill width n) = width.
Proof.
  revert n. induction width as [| w IH]; intros n; [reflexivity |].
  cbn [zfill]. rewrite length_append, IH. cbn. lia.
Qed.

Lemma prefix_of_append (a b : string) : prefix_of (String.length a) (a +:+ b) = a.
Proof.
  unfold prefix_of. induction a as [| c a IH].
  - destruct b; reflexivity.
  - change (String c a +:+ b) with (String c (a +:+ b)). cbn [String.length substring].
    by rewrite IH.
Qed.

(** The first ten characters of a stamp are its date. *)
Lemma stamp_date (d : datetime) : prefix_of 10 (stamp d) = strftime_Ymd d.
Proof.
  unfold stamp, isoformat.
  set (time := "T" +:+ _).
  replace (zfill 4 (year d) +:+ "-" +:+ zfill 2 (month d) +:+ "-" +:+ zfill 2 (day d) +:+ time)
    with (strftime_Ymd d +:+ time)
    by (unfold strftime_Ymd; by rewrite !append_assoc).
  rewrite append_assoc.
  replace 10 with (String.length (strftime_Ymd d)); [apply prefix_of_append |].
  unfold strftime_Ymd. rewrite !length_append, !zfill_length. reflexivity.
Qed.

Lemma append_empty (a : string) : a +:+ "" = a.
Proof.
  induction a as [| c a IH]; [reflexivity |].
  change (String c a +:+ "") with (String c (a +:+ "")). by rewrite IH.
Qed.

(** An entry stamped by the clock is dated before the day of a later reading
    exactly when its day is an earlier one. *)
Lemma dated_before_earlier_day (e : feed_entry) (d now : datetime) :
  printable d → printable now →
  entry_timestamp e = JStr (stamp d) →
  dated_before (strftime_Ymd now) e = true ↔ earlier_day d now.
Proof.
  intros (Hy & Hm & Hd & _) (Hy' & Hm' & Hd' & _) Hts.
  unfold dated_before, timestamp_text, earlier_day. rewrite Hts, stamp_date.
  unfold String.ltb, strftime_Ymd. cbn [compare_fields].
  rewrite <- (append_empty (zfill 2 (day d))), <- (append_empty (zfill 2 (day now))).
  assert (Hcmp : String.compare
                   (zfill 4 (year d) +:+ "-" +:+ zfill 2 (month d) +:+ "-" +:+ zfill 2 (day d) +:+ "")
                   (zfill 4 (year now) +:+ "-" +:+ zfill 2 (month now) +:+ "-"
                      +:+ zfill 2 (day now) +:+ "")
                 = match (year d ?= year now)%N with
                   | Eq => match (month d ?= month now)%N with
                           | Eq => match (day d ?= day now)%N with
                                   | Eq => Eq
                                   | c => c
                                   end
                           | c => c
                           end
                   | c => c
                   end).
  { do 2 next_field. rewrite zfill_compare by (cbn; lia).
    by destruct (day d ?= day now)%N. }
  rewrite Hcmp.
  destruct (year d ?= year now)%N, (month d ?= month now)%N, (day d ?= day now)%N;
    split; congruence.
Qed.

Lemma prev_day_printable (d d' : datetime) :
  printable d → prev_day d = Some d' → printable d'.
Proof.
  intros (Hy & Hm & Hd & Hrest). unfold prev_day.
  assert (Hdim : ∀ y m, (days_in_month y m < 100)%N).
  { intros y m. unfold days_in_month. repeat case_match; lia. }
  repeat case_match; intros [= <-]; unfold printable; cbn;
    repeat split; try tauto; try lia; apply Hdim.
Qed.

Lemma minus_days_printable (n : nat) (d d' : datetime) :
  printable d → minus_days n d = Some d' → printable d'.
Proof.
  revert d. induction n as [| n IH]; intros d Hd; cbn [minus_days].
  - by intros [= <-].
  - destruct (prev_day d) as [d1 |] eqn:Hprev; [| discriminate].
    apply IH. by eapply prev_day_printable.
Qed.

Lemma minus_days_microsecond (n : nat) (d d' : datetime) :
  minus_days n d = Some d' → microsecond d' = microsecond d.
Proof.
  revert d. induction n as [| n IH]; intros d; cbn [minus_days].
  - by intros [= <-].
  - destruct (prev_day d) as [d1 |] eqn:Hprev; [| discriminate].
    intros H. rewrite (IH _ H). unfold prev_day in Hprev.
    repeat case_match; by simplify_eq.
Qed.

(** A task completed at a reading of the clock is before the cutoff exactly
    when that reading is earlier than the instant seven days before now. *)
Lemma completed_before_earlier (t : obj) (d now week_ago : datetime) :
  printable d → printable now →
  (microsecond d = 0%N ↔ microsecond now = 0%N) →
  minus_days 7 now = Some week_ago →
  t !! "completedAt" = Some (JStr (stamp d)) →
  completed_before (stamp week_ago) t = true ↔ earlier d week_ago.
Proof.
  intros Hd Hnow Hfrac Hweek Ht. unfold completed_before. rewrite Ht.
  apply stamp_earlier; [exact Hd | by eapply minus_days_printable |].
  by rewrite (minus_days_microsecond _ _ _ Hweek).
Qed.

(** ** Lookups, merges and the activity log *)

Lemma subscript_id (id : string) (o : obj) (w : world) :
  has_id id o → subscript o "id" w = (Ok (JStr id), w).
Proof. unfold has_id, subscript. intros ->. reflexivity. Qed.

Lemma subscript_other (id : string) (o : obj) (w : world) :
  other_id id o → ∃ v, subscript o "id" w = (Ok v, w) ∧ py_eq v (JStr id) = false.
Proof.
  intros (v & Hv & Hne). exists v. unfold subscript. rewrite Hv.
  split; [reflexivity | by apply py_eq_str_false].
Qed.

Lemma py_eq_refl_str (s : string) : py_eq (JStr s) (JStr s) = true.
Proof. by apply py_eq_str. Qed.

Lemma py_eq_str_l (s : string) (v : json) : py_eq (JStr s) v = true ↔ v = JStr s.
Proof.
  destruct v as [| b | n | x | items | fields]; simpl;
    try (split; [discriminate | congruence]).
  rewrite string_eqb_true. split; congruence.
Qed.

Lemma in_done_archive (v : json) :
  py_in v [JStr "done"; JStr "archive"] = true ↔ v = JStr "done" ∨ v = JStr "archive".
Proof.
  unfold py_in. cbn [existsb]. rewrite orb_false_r, orb_true_iff, !py_eq_str. reflexivity.
Qed.

Lemma merge_lookup_over (base over : obj) (k : string) (v : json) :
  over !! k = Some v → merge base over !! k = Some v.
Proof. intros H. unfold merge. by apply lookup_union_Some_l. Qed.

Lemma merge_lookup_base (base over : obj) (k : string) :
  over !! k = None → merge base over !! k = base !! k.
Proof. intros H. unfold merge. by rewrite lookup_union_r. Qed.

Lemma with_trace_same (w : world) : with_trace (trace w ++ []) w = w.
Proof. destruct w. unfold with_trace. simpl. by rewrite app_nil_r. Qed.

Lemma add_activity_run (now : datetime) (text : narration) (w : world) :
  add_activity now text w
  = (Ok (last_n 500 (activity_of w ++ [mkActivity (stamp now) text])), logged now text w).
Proof.
  unfold add_activity, get_activity, emit, modify, gets, bind, ret, logged, activity_of.
  simpl. unfold with_trace, with_activity. simpl. rewrite <- app_assoc. reflexivity.
Qed.

Lemma leb_not_ltb (a b : string) : (a <=? b) = negb (b <? a).
Proof.
  unfold String.leb, String.ltb. rewrite (String.compare_antisym a b).
  destruct (String.compare b a); reflexivity.
Qed.

Lemma filter_everything {A} (l : list A) : List.filter (λ _, true) l = l.
Proof. induction l as [| x l IH]; [reflexivity |]. cbn [List.filter]. by rewrite IH. Qed.

Lemma last_n_suffix {A} (n : nat) (l : list A) :
  ∃ older, l = older ++ last_n n l ∧ length (last_n n l) = min n (length l).
Proof.
  exists (take (length l - n) l). unfold last_n. split.
  - by rewrite take_drop.
  - rewrite length_drop. lia.
Qed.

(** ** Notes: marking a note read *)

Lemma mark_read_loop_hit (note_id now : string) (before after : list obj) (note : obj)
    (w : world) :
  Forall (other_id note_id) before → has_id note_id note →
  mark_read_loop note_id now (before ++ note :: after) w
  = (Ok (before ++ <["readAt" := JStr now]> (<["read" := JBool true]> note) :: after), w).
Proof.
  intros Hbefore Hnote. induction Hbefore as [| o before Ho _ IH]; simpl.
  - unfold bind. rewrite (subscript_id _ _ _ Hnote), py_eq_refl_str. reflexivity.
  - unfold bind at 1. destruct (subscript_other _ _ w Ho) as (v & -> & ->).
    unfold bind. rewrite IH. reflexivity.
Qed.

(** C8, as the code has it: marking a note read stamps [readAt] with the time
    of that very request, whatever [readAt] held before; [read] becomes true,
    the other notes stay as they were, the notes are saved and the change is
    broadcast. *)
Theorem mark_read_stamps_every_time (w : world) (note_id : string) (now : datetime)
    (before after : list obj) (note : obj) :
  notes_of w = before ++ note :: after →
  Forall (other_id note_id) before →
  has_id note_id note →
  let note' := <["readAt" := JStr (stamp now)]> (<["read" := JBool true]> note) in
  mark_note_read_handler note_id now w
  = (Ok (json_response ROk 200),
     with_trace (trace w ++ [Saved NOTES_FILE;
                             Broadcast (note_updated note_id true (stamp now))])
       (with_notes (Some (before ++ note' :: after)) w))
  ∧ note' !! "readAt" = Some (JStr (stamp now))
  ∧ note' !! "read" = Some (JBool true).
Proof.
  intros Hnotes Hbefore Hnote note'. split; [| split].
  - unfold mark_note_read_handler, get_notes, bind at 1, gets.
    fold (notes_of w). rewrite Hnotes.
    unfold bind at 1. rewrite (mark_read_loop_hit _ _ _ _ _ _ Hbefore Hnote).
    save_and_broadcast.
  - subst note'. by rewrite lookup_insert_eq.
  - subst note'. rewrite lookup_insert_ne by done. by rewrite lookup_insert_eq.
Qed.

Lemma mark_read_stamps_every_time_witness :
  let w := note_world in
  let now := mkDatetime 2026 11 3 9 5 0 0 in
  get (nth 1 (notes_of (snd (mark_note_read_handler "n1" now w))) ∅) "readAt"
  = JStr "2026-11-03T09:05:00Z".
Proof.
  intros w now.
  destruct (mark_read_stamps_every_time w "n1" now
              [ {[ "id" := JStr "n0"; "content" := JStr "milk" ]} ] []
              {[ "id" := JStr "n1"; "content" := JStr "call back"; "read" := JBool false ]})
    as (Hrun & _ & _).
  - reflexivity.
  - repeat constructor. exists (JStr "n0"). split; [reflexivity | discriminate].
  - reflexivity.
  - rewrite Hrun. reflexivity.
Defined.

(** C8, the claim as written fails: two mark-read requests on one note, two
    minutes apart, leave the time of the second in [readAt]. *)
Lemma mark_read_twice_restamps :
  let first := mkDatetime 2026 11 3 9 5 0 0 in
  let second := mkDatetime 2026 11 3 9 7 0 0 in
  let w1 := snd (mark_note_read_handler "n1" first note_world) in
  let w2 := snd (mark_note_read_handler "n1" second w1) in
  get (nth 1 (notes_of w1) ∅) "readAt" = JStr "2026-11-03T09:05:00Z"
  ∧ get (nth 1 (notes_of w2) ∅) "readAt" = JStr "2026-11-03T09:07:00Z"
  ∧ get (nth 1 (notes_of w2) ∅) "readAt" ≠ get (nth 1 (notes_of w1) ∅) "readAt".
Proof. vm_compute. repeat split; discriminate. Qed.

(** ** Tasks: updating *)

Lemma update_task_loop_skip (task_id now : string) (na : datetime) (body : obj)
    (before rest : list obj) (w : world) :
  Forall (other_id task_id) before →
  update_task_loop task_id now na body (before ++ rest) w
  = match update_task_loop task_id now na body rest w with
    | (Ok (rest', body'), w') => (Ok (before ++ rest', body'), w')
    | (Raise, w') => (Raise, w')
    end.
Proof.
  induction 1 as [| o before Ho _ IH]; simpl.
  - destruct (update_task_loop _ _ _ _ rest w) as [[[rest' body'] |] w']; reflexivity.
  - unfold bind at 1. destruct (subscript_other _ _ w Ho) as (v & -> & ->).
    unfold bind. rewrite IH.
    destruct (update_task_loop _ _ _ _ rest w) as [[[rest' body'] |] w']; reflexivity.
Qed.

Lemma update_task_loop_miss (task_id now : string) (na : datetime) (body : obj)
    (tasks : list obj) (w : world) :
  Forall (other_id task_id) tasks →
  update_task_loop task_id now na body tasks w = (Ok (tasks, body), w).
Proof.
  intros H. rewrite <- (app_nil_r tasks) at 1.
  rewrite (update_task_loop_skip _ _ _ _ _ _ _ H). simpl.
  by rewrite app_nil_r.
Qed.

(** A request that brings no (truthy) status changes the matching task by
    merging the body into it, and nothing else. *)
Lemma update_task_loop_plain (task_id now : string) (na : datetime) (body : obj)
    (before after : list obj) (task : obj) (w : world) :
  Forall (other_id task_id) before → has_id task_id task →
  truthy (get body "status") = false →
  update_task_loop task_id now na body (before ++ task :: after) w
  = (Ok (before ++ merge task body :: after, body), w).
Proof.
  intros Hbefore Htask Hstatus.
  rewrite (update_task_loop_skip _ _ _ _ _ _ _ Hbefore). simpl.
  unfold bind. rewrite (subscript_id _ _ _ Htask), py_eq_refl_str, Hstatus. reflexivity.
Qed.

Lemma update_task_handler_run (task_id : string) (body : obj) (now na : datetime)
    (w : world) :
  update_task_handler task_id body now na w
  = match update_task_loop task_id (stamp now) na body (tasks_of w) w with
    | (Ok (tasks', body'), w') =>
        (Ok (json_response ROk 200),
         with_trace (trace w' ++ [Saved TASKS_FILE;
                                  Broadcast (task_updated (merge {[ "id" := JStr task_id ]} body'))])
           (with_tasks (Some tasks') w'))
    | (Raise, w') => (Raise, w')
    end.
Proof.
  unfold update_task_handler, get_tasks, bind at 1, gets. fold (tasks_of w).
  unfold bind at 1.
  destruct (update_task_loop _ _ _ _ _ w) as [[[tasks' body'] |] w']; [| reflexivity].
  save_and_broadcast.
Qed.

(** ** Tasks: creating *)

(** Triggering the agent adds at most one spawned coroutine and fails only
    on an [assignedTo] that is truthy and not a string. *)
Lemma trigger_when_assigned_run (task : obj) (w : world) :
  is_Some (task !! "id") →
  ∃ tail, snd (trigger_when_assigned task w) = with_trace (trace w ++ tail) w
    ∧ (string_or_falsy (get_or task "assignedTo" (JStr "")) →
       fst (trigger_when_assigned task w) = Ok tt).
Proof.
  intros [id Hid]. unfold trigger_when_assigned, string_or_falsy.
  destruct (get_or task "assignedTo" (JStr "")) as [| b | n | s | items | fields];
    simpl; try (exists []; rewrite with_trace_same; split; [reflexivity | done]).
  - destruct b; simpl; exists []; rewrite with_trace_same; split; done.
  - destruct (negb (n =? 0)%Z); simpl; exists []; rewrite with_trace_same; split; done.
  - destruct (negb (s =? "")); [| exists []; rewrite with_trace_same; split; done].
    unfold startswith, bind, ret. destruct (String.prefix "Agent:" s).
    + unfold subscript. rewrite Hid. simpl.
      exists [Spawned (co_trigger_agent id)]. split; reflexivity.
    + exists []. rewrite with_trace_same. split; done.
  - destruct items; simpl; exists []; rewrite with_trace_same; split; done.
  - destruct fields; simpl; exists []; rewrite with_trace_same; split; done.
Qed.

Lemma create_task_handler_run (body : obj) (uuid4 : string) (now na : datetime) (w : world) :
  let task :=
    merge (list_to_map
             [ ("id", JStr (prefix_of 8 uuid4));
               ("createdAt", JStr (stamp now));
               ("startedAt", if py_eq (get_or body "status" (JStr "todo")) (JStr "in-progress")
                             then JStr (stamp now) else JNull);
               ("completedAt",
                 if py_in (get_or body "status" (JStr "todo")) [JStr "done"; JStr "archive"]
                 then JStr (stamp now) else JNull) ])
          body in
  let text := NewTask (get_or task "title" (JStr "Untitled")) in
  ∃ tail o,
    create_task_handler body uuid4 now na w
    = (o, with_trace (trace w ++ [Saved TASKS_FILE; Saved ACTIVITY_FILE;
                              Spawned (co_broadcast (activity (mkActivity (stamp na) text)));
                              Broadcast (task_created task)] ++ tail)
        (with_activity (Some (ActivityList (last_n 500 (activity_of w ++ [mkActivity (stamp na) text]))))
           (with_tasks (Some (tasks_of w ++ [task])) w)))
    ∧ (string_or_falsy (get_or task "assignedTo" (JStr "")) →
       o = Ok (json_response (RTask task) 201)).
Proof.
  intros task text.
  unfold create_task_handler. unfold get_tasks, bind at 1, gets. fold (tasks_of w). fold task.
  unfold save_tasks, broadcast, emit, modify. unfold bind at 1 2 3 4 5. unfold ret at 1.
  rewrite add_activity_run. fold text.
  match goal with |- context [trigger_when_assigned task ?w1] => set (w1' := w1) end.
  destruct (trigger_when_assigned_run task w1') as (tail & Hw & Hok).
  { subst task. unfold merge. destruct (body !! "id") as [v |] eqn:Hb.
    - exists v. by apply lookup_union_Some_l.
    - rewrite lookup_union_r by done. vm_compute. eauto. }
  exists tail. unfold bind, ret.
  destruct (trigger_when_assigned task w1') as [[[] |] w2] eqn:Hrun; cbn [fst snd] in Hw, Hok |- *.
  - eexists. split; [| done]. subst w2 w1'. unfold logged, with_trace, with_activity, with_tasks.
    simpl. rewrite <- !app_assoc. reflexivity.
  - eexists. split; [| intros H; specialize (Hok H); discriminate].
    subst w2 w1'. unfold logged, with_trace, with_activity, with_tasks.
    simpl. rewrite <- !app_assoc. reflexivity.
Qed.

(** C9, as the code has it: the task that is appended, saved, broadcast and
    answered carries every field of the request body; under them, where the
    body is silent, the first eight characters of the fresh UUID as [id], the
    current time as [createdAt], the current time or null as [startedAt]
    (status in-progress or not) and as [completedAt] (status done or archive,
    or not).  Nothing compares the id with those in the collection: it is the
    only task of that id when the eight characters are not in use. *)
Theorem created_task_fields (w : world) (body : obj) (uuid4 : string) (now na : datetime) :
  let status := get_or body "status" (JStr "todo") in
  let id := prefix_of 8 uuid4 in
  ∃ (task : obj) (o : outcome response) (w' : world),
    create_task_handler body uuid4 now na w = (o, w')
    ∧ tasks_file w' = Some (tasks_of w ++ [task])
    ∧ In (Saved TASKS_FILE) (trace w')
    ∧ In (Broadcast (task_created task)) (trace w')
    ∧ (string_or_falsy (get_or body "assignedTo" (JStr "")) →
         o = Ok (json_response (RTask task) 201))
    ∧ (∀ k v, body !! k = Some v → task !! k = Some v)
    ∧ (body !! "id" = None → task !! "id" = Some (JStr id))
    ∧ (body !! "createdAt" = None → task !! "createdAt" = Some (JStr (stamp now)))
    ∧ (body !! "startedAt" = None →
         (status = JStr "in-progress" → task !! "startedAt" = Some (JStr (stamp now)))
         ∧ (status ≠ JStr "in-progress" → task !! "startedAt" = Some JNull))
    ∧ (body !! "completedAt" = None →
         (status = JStr "done" ∨ status = JStr "archive" →
            task !! "completedAt" = Some (JStr (stamp now)))
         ∧ (status ≠ JStr "done" → status ≠ JStr "archive" →
            task !! "completedAt" = Some JNull))
    ∧ (body !! "id" = None → Forall (λ t, ¬ has_id id t) (tasks_of w) →
         ∀ i t, (tasks_of w ++ [task]) !! i = Some t → has_id id t → i = length (tasks_of w)).
Proof.
  intros status id.
  destruct (create_task_handler_run body uuid4 now na w) as (tail & o & Hrun & Hok).
  match type of Hrun with context [task_created ?t] => set (task := t) in * end.
  assert (Hkeep : ∀ k v, body !! k = Some v → task !! k = Some v)
    by (intros k v Hk; by apply merge_lookup_over).
  assert (Hdflt : ∀ k, body !! k = None → task !! k = list_to_map
             [ ("id", JStr (prefix_of 8 uuid4));
               ("createdAt", JStr (stamp now));
               ("startedAt", if py_eq status (JStr "in-progress") then JStr (stamp now) else JNull);
               ("completedAt",
                 if py_in status [JStr "done"; JStr "archive"] then JStr (stamp now) else JNull) ] !! k)
    by (intros k Hk; subst task status; by apply merge_lookup_base).
  exists task, o. eexists. split; [exact Hrun |]. split; [reflexivity |].
  split; [simpl; rewrite in_app_iff; right; simpl; tauto |].
  split; [simpl; rewrite in_app_iff; right; simpl; tauto |].
  split.
  { intros Ha. apply Hok. unfold get_or in *.
    destruct (body !! "assignedTo") as [v |] eqn:Hb.
    - by rewrite (Hkeep _ _ Hb).
    - rewrite (Hdflt _ Hb). exact I. }
  split; [exact Hkeep |].
  split; [intros Hb; by rewrite (Hdflt _ Hb) |].
  split; [intros Hb; by rewrite (Hdflt _ Hb) |].
  split.
  { intros Hb. rewrite (Hdflt _ Hb). split; intros Hs.
    - apply py_eq_str in Hs. simpl. repeat (rewrite lookup_insert_ne by done).
      rewrite lookup_insert_eq. by rewrite Hs.
    - apply py_eq_str_false in Hs. simpl. repeat (rewrite lookup_insert_ne by done).
      rewrite lookup_insert_eq. by rewrite Hs. }
  split.
  { intros Hb. rewrite (Hdflt _ Hb). simpl. repeat (rewrite lookup_insert_ne by done).
    rewrite lookup_insert_eq. unfold py_in. simpl. split.
    - intros [Hs | Hs]; apply py_eq_str in Hs as Hs'; rewrite Hs'; [done |].
      by rewrite orb_true_r.
    - intros Hd Ha. apply py_eq_str_false in Hd, Ha. by rewrite Hd, Ha. }
  intros Hb Hfresh i t Hi Ht.
  apply lookup_app_Some in Hi as [Hi | [Hlen Hi]].
  - exfalso. rewrite Forall_forall in Hfresh. apply (Hfresh t); [| exact Ht].
    by eapply list_elem_of_lookup_2.
  - destruct (i - length (tasks_of w)) as [| n] eqn:Hn; [lia | by destruct n].
Qed.

Lemma created_task_fields_witness :
  ∃ (task : obj) (o : outcome response) (w' : world),
    create_task_handler {[ "title" := JStr "Ship it"; "status" := JStr "in-progress" ]}
      "7f3c9a10-5b1e-4c7e-9d57-0c2b6a1e4f00" morning morning task_world = (o, w')
    ∧ o = Ok (json_response (RTask task) 201)
    ∧ task !! "id" = Some (JStr "7f3c9a10")
    ∧ task !! "createdAt" = Some (JStr "2026-11-03T09:05:00Z")
    ∧ task !! "startedAt" = Some (JStr "2026-11-03T09:05:00Z")
    ∧ task !! "completedAt" = Some JNull.
Proof.
  destruct (created_task_fields task_world
              {[ "title" := JStr "Ship it"; "status" := JStr "in-progress" ]}
              "7f3c9a10-5b1e-4c7e-9d57-0c2b6a1e4f00" morning morning)
    as (task & o & w' & Hrun & _ & _ & _ & Hok & _ & Hid & Hcreated & Hstarted & Hdone & _).
  exists task, o, w'. split; [exact Hrun |].
  split; [apply Hok; exact I |].
  split; [apply Hid; reflexivity |].
  split; [apply Hcreated; reflexivity |].
  split; [apply Hstarted; reflexivity |].
  apply Hdone; [reflexivity | discriminate | discriminate].
Defined.

(** C9, the claim as written fails: the body of the request decides over
    [id] and [createdAt] when it brings them, and the id it brings may be one
    the collection already holds. *)
Lemma created_task_takes_body_id :
  let body : obj := {[ "title" := JStr "Copy"; "id" := JStr "0a1b2c3d";
                       "createdAt" := JStr "1999-12-31T23:59:59Z" ]} in
  let w' := snd (create_task_handler body "7f3c9a10-5b1e-4c7e-9d57-0c2b6a1e4f00"
                   morning morning task_world) in
  length (tasks_of w') = 2
  ∧ get (nth 1 (tasks_of w') ∅) "createdAt" = JStr "1999-12-31T23:59:59Z"
  ∧ get (nth 1 (tasks_of w') ∅) "createdAt" ≠ JStr (stamp morning)
  ∧ get (nth 1 (tasks_of w') ∅) "id" = JStr "0a1b2c3d"
  ∧ get (nth 0 (tasks_of w') ∅) "id" = JStr "0a1b2c3d".
Proof. vm_compute. repeat split; discriminate. Qed.

(** ** Tasks: the stamps of an update *)

Lemma update_task_loop_match (task_id now : string) (na : datetime) (body task : obj)
    (rest : list obj) (w : world) (v : json) :
  task !! "id" = Some v → py_eq v (JStr task_id) = true →
  update_task_loop task_id now na body (task :: rest) w
  = (Ok (updated_task now body task :: rest, stamped_body now body task),
     if status_moves body task
     then logged na (TaskMoved (get body "status")
                       (get_or (signed_task now body task) "title" (JStr "Untitled"))) w
     else w).
Proof.
  intros Hid Heq. cbn [update_task_loop]. unfold bind at 1, subscript. rewrite Hid.
  unfold ret at 1. rewrite Heq.
  unfold updated_task, signed_task, stamped_body, status_moves.
  destruct (truthy (get body "status") && negb (py_eq (get body "status") (get task "status")));
    [| reflexivity].
  cbn [andb]. unfold bind. rewrite add_activity_run. reflexivity.
Qed.

(** What an update leaves in [startedAt] and in [completedAt]. *)
Lemma updated_task_startedAt (now : string) (body task : obj) :
  updated_task now body task !! "startedAt"
  = if status_moves body task && py_eq (get body "status") (JStr "in-progress")
       && negb (truthy (get task "startedAt"))
    then Some (JStr now)
    else merge task body !! "startedAt".
Proof.
  unfold updated_task, merge.
  assert (Hsigned : signed_task now body task !! "startedAt" = task !! "startedAt").
  { unfold signed_task. repeat case_match; try reflexivity. by rewrite lookup_insert_ne. }
  rewrite !lookup_union, Hsigned. unfold stamped_body.
  destruct (status_moves body task); [| reflexivity]. cbn [andb].
  destruct (py_eq (get body "status") (JStr "in-progress") && negb (truthy (get task "startedAt"))).
  - rewrite lookup_insert_eq. by destruct (task !! "startedAt").
  - case_match; [| reflexivity]. by rewrite lookup_insert_ne.
Qed.

Lemma updated_task_completedAt (now : string) (body task : obj) :
  updated_task now body task !! "completedAt"
  = if status_moves body task && py_in (get body "status") [JStr "done"; JStr "archive"]
       && negb (truthy (get task "completedAt"))
    then Some (JStr now)
    else merge task body !! "completedAt".
Proof.
  unfold updated_task, merge.
  assert (Hsigned : signed_task now body task !! "completedAt" = task !! "completedAt").
  { unfold signed_task. repeat case_match; try reflexivity. by rewrite lookup_insert_ne. }
  rewrite !lookup_union, Hsigned. unfold stamped_body.
  destruct (status_moves body task); [| reflexivity]. cbn [andb].
  destruct (py_eq (get body "status") (JStr "in-progress")) eqn:Hprog.
  - apply py_eq_str in Hprog. rewrite Hprog. cbn [py_in existsb py_eq String.eqb].
    cbn. destruct (negb (truthy (get task "startedAt"))); [| reflexivity].
    by rewrite lookup_insert_ne.
  - cbn [andb].
    destruct (py_in (get body "status") [JStr "done"; JStr "archive"]
              && negb (truthy (get task "completedAt"))); [| reflexivity].
    rewrite lookup_insert_eq. by destruct (task !! "completedAt").
Qed.

Lemma updated_task_keeps (k now : string) (body task : obj) :
  k = "startedAt" ∨ k = "completedAt" → body !! k = None →
  keeps_field k task (updated_task now body task).
Proof.
  intros Hk Hbody v Hv Htruthy.
  assert (Hget : truthy (get task k) = true) by (unfold get; by rewrite Hv).
  destruct Hk as [-> | ->].
  - rewrite updated_task_startedAt, Hget, andb_false_r.
    by rewrite merge_lookup_base.
  - rewrite updated_task_completedAt, Hget, andb_false_r.
    by rewrite merge_lookup_base.
Qed.

Lemma keeps_field_refl (k : string) (tasks : list obj) : Forall2 (keeps_field k) tasks tasks.
Proof. induction tasks; constructor; [by intros v Hv _ | done]. Qed.

Lemma update_task_loop_keeps (k task_id now : string) (na : datetime) (body : obj)
    (tasks : list obj) (w : world) :
  k = "startedAt" ∨ k = "completedAt" → body !! k = None →
  match update_task_loop task_id now na body tasks w with
  | (Ok (tasks', _), w') =>
      tasks_file w' = tasks_file w ∧ Forall2 (keeps_field k) tasks tasks'
  | (Raise, w') => tasks_file w' = tasks_file w
  end.
Proof.
  intros Hk Hbody. induction tasks as [| task rest IH].
  - split; [reflexivity | constructor].
  - destruct (task !! "id") as [v |] eqn:Hid.
    + destruct (py_eq v (JStr task_id)) eqn:Heq.
      * rewrite (update_task_loop_match _ _ _ _ _ _ _ _ Hid Heq). split.
        -- by destruct (status_moves body task).
        -- constructor; [by apply updated_task_keeps | apply keeps_field_refl].
      * cbn [update_task_loop]. unfold bind at 1, subscript. rewrite Hid. unfold ret at 1.
        rewrite Heq. unfold bind.
        destruct (update_task_loop task_id now na body rest w) as [[[rest' body''] |] w'].
        -- destruct IH as [IHw IH]. split; [exact IHw |]. constructor; [by intros x Hx _ | exact IH].
        -- exact IH.
    + cbn [update_task_loop]. unfold bind, subscript. rewrite Hid. reflexivity.
Qed.

Lemma serve_keeps (k : string) (r : request) (w : world) (i : nat) (t : obj) (v : json) :
  k = "startedAt" ∨ k = "completedAt" → request_body r !! k = None →
  tasks_of w !! i = Some t → t !! k = Some v → truthy v = true →
  ∃ t', tasks_of (serve w r) !! i = Some t' ∧ t' !! k = Some v.
Proof.
  intros Hk Hbody Hi Hv Htruthy. destruct r as [body uuid4 now na | task_id body now na];
    cbn [request_body] in Hbody; unfold serve.
  - destruct (create_task_handler_run body uuid4 now na w) as (tail & o & -> & _).
    exists t. split; [| exact Hv]. cbn [snd]. unfold tasks_of at 1. cbn.
    by apply lookup_app_l_Some.
  - rewrite update_task_handler_run.
    pose proof (update_task_loop_keeps k task_id (stamp now) na body (tasks_of w) w Hk Hbody)
      as Hkeeps.
    destruct (update_task_loop task_id (stamp now) na body (tasks_of w) w)
      as [[[tasks' body'] |] w'] eqn:Hloop; cbn [fst snd] in *.
    + destruct Hkeeps as [_ Hkeeps].
      destruct (Forall2_lookup_l _ _ _ _ _ Hkeeps Hi) as (t' & Hi' & Hkeep).
      exists t'. split; [exact Hi' | by apply Hkeep].
    + exists t. split; [| exact Hv]. unfold tasks_of in *. by rewrite Hkeeps.
Qed.

Lemma serve_all_keeps (k : string) (rs : list request) (w : world) (i : nat) (t : obj)
    (v : json) :
  k = "startedAt" ∨ k = "completedAt" →
  Forall (λ r, request_body r !! k = None) rs →
  tasks_of w !! i = Some t → t !! k = Some v → truthy v = true →
  ∃ t', tasks_of (serve_all rs w) !! i = Some t' ∧ t' !! k = Some v.
Proof.
  intros Hk Hrs. revert w t. induction Hrs as [| r rs Hr _ IH]; intros w t Hi Hv Htruthy.
  - exists t. by split.
  - destruct (serve_keeps k r w i t v Hk Hr Hi Hv Htruthy) as (t1 & Hi1 & Hv1).
    cbn [serve_all fold_left]. by apply (IH (serve w r) t1).
Qed.

Lemma enters_in_progress_test (body task : obj) :
  status_moves body task && py_eq (get body "status") (JStr "in-progress") = true
  ↔ enters_in_progress body task.
Proof.
  unfold status_moves, enters_in_progress.
  rewrite !andb_true_iff, negb_true_iff, py_eq_str. split.
  - intros [[_ Hne] Hnew]. split; [exact Hnew |]. rewrite Hnew in Hne.
    intros Hold. rewrite Hold in Hne. by rewrite py_eq_refl_str in Hne.
  - intros [Hnew Hold]. rewrite Hnew. split; [split; [reflexivity |] | reflexivity].
    destruct (py_eq (JStr "in-progress") (get task "status")) eqn:Heq; [| reflexivity].
    by apply py_eq_str_l in Heq.
Qed.

Lemma enters_done_or_archive_test (body task : obj) :
  status_moves body task && py_in (get body "status") [JStr "done"; JStr "archive"] = true
  ↔ enters_done_or_archive body task.
Proof.
  unfold status_moves, enters_done_or_archive.
  rewrite !andb_true_iff, negb_true_iff, in_done_archive. split.
  - intros [[_ Hne] Hnew]. split; [exact Hnew |].
    intros Hold. rewrite Hold in Hne. destruct Hnew as [Hnew | Hnew];
      rewrite Hnew in Hne; by rewrite py_eq_refl_str in Hne.
  - intros [Hnew Hold]. split; [| exact Hnew]. split.
    + by destruct Hnew as [-> | ->].
    + destruct (py_eq (get body "status") (get task "status")) eqn:Heq; [| reflexivity].
      destruct Hnew as [Hnew | Hnew]; rewrite Hnew in Heq, Hold;
        apply py_eq_str_l in Heq; congruence.
Qed.

Lemma update_task_handler_hit (w : world) (task_id : string) (body : obj) (now na : datetime)
    (before after : list obj) (task : obj) :
  tasks_of w = before ++ task :: after →
  Forall (other_id task_id) before → has_id task_id task →
  tasks_of (serve w (UpdateTask task_id body now na))
  = before ++ updated_task (stamp now) body task :: after.
Proof.
  intros Htasks Hbefore Htask. unfold serve.
  rewrite update_task_handler_run, Htasks, (update_task_loop_skip _ _ _ _ _ _ _ Hbefore).
  rewrite (update_task_loop_match _ _ _ _ _ _ _ _ Htask (py_eq_refl_str _)).
  reflexivity.
Qed.

(** C10, as the code has it: an update whose id matches no task still
    answers [{"ok": True}], writes the task collection back as it was and
    broadcasts [task_updated] with the fields of its body and, under [id],
    the id of the request, unless the body brings an [id] of its own, which
    then takes its place; the activity log is not touched.  A subscriber sees
    the very same single event when the same request does update a task
    without moving its status (the body brings no truthy status, or the
    status the task has).  When the request moves the status of a task, a
    line of the activity log is written and broadcast first, and the event
    carries the body with the stamp the update has set. *)
Theorem update_of_missing_task (w : world) (task_id : string) (body : obj)
    (now na : datetime) :
  Forall (other_id task_id) (tasks_of w) →
  let event := task_updated (merge {[ "id" := JStr task_id ]} body) in
  update_task_handler task_id body now na w
  = (Ok (json_response ROk 200),
     with_trace (trace w ++ [Saved TASKS_FILE; Broadcast event])
       (with_tasks (Some (tasks_of w)) w))
  ∧ (∀ k v, body !! k = Some v → merge {[ "id" := JStr task_id ]} body !! k = Some v)
  ∧ (body !! "id" = None → merge {[ "id" := JStr task_id ]} body !! "id" = Some (JStr task_id))
  ∧ (∀ v, body !! "id" = Some v → merge {[ "id" := JStr task_id ]} body !! "id" = Some v)
  ∧ (∀ (w2 : world) (before after : list obj) (task : obj),
       tasks_of w2 = before ++ task :: after →
       Forall (other_id task_id) before → has_id task_id task →
       (status_moves body task = false →
          update_task_handler task_id body now na w2
          = (Ok (json_response ROk 200),
             with_trace (trace w2 ++ [Saved TASKS_FILE; Broadcast event])
               (with_tasks (Some (before ++ merge task body :: after)) w2)))
       ∧ (status_moves body task = true →
            let line :=
              mkActivity (stamp na)
                (TaskMoved (get body "status")
                   (get_or (signed_task (stamp now) body task) "title" (JStr "Untitled"))) in
            let sent := stamped_body (stamp now) body task in
            ∃ w3,
              update_task_handler task_id body now na w2
              = (Ok (json_response ROk 200),
                 with_trace (trace w3 ++ [ Saved TASKS_FILE;
                                           Broadcast (task_updated
                                             (merge {[ "id" := JStr task_id ]} sent)) ])
                   (with_tasks (Some (before ++ updated_task (stamp now) body task :: after)) w3))
              ∧ trace w3 = trace w2 ++ [ Saved ACTIVITY_FILE;
                                         Spawned (co_broadcast (activity line)) ]
              ∧ activity_file w3
                = Some (ActivityList (last_n 500 (activity_of w2 ++ [line]))))).
Proof.
  intros Hmiss event. split; [| split; [| split; [| split]]].
  - rewrite update_task_handler_run, (update_task_loop_miss _ _ _ _ _ _ Hmiss). reflexivity.
  - intros k v Hk. by apply merge_lookup_over.
  - intros Hid. unfold merge. rewrite lookup_union_r by exact Hid.
    by rewrite lookup_singleton_eq.
  - intros v Hid. by apply merge_lookup_over.
  - intros w2 before after task Htasks Hbefore Htask.
    assert (Hrun : update_task_handler task_id body now na w2
              = (Ok (json_response ROk 200),
                 with_trace
                   (trace (move_logged (stamp now) na body task w2)
                      ++ [ Saved TASKS_FILE;
                           Broadcast (task_updated
                             (merge {[ "id" := JStr task_id ]}
                                (stamped_body (stamp now) body task))) ])
                   (with_tasks (Some (before ++ updated_task (stamp now) body task :: after))
                      (move_logged (stamp now) na body task w2)))).
    { rewrite update_task_handler_run, Htasks, (update_task_loop_skip _ _ _ _ _ _ _ Hbefore).
      by rewrite (update_task_loop_match _ _ _ _ _ _ _ _ Htask (py_eq_refl_str _)). }
    split.
    + intros Hstill. rewrite Hrun.
      unfold move_logged, updated_task, signed_task, stamped_body. by rewrite Hstill.
    + intros Hmoves line sent. eexists. split; [exact Hrun |].
      unfold move_logged. rewrite Hmoves. split; reflexivity.
Qed.

Lemma update_of_missing_task_witness :
  update_task_handler "ffffffff" {[ "priority" := JStr "high" ]} morning morning task_world
  = (Ok (json_response ROk 200),
     with_trace [Saved TASKS_FILE;
                 Broadcast (task_updated {[ "id" := JStr "ffffffff"; "priority" := JStr "high" ]})]
       task_world).
Proof.
  destruct (update_of_missing_task task_world "ffffffff" {[ "priority" := JStr "high" ]}
              morning morning) as (Hrun & _).
  - repeat constructor. exists (JStr "0a1b2c3d"). split; [reflexivity | discriminate].
  - rewrite Hrun. reflexivity.
Defined.

(** C10, the claim as written fails: the event of an update that matches no
    task names the id of the body, not the id of the request, when the body
    brings one; and an update that matches no task is told apart from the
    same request on a task that is there: the real update broadcasts a line
    of the activity log first and its event carries [completedAt]. *)
Lemma missing_task_update_is_told_apart :
  let broadcasts task_id body :=
    trace (snd (update_task_handler task_id body noon noon task_world)) in
  broadcasts "ffffffff" {[ "id" := JStr "zzz" ]}
  = [ Saved TASKS_FILE; Broadcast (task_updated {[ "id" := JStr "zzz" ]}) ]
  ∧ broadcasts "ffffffff" {[ "status" := JStr "done" ]}
    = [ Saved TASKS_FILE;
        Broadcast (task_updated {[ "id" := JStr "ffffffff"; "status" := JStr "done" ]}) ]
  ∧ broadcasts "0a1b2c3d" {[ "status" := JStr "done" ]}
    = [ Saved ACTIVITY_FILE;
        Spawned (co_broadcast (activity
          (mkActivity "2026-11-03T12:00:00.000250Z"
             (TaskMoved (JStr "done") (JStr "Write report")))));
        Saved TASKS_FILE;
        Broadcast (task_updated
          {[ "id" := JStr "0a1b2c3d"; "status" := JStr "done";
             "completedAt" := JStr "2026-11-03T12:00:00.000250Z" ]}) ].
Proof. vm_compute. repeat split. Qed.

(** C1, as the code has it: over any sequence of create and update requests
    whose bodies do not themselves bring [startedAt], a [startedAt] that has
    been set is never changed, and likewise for [completedAt].  An update
    that moves the task into in-progress while no [startedAt] is set stores
    the current time, whatever the body brings under that field, and likewise
    [completedAt] on a move into done or archive.  Any other update stores
    the [startedAt] of the body when it brings one and leaves the field as it
    was when it brings none, and likewise for [completedAt].  A creation
    stores the fields the body brings and, where it brings none, the current
    time or null by the status. *)
Theorem task_stamps_are_set_once :
  (∀ (k : string) (rs : list request) (w : world) (i : nat) (t : obj) (v : json),
     k = "startedAt" ∨ k = "completedAt" →
     Forall (λ r, request_body r !! k = None) rs →
     tasks_of w !! i = Some t → t !! k = Some v → truthy v = true →
     ∃ t', tasks_of (serve_all rs w) !! i = Some t' ∧ t' !! k = Some v)
  ∧ (∀ (w : world) (task_id : string) (body : obj) (now na : datetime)
       (before after : list obj) (task : obj),
     tasks_of w = before ++ task :: after →
     Forall (other_id task_id) before → has_id task_id task →
     ∃ task',
       tasks_of (serve w (UpdateTask task_id body now na)) = before ++ task' :: after
       ∧ (enters_in_progress body task → truthy (get task "startedAt") = false →
            task' !! "startedAt" = Some (JStr (stamp now)))
       ∧ (enters_done_or_archive body task → truthy (get task "completedAt") = false →
            task' !! "completedAt" = Some (JStr (stamp now)))
       ∧ (body !! "startedAt" = None →
            ¬ enters_in_progress body task ∨ truthy (get task "startedAt") = true →
            task' !! "startedAt" = task !! "startedAt")
       ∧ (body !! "completedAt" = None →
            ¬ enters_done_or_archive body task ∨ truthy (get task "completedAt") = true →
            task' !! "completedAt" = task !! "completedAt")
       ∧ (∀ v, body !! "startedAt" = Some v →
            ¬ enters_in_progress body task ∨ truthy (get task "startedAt") = true →
            task' !! "startedAt" = Some v)
       ∧ (∀ v, body !! "completedAt" = Some v →
            ¬ enters_done_or_archive body task ∨ truthy (get task "completedAt") = true →
            task' !! "completedAt" = Some v))
  ∧ (∀ (w : world) (body : obj) (uuid4 : string) (now na : datetime),
     let status := get_or body "status" (JStr "todo") in
     ∃ task,
       tasks_of (serve w (CreateTask body uuid4 now na)) = tasks_of w ++ [task]
       ∧ (∀ k v, body !! k = Some v → task !! k = Some v)
       ∧ (body !! "startedAt" = None →
            task !! "startedAt"
            = Some (if py_eq status (JStr "in-progress") then JStr (stamp now) else JNull))
       ∧ (body !! "completedAt" = None →
            task !! "completedAt"
            = Some (if py_in status [JStr "done"; JStr "archive"]
                    then JStr (stamp now) else JNull))).
Proof.
  split; [exact serve_all_keeps |]. split.
  - intros w task_id body now na before after task Htasks Hbefore Htask.
    exists (updated_task (stamp now) body task).
    split; [by apply update_task_handler_hit |].
    rewrite updated_task_startedAt, updated_task_completedAt.
    assert (Hstarted : ¬ enters_in_progress body task ∨ truthy (get task "startedAt") = true →
              status_moves body task && py_eq (get body "status") (JStr "in-progress")
                && negb (truthy (get task "startedAt")) = false).
    { intros Hnot.
      destruct (status_moves body task && py_eq (get body "status") (JStr "in-progress"))
        eqn:Htest; [| reflexivity].
      apply enters_in_progress_test in Htest. by destruct Hnot as [Hnot | ->]. }
    assert (Hcompleted :
              ¬ enters_done_or_archive body task ∨ truthy (get task "completedAt") = true →
              status_moves body task && py_in (get body "status") [JStr "done"; JStr "archive"]
                && negb (truthy (get task "completedAt")) = false).
    { intros Hnot.
      destruct (status_moves body task && py_in (get body "status") [JStr "done"; JStr "archive"])
        eqn:Htest; [| reflexivity].
      apply enters_done_or_archive_test in Htest. by destruct Hnot as [Hnot | ->]. }
    split; [| split; [| split; [| split; [| split]]]].
    + intros Henters ->. apply enters_in_progress_test in Henters. by rewrite Henters.
    + intros Henters ->. apply enters_done_or_archive_test in Henters. by rewrite Henters.
    + intros Hbody Hnot. rewrite (Hstarted Hnot). by rewrite merge_lookup_base.
    + intros Hbody Hnot. rewrite (Hcompleted Hnot). by rewrite merge_lookup_base.
    + intros v Hbody Hnot. rewrite (Hstarted Hnot). by apply merge_lookup_over.
    + intros v Hbody Hnot. rewrite (Hcompleted Hnot). by apply merge_lookup_over.
  - intros w body uuid4 now na status.
    destruct (create_task_handler_run body uuid4 now na w) as (tail & o & Hrun & _).
    eexists. unfold serve. rewrite Hrun. cbn [snd].
    split; [reflexivity |]. fold status.
    split; [intros k v Hk; by apply merge_lookup_over |].
    split; intros Hnone; rewrite merge_lookup_base by exact Hnone; reflexivity.
Qed.

Lemma task_stamps_are_set_once_witness :
  ∃ t',
    tasks_of (serve_all
                [ UpdateTask "0a1b2c3d" {[ "status" := JStr "done" ]} noon noon;
                  UpdateTask "0a1b2c3d" {[ "status" := JStr "in-progress" ]} noon noon;
                  CreateTask {[ "title" := JStr "Next"; "status" := JStr "in-progress" ]}
                    "7f3c9a10-5b1e-4c7e-9d57-0c2b6a1e4f00" noon noon ]
                started_world) !! 0 = Some t'
    ∧ t' !! "startedAt" = Some (JStr "2026-11-03T09:05:00Z").
Proof.
  apply (proj1 task_stamps_are_set_once "startedAt" _ started_world 0
           (nth 0 (tasks_of started_world) ∅)).
  - left. reflexivity.
  - repeat constructor.
  - vm_compute. reflexivity.
  - vm_compute. reflexivity.
  - reflexivity.
Defined.

(** C1, the claim as written fails: an update that moves the task on and
    brings a [startedAt] of its own overwrites the one that was set. *)
Lemma update_body_overwrites_startedAt :
  let w2 := serve started_world
              (UpdateTask "0a1b2c3d"
                 {[ "status" := JStr "done"; "startedAt" := JStr "2026-11-01T00:00:00Z" ]}
                 noon noon) in
  get (nth 0 (tasks_of started_world) ∅) "status" = JStr "in-progress"
  ∧ get (nth 0 (tasks_of started_world) ∅) "startedAt" = JStr "2026-11-03T09:05:00Z"
  ∧ get (nth 0 (tasks_of w2) ∅) "status" = JStr "done"
  ∧ get (nth 0 (tasks_of w2) ∅) "startedAt" = JStr "2026-11-01T00:00:00Z".
Proof. vm_compute. repeat split. Qed.

(** The scenario of the specification: a task is created as todo, moved to
    in-progress ([startedAt] set, [completedAt] null), moved to done
    ([completedAt] set, [startedAt] unchanged), and swept nine days later:
    its status is then archive and the count answered is 1. *)
Example write_report_scenario :
  let day d := mkDatetime 2026 11 d 9 0 0 0 in
  let empty := mkWorld None None None None [] [] in
  let w1 := serve empty (CreateTask {[ "title" := JStr "Write report"; "status" := JStr "todo" ]}
                           "0a1b2c3d-5b1e-4c7e-9d57-0c2b6a1e4f00" (day 1%N) (day 1%N)) in
  let w2 := serve w1 (UpdateTask "0a1b2c3d" {[ "status" := JStr "in-progress" ]} (day 2%N) (day 2%N)) in
  let w3 := serve w2 (UpdateTask "0a1b2c3d" {[ "status" := JStr "done" ]} (day 3%N) (day 3%N)) in
  let swept := archive_old_tasks_handler (day 12%N) (day 12%N) w3 in
  let field w k := get (nth 0 (tasks_of w) ∅) k in
  field w2 "startedAt" = JStr "2026-11-02T09:00:00Z"
  ∧ field w2 "completedAt" = JNull
  ∧ field w3 "completedAt" = JStr "2026-11-03T09:00:00Z"
  ∧ field w3 "startedAt" = JStr "2026-11-02T09:00:00Z"
  ∧ field (snd swept) "status" = JStr "archive"
  ∧ fst swept = Ok (json_response (RArchived 1) 200).
Proof. vm_compute. repeat split. Qed.

(** ** Tasks: the archive sweep *)

Lemma is_done_py_eq (t : obj) : py_eq (get t "status") (JStr "done") = is_done t.
Proof.
  unfold is_done, get. destruct (t !! "status") as [[| b | n | s | items | fields] |]; reflexivity.
Qed.

Lemma due_test (cutoff : string) (t : obj) (w : world) :
  ("" <? cutoff) = true →
  (if py_eq (get t "status") (JStr "done")
   then lt_str (py_or (get t "completedAt") (JStr "")) cutoff
   else ret false) w
  = (if comparable t then Ok (due cutoff t) else Raise, w).
Proof.
  intros Hcut. rewrite is_done_py_eq. unfold comparable, due, completed_before.
  destruct (is_done t); [| reflexivity]. simpl. unfold get, py_or.
  destruct (t !! "completedAt") as [[| b | n | s | items | fields] |]; simpl;
    try (by rewrite Hcut).
  - destruct b; simpl; [reflexivity | by rewrite Hcut].
  - destruct (n =? 0)%Z; simpl; [by rewrite Hcut | reflexivity].
  - destruct (s =? "") eqn:Hs; simpl; [| reflexivity].
    apply String.eqb_eq in Hs. subst s. reflexivity.
  - destruct items; simpl; [by rewrite Hcut | reflexivity].
  - destruct fields; simpl; [by rewrite Hcut | reflexivity].
Qed.

Lemma archive_loop_run (cutoff : string) (tasks : list obj) (count : nat) (w : world) :
  ("" <? cutoff) = true →
  archive_loop cutoff count tasks w
  = (if forallb comparable tasks
     then Ok (swept cutoff tasks, count + count_due cutoff tasks)
     else Raise, w).
Proof.
  intros Hcut. revert count. induction tasks as [| t rest IH]; intros count.
  - simpl. unfold ret, count_due. simpl. by rewrite Nat.add_0_r.
  - cbn [archive_loop]. unfold bind at 1. rewrite (due_test _ _ _ Hcut).
    cbn [forallb]. destruct (comparable t); [| reflexivity]. cbn [andb].
    unfold swept, count_due. cbn [map List.filter].
    destruct (due cutoff t); unfold bind; rewrite IH;
      destruct (forallb comparable rest); try reflexivity.
    unfold ret, swept, count_due. cbn [length]. do 3 f_equal. lia.
Qed.

Lemma cutoff_after_empty (now : datetime) (cutoff : string) :
  cutoff_of now = Some cutoff → ("" <? cutoff) = true.
Proof.
  unfold cutoff_of. destruct (minus_days 7 now) as [d |]; [| discriminate].
  intros [= <-]. apply empty_before_stamp.
Qed.

(** The world after a sweep that archived [n] tasks. *)
Lemma archive_old_tasks_handler_run (now na : datetime) (w : world) :
  archive_old_tasks_handler now na w
  = match cutoff_of now with
    | None => (Raise, w)
    | Some cutoff =>
        if forallb comparable (tasks_of w) then
          let n := count_due cutoff (tasks_of w) in
          (Ok (json_response (RArchived n) 200),
           if (0 <? n)%nat then
             with_trace (trace w ++ [Saved TASKS_FILE; Saved ACTIVITY_FILE;
                           Spawned (co_broadcast (activity (mkActivity (stamp na) (AutoArchived n))));
                           Broadcast (tasks_archived n)])
               (with_activity
                  (Some (ActivityList
                     (last_n 500 (activity_of w ++ [mkActivity (stamp na) (AutoArchived n)]))))
                  (with_tasks (Some (swept cutoff (tasks_of w))) w))
           else w)
        else (Raise, w)
    end.
Proof.
  unfold archive_old_tasks_handler, get_tasks, bind at 1, gets. fold (tasks_of w).
  destruct (cutoff_of now) as [cutoff |] eqn:Hcut; [| reflexivity].
  unfold bind at 1. rewrite (archive_loop_run _ _ _ _ (cutoff_after_empty _ _ Hcut)).
  destruct (forallb comparable (tasks_of w)); [| reflexivity].
  cbn [Nat.add]. cbv zeta.
  destruct (0 <? count_due cutoff (tasks_of w))%nat.
  - unfold save_tasks, broadcast, emit, modify. unfold bind at 1 2 3 4. 
    rewrite add_activity_run. unfold bind, ret, logged, with_trace, with_activity, with_tasks.
    simpl. rewrite <- !app_assoc. reflexivity.
  - reflexivity.
Qed.

Lemma due_archived (cutoff : string) (t : obj) : due cutoff (archived t) = false.
Proof. unfold due, is_done, archived. by rewrite lookup_insert_eq. Qed.

Lemma comparable_archived (t : obj) : comparable (archived t) = true.
Proof. unfold comparable, is_done, archived. by rewrite lookup_insert_eq. Qed.

Lemma swept_nothing_due (cutoff : string) (tasks : list obj) :
  count_due cutoff (swept cutoff tasks) = 0 ∧
  (forallb comparable tasks = true → forallb comparable (swept cutoff tasks) = true) ∧
  (count_due cutoff tasks = 0 → swept cutoff tasks = tasks).
Proof.
  unfold count_due, swept. induction tasks as [| t rest (IH1 & IH2 & IH3)]; [done |].
  cbn [map List.filter forallb]. destruct (due cutoff t) eqn:Hdue.
  - rewrite due_archived, comparable_archived. cbn [andb length].
    split; [exact IH1 |]. split; [| discriminate].
    intros H. apply andb_prop in H as [_ H]. by apply IH2.
  - rewrite Hdue. split; [exact IH1 |]. split.
    + intros H. apply andb_prop in H as [-> H]. by apply IH2.
    + intros H. f_equal. by apply IH3.
Qed.

(** C3, as the code has it: the sweep moves to status archive exactly the
    tasks that are due, those whose status is done and whose [completedAt] is
    missing or empty or sorts, as text, before the ISO text of the instant
    seven days before now; every other task, and so every task whose status
    is not done, stays as it is.  When the count is positive the tasks are
    saved, one line is added to the activity log and [tasks_archived] is
    broadcast with the count; when it is zero the world is untouched.  For a
    [completedAt] stamped by the clock, with a fraction of a second as the
    cutoff has one or without as it has none, to sort before the cutoff is to
    be more than seven days old. *)
Theorem sweep_archives_due (w : world) (now na : datetime) (cutoff : string) :
  cutoff_of now = Some cutoff →
  forallb comparable (tasks_of w) = true →
  let n := count_due cutoff (tasks_of w) in
  let entry := mkActivity (stamp na) (AutoArchived n) in
  ∃ w',
    archive_old_tasks_handler now na w = (Ok (json_response (RArchived n) 200), w')
    ∧ length (tasks_of w') = length (tasks_of w)
    ∧ (∀ i t, tasks_of w !! i = Some t →
         tasks_of w' !! i
         = Some (if due cutoff t then <["status" := JStr "archive"]> t else t))
    ∧ (∀ i t, tasks_of w !! i = Some t → is_done t = false → tasks_of w' !! i = Some t)
    ∧ (0 < n →
         tasks_file w' = Some (swept cutoff (tasks_of w))
         ∧ activity_file w' = Some (ActivityList (last_n 500 (activity_of w ++ [entry])))
         ∧ trace w' = trace w ++ [Saved TASKS_FILE; Saved ACTIVITY_FILE;
                                  Spawned (co_broadcast (activity entry));
                                  Broadcast (tasks_archived n)])
    ∧ (n = 0 → w' = w)
    ∧ (∀ t d week_ago,
         t !! "completedAt" = Some (JStr (stamp d)) → minus_days 7 now = Some week_ago →
         printable d → printable now → (microsecond d = 0%N ↔ microsecond now = 0%N) →
         (completed_before cutoff t = true ↔ earlier d week_ago)).
Proof.
  intros Hcut Hcmp n entry. eexists.
  split.
  { rewrite archive_old_tasks_handler_run, Hcut, Hcmp. reflexivity. }
  fold n. fold entry.
  assert (Htasks : tasks_of (if (0 <? n)%nat
            then with_trace (trace w ++ [Saved TASKS_FILE; Saved ACTIVITY_FILE;
                                         Spawned (co_broadcast (activity entry));
                                         Broadcast (tasks_archived n)])
                   (with_activity (Some (ActivityList (last_n 500 (activity_of w ++ [entry]))))
                      (with_tasks (Some (swept cutoff (tasks_of w))) w))
            else w) = swept cutoff (tasks_of w)).
  { destruct (0 <? n)%nat eqn:Hn; [reflexivity |].
    apply Nat.ltb_ge in Hn. symmetry. apply swept_nothing_due. subst n. lia. }
  rewrite Htasks.
  assert (Hat : ∀ i t, tasks_of w !! i = Some t →
            swept cutoff (tasks_of w) !! i = Some (if due cutoff t then archived t else t)).
  { intros i t Hi. unfold swept. change map with (@fmap list _). 
    rewrite list_lookup_fmap, Hi. reflexivity. }
  split; [unfold swept; apply length_map |].
  split; [exact Hat |].
  split.
  { intros i t Hi Hdone. rewrite (Hat _ _ Hi). unfold due. by rewrite Hdone. }
  split; [intros Hn; apply Nat.ltb_lt in Hn; rewrite Hn; repeat split |].
  split; [intros Hn; by rewrite Hn |].
  intros t d week_ago Ht Hweek Hd Hnow Hfrac.
  unfold cutoff_of in Hcut. rewrite Hweek in Hcut. injection Hcut as <-.
  by apply (completed_before_earlier t d now).
Qed.

Lemma sweep_archives_due_witness :
  archive_old_tasks_handler morning noon sweep_world
  = (Ok (json_response (RArchived 2) 200),
     snd (archive_old_tasks_handler morning noon sweep_world))
  ∧ map (λ t, get t "status")
        (tasks_of (snd (archive_old_tasks_handler morning noon sweep_world)))
    = [JStr "archive"; JStr "archive"; JStr "done"; JStr "todo"].
Proof.
  destruct (sweep_archives_due sweep_world morning noon "2026-10-27T09:05:00Z")
    as (w' & Hrun & _ & _ & _ & Hsome & _); [reflexivity | reflexivity |].
  destruct (Hsome ltac:(vm_compute; lia)) as (Htasks & _ & _).
  rewrite Hrun. split; [reflexivity |]. cbn [snd]. unfold tasks_of. rewrite Htasks.
  vm_compute. reflexivity.
Defined.

(** C3, the claim as written fails: a done task that has no [completedAt]
    is archived by the sweep. *)
Lemma sweep_archives_task_without_completedAt :
  let w' := snd (archive_old_tasks_handler morning noon sweep_world) in
  nth 0 (tasks_of sweep_world) ∅ !! "completedAt" = None
  ∧ get (nth 0 (tasks_of sweep_world) ∅) "status" = JStr "done"
  ∧ get (nth 0 (tasks_of w') ∅) "status" = JStr "archive"
  ∧ fst (archive_old_tasks_handler morning noon sweep_world)
    = Ok (json_response (RArchived 2) 200).
Proof. vm_compute. repeat split. Qed.

Lemma swept_nothing_due_later (cutoff cutoff' : string) (tasks : list obj) :
  Forall (λ t, due cutoff t = false → due cutoff' t = false) tasks →
  count_due cutoff' (swept cutoff tasks) = 0.
Proof.
  unfold count_due, swept. induction 1 as [| t rest Ht _ IH]; [reflexivity |].
  cbn [map List.filter]. destruct (due cutoff t) eqn:Hdue.
  - by rewrite due_archived.
  - by rewrite (Ht eq_refl).
Qed.

(** C4, as the code has it: each sweep computes its cutoff from the clock.
    A second sweep right after a first one that returned archives nothing,
    answers a count of zero and leaves the world as the first sweep left it
    (nothing is saved, logged or broadcast) when it reads the same clock,
    and more generally when no task the first sweep passed over is due at
    the cutoff of the second.  A sweep that answers zero has changed
    nothing. *)
Theorem sweep_is_idempotent (w w1 : world) (now na : datetime) (r : response) :
  archive_old_tasks_handler now na w = (Ok r, w1) →
  (∀ na', archive_old_tasks_handler now na' w1 = (Ok (json_response (RArchived 0) 200), w1))
  ∧ (∀ (now' na' : datetime) (cutoff cutoff' : string),
       cutoff_of now = Some cutoff → cutoff_of now' = Some cutoff' →
       Forall (λ t, due cutoff t = false → due cutoff' t = false) (tasks_of w) →
       archive_old_tasks_handler now' na' w1 = (Ok (json_response (RArchived 0) 200), w1))
  ∧ (body_of r = RArchived 0 → w1 = w).
Proof.
  rewrite archive_old_tasks_handler_run.
  destruct (cutoff_of now) as [cutoff |] eqn:Hcut; [| discriminate].
  destruct (forallb comparable (tasks_of w)) eqn:Hcmp; [| discriminate].
  cbv zeta. intros [= <- <-].
  destruct (swept_nothing_due cutoff (tasks_of w)) as (Hzero & Hcmp' & Hsame).
  specialize (Hcmp' Hcmp).
  set (w1 := if (0 <? count_due cutoff (tasks_of w))%nat then _ else w).
  assert (Htasks : tasks_of w1 = swept cutoff (tasks_of w)).
  { unfold w1. destruct (0 <? count_due cutoff (tasks_of w))%nat eqn:Hn; [reflexivity |].
    apply Nat.ltb_ge in Hn. symmetry. apply Hsame. lia. }
  assert (Hlater : ∀ (now' na' : datetime) (cutoff' : string),
            cutoff_of now' = Some cutoff' →
            Forall (λ t, due cutoff t = false → due cutoff' t = false) (tasks_of w) →
            archive_old_tasks_handler now' na' w1
            = (Ok (json_response (RArchived 0) 200), w1)).
  { intros now' na' cutoff' Hcut' Hpassed.
    rewrite archive_old_tasks_handler_run, Hcut', Htasks, Hcmp'.
    by rewrite (swept_nothing_due_later _ _ _ Hpassed). }
  split; [| split].
  - intros na'. apply (Hlater now na' cutoff Hcut). by apply Forall_forall.
  - intros now' na' c c' [= <-] Hcut' Hpassed. by apply (Hlater now' na' c').
  - cbn [body_of]. intros [= Hn]. unfold w1. by rewrite Hn.
Qed.

Lemma sweep_is_idempotent_witness :
  let w1 := snd (archive_old_tasks_handler morning noon sweep_world) in
  archive_old_tasks_handler morning noon w1 = (Ok (json_response (RArchived 0) 200), w1)
  ∧ archive_old_tasks_handler noon noon w1 = (Ok (json_response (RArchived 0) 200), w1).
Proof.
  intros w1.
  destruct (sweep_is_idempotent sweep_world w1 morning noon (json_response (RArchived 2) 200))
    as (Hsame & Hlater & _); [reflexivity |].
  split; [apply Hsame |].
  apply (Hlater noon noon "2026-10-27T09:05:00Z" "2026-10-27T12:00:00.000250Z");
    [reflexivity | reflexivity |].
  repeat constructor; vm_compute; congruence.
Defined.

(** C4, the claim as written fails: with no change in between, a second
    sweep one second after the first archives again, since its cutoff has
    moved past the [completedAt] of a task the first sweep passed over; it
    answers a count of one, saves, logs and broadcasts. *)
Lemma second_sweep_later_archives_again :
  let w := mkWorld
             (Some [ {[ "id" := JStr "b2"; "status" := JStr "done";
                        "completedAt" := JStr "2026-10-20T10:00:00Z" ]};
                     {[ "id" := JStr "c3"; "status" := JStr "done";
                        "completedAt" := JStr "2026-10-27T09:05:00Z" ]} ])
             None None None [] [] in
  let a_second_later := mkDatetime 2026 11 3 9 5 1 0 in
  let first := archive_old_tasks_handler morning morning w in
  let second := archive_old_tasks_handler a_second_later a_second_later (snd first) in
  fst first = Ok (json_response (RArchived 1) 200)
  ∧ map (λ t, get t "status") (tasks_of (snd first)) = [JStr "archive"; JStr "done"]
  ∧ fst second = Ok (json_response (RArchived 1) 200)
  ∧ map (λ t, get t "status") (tasks_of (snd second)) = [JStr "archive"; JStr "archive"]
  ∧ last (trace (snd second)) = Some (Broadcast (tasks_archived 1)).
Proof. vm_compute. repeat split. Qed.

(** ** Agents: status updates *)

Lemma py_in_working (v : json) : py_in v working_statuses = busy v.
Proof.
  unfold py_in, working_statuses, busy, busy_labels.
  destruct v as [| b | n | s | items | fields]; reflexivity.
Qed.

Lemma busy_truthy (v : json) : busy v = true → truthy v = true.
Proof.
  destruct v as [| b | n | s | items | fields]; try discriminate.
  destruct s; [discriminate | reflexivity].
Qed.

Lemma py_in_idle (v : json) : truthy v && py_in v [JStr "Idle"; JStr "Standby"] = idle v.
Proof.
  unfold py_in, idle. destruct v as [| b | n | s | items | fields]; cbn [existsb py_eq truthy];
    rewrite ?orb_false_r, ?andb_false_r; try reflexivity.
  destruct s; [reflexivity |]. reflexivity.
Qed.

Lemma busy_not_idle (v : json) : busy v = true → idle v = false.
Proof.
  destruct v as [| b | n | s | items | fields]; try reflexivity.
  unfold busy, idle, busy_labels. cbn [existsb]. rewrite !orb_true_iff.
  intros H. apply orb_false_iff.
  repeat (destruct H as [H | H]; [apply String.eqb_eq in H; subst s; split; reflexivity |]).
  discriminate.
Qed.

Lemma get_agents_run (w : world) : get_agents w = (Ok (agents_of w), agents_loaded w).
Proof.
  unfold get_agents, agents_of, agents_loaded, bind, gets, save_agents, emit, modify, ret.
  destruct (agents_file w); reflexivity.
Qed.

Lemma update_agent_loop_skip (agent_id now : string) (body : obj) (new_status : json)
    (before rest : list obj) (w : world) :
  Forall (other_id agent_id) before →
  update_agent_loop agent_id now body new_status (before ++ rest) w
  = match update_agent_loop agent_id now body new_status rest w with
    | (Ok (rest', found), w') => (Ok (before ++ rest', found), w')
    | (Raise, w') => (Raise, w')
    end.
Proof.
  induction 1 as [| o before Ho _ IH]; simpl.
  - destruct (update_agent_loop _ _ _ _ rest w) as [[[rest' found] |] w']; reflexivity.
  - unfold bind at 1. destruct (subscript_other _ _ w Ho) as (v & -> & ->).
    unfold bind. rewrite IH.
    destruct (update_agent_loop _ _ _ _ rest w) as [[[rest' found] |] w']; reflexivity.
Qed.

Lemma next_agent_world (agent_id : string) (agents : list obj) (w : world) :
  snd (next_agent agent_id agents w) = w.
Proof.
  induction agents as [| a rest IH]; [reflexivity |].
  cbn [next_agent]. unfold bind, subscript.
  destruct (a !! "id") as [v |]; [| reflexivity]. unfold ret at 1.
  destruct (py_eq v (JStr agent_id)); [reflexivity | exact IH].
Qed.

Lemma next_agent_hit (agent_id : string) (before after : list obj) (agent : obj) (w : world) :
  Forall (other_id agent_id) before → has_id agent_id agent →
  next_agent agent_id (before ++ agent :: after) w = (Ok (Some agent), w).
Proof.
  intros Hbefore Hagent. induction Hbefore as [| o before Ho _ IH]; cbn [app next_agent].
  - unfold bind. rewrite (subscript_id _ _ _ Hagent), py_eq_refl_str. reflexivity.
  - unfold bind. destruct (subscript_other _ _ w Ho) as (v & -> & ->). exact IH.
Qed.

Lemma next_agent_miss (agent_id : string) (agents : list obj) (w : world) :
  Forall (other_id agent_id) agents →
  next_agent agent_id agents w = (Ok None, w).
Proof.
  induction 1 as [| o rest Ho _ IH]; [reflexivity |]. cbn [next_agent].
  unfold bind. destruct (subscript_other _ _ w Ho) as (v & -> & ->). exact IH.
Qed.

Lemma update_agent_loop_hit (agent_id now : string) (body : obj)
    (before after : list obj) (agent : obj) (w : world) :
  Forall (other_id agent_id) before → has_id agent_id agent →
  update_agent_loop agent_id now body (get body "status") (before ++ agent :: after) w
  = (Ok (before ++ updated_agent now body agent :: after, true), w).
Proof.
  intros Hbefore Hagent. rewrite (update_agent_loop_skip _ _ _ _ _ _ _ Hbefore).
  cbn [update_agent_loop]. unfold bind.
  rewrite (subscript_id _ _ _ Hagent), py_eq_refl_str. unfold ret, updated_agent.
  rewrite !py_in_working, py_in_idle.
  destruct (busy (get body "status")) eqn:Hbusy.
  - rewrite (busy_truthy _ Hbusy). cbn [andb].
    destruct (busy (get_or agent "status" (JStr "Idle")));
      destruct (truthy (get (merge agent body) "startedWorkingAt")); reflexivity.
  - rewrite andb_false_r. reflexivity.
Qed.

Lemma update_agent_handler_hit (w : world) (agent_id : string) (body : obj) (now : datetime)
    (before after : list obj) (agent : obj) :
  agents_of w = before ++ agent :: after →
  Forall (other_id agent_id) before → has_id agent_id agent →
  let agents' := before ++ updated_agent (stamp now) body agent :: after in
  ∃ o data,
    update_agent_handler agent_id body now w
    = (o, match o with
          | Ok _ => with_trace (trace (agents_loaded w)
                                  ++ [Saved AGENTS_FILE; Broadcast (agent_updated data)])
                      (with_agents (Some agents') (agents_loaded w))
          | Raise => agents_loaded w
          end)
    ∧ (o = Raise ∨ o = Ok (json_response ROk 200))
    ∧ (body !! "id" = None → o = Ok (json_response ROk 200)).
Proof.
  intros Hagents Hbefore Hagent agents'.
  unfold update_agent_handler, bind at 1. rewrite get_agents_run, Hagents.
  unfold bind at 1. rewrite (update_agent_loop_hit _ _ _ _ _ _ _ Hbefore Hagent).
  fold agents'. unfold bind at 1.
  pose proof (next_agent_world agent_id agents' (agents_loaded w)) as Hworld.
  destruct (next_agent agent_id agents' (agents_loaded w)) as [[target |] w1] eqn:Hnext;
    cbn [snd] in Hworld; subst w1.
  - eexists (Ok _), _. split; [| split; [by right | done]].
    save_and_broadcast.
  - exists Raise, ∅. split; [reflexivity |]. split; [by left |].
    intros Hid. exfalso.
    assert (Hhit : has_id agent_id (updated_agent (stamp now) body agent)).
    { unfold has_id, updated_agent.
      assert (Hm : merge agent body !! "id" = Some (JStr agent_id))
        by (by rewrite merge_lookup_base).
      repeat case_match; try exact Hm; by rewrite lookup_insert_ne. }
    subst agents'. rewrite (next_agent_hit _ _ _ _ _ Hbefore Hhit) in Hnext. discriminate.
Qed.

Lemma update_agent_loop_miss (agent_id now : string) (body : obj) (new_status : json)
    (agents : list obj) (w : world) :
  Forall (other_id agent_id) agents →
  update_agent_loop agent_id now body new_status agents w = (Ok (agents, false), w).
Proof.
  intros H. rewrite <- (app_nil_r agents) at 1.
  rewrite (update_agent_loop_skip _ _ _ _ _ _ _ H). simpl. by rewrite app_nil_r.
Qed.

(** An update for an id no agent has creates the agent: the body under that
    id, stamped when the status it brings is a busy label. *)
Lemma agent_upsert_stamps (w : world) (agent_id : string) (body : obj) (now : datetime) :
  Forall (other_id agent_id) (agents_of w) →
  let created := merge {[ "id" := JStr agent_id ]} body in
  let new_agent :=
    if busy (get body "status") then <["startedWorkingAt" := JStr (stamp now)]> created
    else created in
  ∃ data,
    update_agent_handler agent_id body now w
    = (Ok (json_response ROk 200),
       with_trace (trace (agents_loaded w) ++ [Saved AGENTS_FILE; Broadcast (agent_updated data)])
         (with_agents (Some (agents_of w ++ [new_agent])) (agents_loaded w))).
Proof.
  intros Hmiss created new_agent.
  unfold update_agent_handler, bind at 1. rewrite get_agents_run.
  unfold bind at 1.
  rewrite (update_agent_loop_miss _ _ _ _ _ _ Hmiss), py_in_working. fold created.
  replace (truthy (get body "status") && busy (get body "status"))
    with (busy (get body "status"))
    by (destruct (busy (get body "status")) eqn:Hb;
        [by rewrite (busy_truthy _ Hb) | by rewrite andb_false_r]).
  fold new_agent. unfold bind at 1.
  pose proof (next_agent_world agent_id (agents_of w ++ [new_agent]) (agents_loaded w)) as Hworld.
  assert (Hnext : ∃ target, next_agent agent_id (agents_of w ++ [new_agent]) (agents_loaded w)
                            = (Ok target, agents_loaded w)).
  { assert (Hid : is_Some (new_agent !! "id")).
    { assert (Hc : is_Some (created !! "id")).
      { subst created. unfold merge. destruct (body !! "id") as [v |] eqn:Hb.
        - exists v. by apply lookup_union_Some_l.
        - rewrite lookup_union_r by done. by rewrite lookup_singleton_eq. }
      subst new_agent. destruct (busy (get body "status")); [| exact Hc].
      by rewrite lookup_insert_ne. }
    destruct Hid as [v Hv]. destruct (py_eq v (JStr agent_id)) eqn:Heq.
    - exists (Some new_agent). apply next_agent_hit; [exact Hmiss |].
      by apply (py_eq_has_id _ _ v).
    - exists None. apply next_agent_miss. apply Forall_app. split; [exact Hmiss |].
      repeat constructor. exists v. split; [exact Hv | by apply py_eq_str_false]. }
  destruct Hnext as [target ->]. eexists.
  save_and_broadcast.
Qed.

(** C2, as the code has it: on an update of an existing agent, a busy new
    status stamps [startedWorkingAt] with the current time when the old
    status was not busy, and also when it was busy but the agent (with the
    body merged in) has no [startedWorkingAt] or an empty one; from busy to
    busy a non-empty value is kept, which is the value the agent had when the
    body brings none; a new status Idle or Standby clears it to null; any
    other update leaves what the merge gives. *)
Theorem agent_update_stamps (w : world) (agent_id : string) (body : obj) (now : datetime)
    (before after : list obj) (agent : obj) :
  agents_of w = before ++ agent :: after →
  Forall (other_id agent_id) before → has_id agent_id agent →
  let old_status := get_or agent "status" (JStr "Idle") in
  let new_status := get body "status" in
  let merged := merge agent body in
  let key := "startedWorkingAt" in
  ∃ agent' o w',
    update_agent_handler agent_id body now w = (o, w')
    ∧ (body !! "id" = None → o = Ok (json_response ROk 200))
    ∧ (o ≠ Raise → agents_file w' = Some (before ++ agent' :: after))
    ∧ (busy new_status = true → busy old_status = false →
         agent' !! key = Some (JStr (stamp now)))
    ∧ (busy new_status = true → busy old_status = true →
         (truthy (get merged key) = true → agent' !! key = merged !! key)
         ∧ (truthy (get merged key) = false → agent' !! key = Some (JStr (stamp now)))
         ∧ (body !! key = None → truthy (get agent key) = true → agent' !! key = agent !! key))
    ∧ (idle new_status = true → agent' !! key = Some JNull)
    ∧ (busy new_status = false → idle new_status = false → agent' !! key = merged !! key)
    ∧ (∀ k, k ≠ key → agent' !! k = merged !! k).
Proof.
  intros Hagents Hbefore Hagent old_status new_status merged key.
  destruct (update_agent_handler_hit w agent_id body now before after agent
              Hagents Hbefore Hagent) as (o & data & Hrun & Ho & Hok).
  exists (updated_agent (stamp now) body agent), o. eexists.
  split; [exact Hrun |]. split; [exact Hok |].
  split; [intros Hne; destruct Ho as [-> | ->]; [done | reflexivity] |].
  unfold updated_agent. fold new_status old_status merged key.
  split; [intros -> ->; cbn [andb]; by rewrite lookup_insert_eq |].
  split.
  { intros -> ->. cbn [andb]. split; [by intros -> |].
    split; [intros ->; by rewrite lookup_insert_eq |].
    intros Hbody Htruthy.
    assert (Hm : merged !! key = agent !! key) by (by apply merge_lookup_base).
    unfold get in *. rewrite Hm, Htruthy. exact Hm. }
  split.
  { intros Hidle. destruct (busy new_status) eqn:Hbusy.
    - apply busy_not_idle in Hbusy. congruence.
    - rewrite Hidle. by rewrite lookup_insert_eq. }
  split; [by intros -> -> |].
  intros k Hk. repeat case_match; try reflexivity; by rewrite lookup_insert_ne.
Qed.

Lemma agent_update_stamps_witness :
  ∃ agent' w',
    update_agent_handler "coder" {[ "status" := JStr "Thinking" ]} morning agent_world
    = (Ok (json_response ROk 200), w')
    ∧ agents_file w' = Some (firstn 1 (agents_of agent_world) ++ [agent'])
    ∧ agent' !! "startedWorkingAt" = Some (JStr "2026-11-03T08:00:00Z").
Proof.
  destruct (agent_update_stamps agent_world "coder" {[ "status" := JStr "Thinking" ]} morning
              [ {[ "id" := JStr "scout"; "status" := JStr "Working" ]} ] []
              {[ "id" := JStr "coder"; "status" := JStr "Typing";
                 "startedWorkingAt" := JStr "2026-11-03T08:00:00Z" ]})
    as (agent' & o & w' & Hrun & Hok & Hfile & _ & Hkept & _).
  - reflexivity.
  - repeat constructor. exists (JStr "scout"). split; [reflexivity | discriminate].
  - reflexivity.
  - exists agent', w'. rewrite (Hok eq_refl) in Hrun, Hfile.
    split; [exact Hrun |]. split; [apply Hfile; discriminate |].
    destruct (Hkept eq_refl eq_refl) as (_ & _ & Hsame). by rewrite Hsame.
Defined.

(** C2, the claim as written fails: an agent that is busy and has no
    [startedWorkingAt] gets one when it moves to another busy label. *)
Lemma busy_agent_without_stamp_is_stamped :
  let w' := snd (update_agent_handler "scout" {[ "status" := JStr "Thinking" ]}
                   morning agent_world) in
  busy (get (nth 0 (agents_of agent_world) ∅) "status") = true
  ∧ busy (JStr "Thinking") = true
  ∧ nth 0 (agents_of agent_world) ∅ !! "startedWorkingAt" = None
  ∧ nth 0 (agents_of w') ∅ !! "startedWorkingAt" = Some (JStr "2026-11-03T09:05:00Z").
Proof. vm_compute. repeat split. Qed.

(** ** The live feed: posting *)

Lemma invalid_type_error_text :
  invalid_type_error
  = "Invalid type. Must be one of: agent-completed, agent-failed, agent-spawned, completed, decision, error, thinking, validating, working".
Proof. vm_compute. reflexivity. Qed.

(** A type that cannot be hashed makes the membership test itself fail: the
    exception escapes before the feed is touched. *)
Lemma post_feed_unhashable_type (w : world) (body : obj) (uuid4 : string)
    (now now_prune : datetime) :
  hashable (get_or body "type" (JStr "working")) = false →
  post_feed_handler body uuid4 now now_prune w = (Raise, w).
Proof.
  unfold post_feed_handler.
  destruct (get_or body "type" (JStr "working")); try discriminate; reflexivity.
Qed.

(** A post whose type is a string, or any other JSON scalar, that is not one
    of the nine valid types is answered 400 with the error text that lists
    the valid types, and leaves the world as it was: the feed has no new
    entry and nothing is broadcast. *)
Theorem post_rejects_unknown_type (w : world) (body : obj) (uuid4 : string)
    (now now_prune : datetime) :
  let entry_type := get_or body "type" (JStr "working") in
  hashable entry_type = true →
  (∀ s, entry_type = JStr s → s ∉ FEED_VALID_TYPES) →
  post_feed_handler body uuid4 now now_prune w
  = (Ok (json_response
           (RError "Invalid type. Must be one of: agent-completed, agent-failed, agent-spawned, completed, decision, error, thinking, validating, working")
           400), w).
Proof.
  intros entry_type Hhash Hout. rewrite <- invalid_type_error_text.
  unfold post_feed_handler. fold entry_type.
  destruct entry_type as [| b | n | s | items | fields]; try discriminate; try reflexivity.
  unfold in_set, bind, ret. rewrite bool_decide_eq_false_2 by (by apply Hout). reflexivity.
Qed.

Lemma post_rejects_unknown_type_witness :
  post_feed_handler {[ "message" := JStr "hello"; "type" := JStr "celebrating" ]}
    "7f3c9a10-5b1e-4c7e-9d57-0c2b6a1e4f00" morning morning feed_world
  = (Ok (json_response
           (RError "Invalid type. Must be one of: agent-completed, agent-failed, agent-spawned, completed, decision, error, thinking, validating, working")
           400), feed_world).
Proof.
  apply post_rejects_unknown_type.
  - reflexivity.
  - intros s Hs. vm_compute in Hs. injection Hs as <-.
    refine (proj1 (bool_decide_eq_false _) _). vm_compute. reflexivity.
Defined.

(** C7, where the code misses the claim: the validation is the membership
    test [entry_type not in FEED_VALID_TYPES] on a set, which cannot hash a
    list or an object.  A post whose type is a list (or an object), a type
    outside the valid ones, is not answered with the client error: the test
    raises and the handler fails, the feed and the broadcasts being left as
    they were; the same post with a string outside the valid types is
    answered 400 with the list. *)
Lemma post_with_list_type_raises :
  let post kind :=
    post_feed_handler {[ "message" := JStr "hello"; "type" := kind ]}
      "7f3c9a10-5b1e-4c7e-9d57-0c2b6a1e4f00" morning morning feed_world in
  post (JArr [JStr "working"]) = (Raise, feed_world)
  ∧ post (JObj [("name", JStr "working")]) = (Raise, feed_world)
  ∧ post (JStr "celebrating")
    = (Ok (json_response
             (RError "Invalid type. Must be one of: agent-completed, agent-failed, agent-spawned, completed, decision, error, thinking, validating, working")
             400), feed_world).
Proof. vm_compute. repeat split. Qed.

(** ** The live feed: pruning and reading *)

Lemma from_today_run (today : string) (e : feed_entry) (w : world) :
  has_text_timestamp e →
  from_today today e w = (Ok (negb (dated_before today e)), w).
Proof.
  intros [ts Hts]. unfold from_today, dated_before, timestamp_text. rewrite Hts.
  by rewrite leb_not_ltb.
Qed.

Lemma after_run (since : string) (e : feed_entry) (w : world) :
  has_text_timestamp e →
  after since e w = (Ok (since <? timestamp_text e), w).
Proof. intros [ts Hts]. unfold after, timestamp_text. by rewrite Hts. Qed.

(** A list comprehension whose test never raises is a filter. *)
Lemma comprehension_filter (keep : feed_entry → M bool) (test : feed_entry → bool)
    (entries : list feed_entry) (w : world) :
  Forall (λ e, ∀ w, keep e w = (Ok (test e), w)) entries →
  comprehension keep entries w = (Ok (List.filter test entries), w).
Proof.
  induction 1 as [| e rest He _ IH]; [reflexivity |].
  cbn [comprehension List.filter]. unfold bind. rewrite He, IH. reflexivity.
Qed.

Lemma prune_old_feed_entries_run (now : datetime) (w : world) :
  Forall has_text_timestamp (feed_entries w) →
  prune_old_feed_entries now w
  = (Ok tt, with_feed (pruned (strftime_Ymd now) (feed_entries w)) w).
Proof.
  intros Htext. unfold prune_old_feed_entries, bind at 1, gets. unfold bind.
  rewrite (comprehension_filter _ (λ e, negb (dated_before (strftime_Ymd now) e))).
  - reflexivity.
  - eapply Forall_impl; [exact Htext |]. intros e He w0. by apply from_today_run.
Qed.

Lemma pruned_text (today : string) (entries : list feed_entry) :
  Forall has_text_timestamp entries → Forall has_text_timestamp (pruned today entries).
Proof.
  rewrite !Forall_forall. intros H e He. apply H.
  apply list_elem_of_In in He. apply filter_In in He as [He _]. by apply list_elem_of_In.
Qed.

Lemma pruned_of_the_day (today : string) (entries : list feed_entry) (e : feed_entry) :
  e ∈ pruned today entries ↔ e ∈ entries ∧ dated_before today e = false.
Proof.
  unfold pruned. rewrite !list_elem_of_In, filter_In, negb_true_iff. reflexivity.
Qed.

Lemma limit_of_clamp (n : Z) : Z.to_nat (Z.min 500 (Z.max 1 n)) = limit_of (IntOf n).
Proof. unfold limit_of. f_equal. lia. Qed.

Lemma get_feed_handler_run (since_param : option string) (limit_param : int_param)
    (now : datetime) (w : world) :
  Forall has_text_timestamp (feed_entries w) →
  limit_param ≠ IntInvalid →
  let buffer := pruned (strftime_Ymd now) (feed_entries w) in
  get_feed_handler since_param limit_param now w
  = (Ok (json_response
           (REntries (last_n (limit_of limit_param)
                        (List.filter (newer_than (default "" since_param)) buffer))) 200),
     with_feed buffer w).
Proof.
  intros Htext Hlimit buffer. unfold get_feed_handler.
  set (since := default "" since_param).
  assert (Hn : ∃ n, int_or 100 limit_param = ret n
                    ∧ Z.to_nat (Z.min 500 (Z.max 1 n)) = limit_of limit_param).
  { destruct limit_param as [| n |]; [by exists 100%Z | | done].
    exists n. split; [reflexivity | apply limit_of_clamp]. }
  destruct Hn as (n & -> & <-).
  unfold bind at 1, ret at 1. unfold bind at 1. rewrite (prune_old_feed_entries_run _ _ Htext).
  fold buffer. unfold bind at 1, gets. cbn [feed_entries with_feed].
  unfold newer_than. destruct (since =? "") eqn:Hsince; cbn [negb orb].
  - unfold bind, ret. by rewrite filter_everything.
  - unfold bind. rewrite (comprehension_filter _ (λ e, since <? timestamp_text e)).
    + reflexivity.
    + eapply Forall_impl; [apply pruned_text, Htext |]. intros e He w0. by apply after_run.
Qed.


Lemma read_feed_parts (w : world) (since_param : option string) (limit_param : int_param)
    (now : datetime) :
  Forall has_text_timestamp (feed_entries w) →
  limit_param ≠ IntInvalid →
  let buffer := pruned (strftime_Ymd now) (feed_entries w) in
  ∃ result older,
    get_feed_handler since_param limit_param now w
    = (Ok (json_response (REntries result) 200), with_feed buffer w)
    ∧ List.filter (newer_than (default "" since_param)) buffer = older ++ result.
Proof.
  intros Htext Hlimit buffer.
  destruct (last_n_suffix (limit_of limit_param)
              (List.filter (newer_than (default "" since_param)) buffer))
    as (older & Hsplit & _).
  eexists _, older. split; [by apply get_feed_handler_run | exact Hsplit].
Qed.




Lemma post_feed_handler_run (body : obj) (uuid4 : string) (now now_prune : datetime)
    (w : world) (kind : string) :
  get_or body "type" (JStr "working") = JStr kind →
  kind ∈ FEED_VALID_TYPES →
  Forall has_text_timestamp (feed_entries w) →
  let entry := mkFeedEntry (prefix_of 8 uuid4) (get_or body "message" (JStr "")) (JStr kind)
                 (py_or (get body "timestamp") (JStr (stamp now))) in
  post_feed_handler body uuid4 now now_prune w
  = (Ok (json_response (ROkId (prefix_of 8 uuid4)) 201),
     with_trace (trace w ++ [Broadcast (feed entry)])
       (with_feed (pruned (strftime_Ymd now_prune) (feed_entries w) ++ [entry]) w)).
Proof.
  intros Hkind Hvalid Htext entry. unfold post_feed_handler. rewrite Hkind.
  unfold in_set, bind at 1, ret at 1. rewrite bool_decide_eq_true_2 by exact Hvalid.
  cbn [negb]. unfold bind at 1. rewrite (prune_old_feed_entries_run _ _ Htext).
  reflexivity.
Qed.

(** C6, as the code has it: a read and an accepted post both prune first, so
    no entry that was in the buffer and is dated before the current UTC day
    is in it afterwards, and none is in the answer of a read; the buffer then
    holds as many entries as were of the day, plus, after a post, the new
    entry, which is appended after the pruning whatever its date.  For an
    entry stamped by the clock, to be dated before the day is to be of an
    earlier day than the current one. *)
Theorem feed_is_pruned_before_use (w : world) (now : datetime) :
  Forall has_text_timestamp (feed_entries w) →
  let today := strftime_Ymd now in
  let of_the_day := List.filter (λ e, negb (dated_before today e)) (feed_entries w) in
  (∀ since_param limit_param, limit_param ≠ IntInvalid →
     ∃ result w',
       get_feed_handler since_param limit_param now w
       = (Ok (json_response (REntries result) 200), w')
       ∧ feed_entries w' = of_the_day
       ∧ (∀ e, dated_before today e = true → (e ∉ feed_entries w') ∧ (e ∉ result)))
  ∧ (∀ body uuid4 now_stamp kind,
       get_or body "type" (JStr "working") = JStr kind → kind ∈ FEED_VALID_TYPES →
       ∃ entry w',
         post_feed_handler body uuid4 now_stamp now w
         = (Ok (json_response (ROkId (prefix_of 8 uuid4)) 201), w')
         ∧ feed_entries w' = of_the_day ++ [entry]
         ∧ entry_timestamp entry = py_or (get body "timestamp") (JStr (stamp now_stamp))
         ∧ (∀ e, dated_before today e = true → e ∈ feed_entries w' → e = entry))
  ∧ (∀ e, e ∈ of_the_day ↔ e ∈ feed_entries w ∧ dated_before today e = false)
  ∧ (∀ e d, entry_timestamp e = JStr (stamp d) → printable d → printable now →
       (dated_before today e = true ↔ earlier_day d now)).
Proof.
  intros Htext today of_the_day.
  assert (Hgone : ∀ e, dated_before today e = true → e ∉ of_the_day).
  { intros e He Hin. apply pruned_of_the_day in Hin as [_ Hin]. congruence. }
  split; [| split; [| split]].
  - intros since_param limit_param Hlimit.
    destruct (read_feed_parts w since_param limit_param now Htext Hlimit)
      as (result & older & Hrun & Hsplit).
    exists result. eexists. split; [exact Hrun |]. split; [reflexivity |].
    intros e He. split; [by apply Hgone |].
    intros Hin. apply (Hgone e He).
    assert (Hq : e ∈ List.filter (newer_than (default "" since_param)) of_the_day).
    { fold today in Hsplit. fold (pruned today (feed_entries w)) in of_the_day.
      subst of_the_day. rewrite Hsplit. apply elem_of_app. by right. }
    apply list_elem_of_In in Hq. apply filter_In in Hq as [Hq _]. by apply list_elem_of_In.
  - intros body uuid4 now_stamp kind Hkind Hvalid.
    eexists. eexists. split; [by apply post_feed_handler_run |].
    split; [reflexivity |]. split; [reflexivity |].
    intros e He Hin. cbn [feed_entries with_feed with_trace] in Hin.
    apply elem_of_app in Hin as [Hin | Hin].
    + by apply Hgone in Hin.
    + by apply list_elem_of_singleton in Hin.
  - intros e. apply pruned_of_the_day.
  - intros e d Hts Hd Hnow. by apply dated_before_earlier_day.
Qed.

Lemma feed_is_pruned_before_use_witness :
  ∃ result w',
    get_feed_handler (Some "2026-11-03T08:10:00Z") IntMissing morning feed_world
    = (Ok (json_response (REntries result) 200), w')
    ∧ length (feed_entries w') = 2
    ∧ (∀ e, dated_before "2026-11-03" e = true → (e ∉ feed_entries w') ∧ (e ∉ result)).
Proof.
  destruct (feed_is_pruned_before_use feed_world morning) as (Hread & _ & _).
  - repeat constructor; eexists; reflexivity.
  - destruct (Hread (Some "2026-11-03T08:10:00Z") IntMissing) as (result & w' & Hrun & Hbuf & Hgone).
    + discriminate.
    + exists result, w'. split; [exact Hrun |]. split; [by rewrite Hbuf | exact Hgone].
Defined.

(** C6, the claim as written fails: a post that brings a timestamp of an
    earlier day is appended after the pruning, so the entry is in the buffer
    when the post returns; and a post that is rejected for its type returns
    before any pruning, leaving the entries of earlier days in the buffer. *)
Lemma backdated_post_stays_in_feed :
  let body : obj := {[ "message" := JStr "late report"; "type" := JStr "completed";
                       "timestamp" := JStr "2026-11-01T18:00:00Z" ]} in
  let w' := snd (post_feed_handler body "7f3c9a10-5b1e-4c7e-9d57-0c2b6a1e4f00"
                   morning morning feed_world) in
  let rejected := snd (post_feed_handler {[ "type" := JStr "celebrating" ]}
                         "7f3c9a10-5b1e-4c7e-9d57-0c2b6a1e4f00" morning morning feed_world) in
  strftime_Ymd morning = "2026-11-03"
  ∧ (∃ e, e ∈ feed_entries w'
          ∧ entry_timestamp e = JStr "2026-11-01T18:00:00Z"
          ∧ dated_before "2026-11-03" e = true)
  ∧ (∃ e, e ∈ feed_entries rejected
          ∧ entry_timestamp e = JStr "2026-11-02T23:50:00Z"
          ∧ dated_before "2026-11-03" e = true).
Proof.
  vm_compute. split; [reflexivity |]. split.
  - eexists. split; [do 2 apply list_elem_of_further; apply list_elem_of_here |].
    split; reflexivity.
  - eexists. split; [apply list_elem_of_here |]. split; reflexivity.
Qed.

(** The scenario of the specification: three posts of types working, error
    and decision with increasing timestamps, then a read with an empty
    [since] and a limit of 2, which answers error and decision in that
    order. *)
Example three_posts_then_read :
  let at_ h := mkDatetime 2026 11 3 h 0 0 0 in
  let post kind h w :=
    snd (post_feed_handler {[ "message" := JStr "step"; "type" := JStr kind ]}
           "7f3c9a10-5b1e-4c7e-9d57-0c2b6a1e4f00" (at_ h) (at_ h) w) in
  let w := post "decision" 12%N (post "error" 11%N (post "working" 10%N
             (mkWorld None None None None [] []))) in
  match fst (get_feed_handler (Some "") (IntOf 2) (at_ 13%N) w) with
  | Ok (json_response (REntries result) 200) =>
      map entry_type result = [JStr "error"; JStr "decision"]
      ∧ map entry_timestamp result
        = [JStr "2026-11-03T11:00:00Z"; JStr "2026-11-03T12:00:00Z"]
  | _ => False
  end.
Proof. vm_compute. split; reflexivity. Qed.

(** * Further properties of the handlers *)

(** ** The activity log *)

Lemma last_n_short {A} (n : nat) (l : list A) : (length l ≤ n)%nat → last_n n l = l.
Proof. intros H. unfold last_n. by replace (length l - n) with 0 by lia. Qed.

Lemma last_n_length {A} (n : nat) (l : list A) : length (last_n n l) = min n (length l).
Proof. unfold last_n. rewrite length_drop. lia. Qed.

(** X1: [add_activity] leaves a list in the activity file, whatever the file
    held; the new line, stamped with the current time, is its last entry; the
    list has at most 500 entries: all the earlier ones and the new one while
    there were fewer than 500, else the 499 latest and the new one. *)
Theorem activity_log_is_capped (now : datetime) (text : narration) (w : world) :
  let entry := mkActivity (stamp now) text in
  ∃ entries,
    add_activity now text w = (Ok entries, logged now text w)
    ∧ activity_file (logged now text w) = Some (ActivityList entries)
    ∧ (length entries ≤ 500)%nat
    ∧ last entries = Some entry
    ∧ ((length (activity_of w) < 500)%nat → entries = activity_of w ++ [entry])
    ∧ ((500 ≤ length (activity_of w))%nat →
         length entries = 500
         ∧ entries = drop (length (activity_of w) - 499) (activity_of w) ++ [entry]).
Proof.
  intros entry. exists (last_n 500 (activity_of w ++ [entry])).
  split; [apply add_activity_run |]. split; [reflexivity |].
  split; [rewrite last_n_length; lia |].
  split.
  { unfold last_n. rewrite length_app. cbn [length].
    rewrite drop_app_le by lia. apply last_snoc. }
  split.
  - intros Hfew. apply last_n_short. rewrite length_app. cbn [length]. lia.
  - intros Hfull. split; [rewrite last_n_length, length_app; cbn [length]; lia |].
    unfold last_n. rewrite length_app. cbn [length]. rewrite drop_app_le by lia.
    do 2 f_equal. lia.
Qed.

Lemma activity_log_is_capped_witness :
  ∃ entries,
    add_activity noon (AutoArchived 2) task_world = (Ok entries, logged noon (AutoArchived 2) task_world)
    ∧ entries = [mkActivity "2026-11-03T12:00:00.000250Z" (AutoArchived 2)].
Proof.
  destruct (activity_log_is_capped noon (AutoArchived 2) task_world)
    as (entries & Hrun & _ & _ & _ & Hfew & _).
  exists entries. split; [exact Hrun |]. apply Hfew. cbn. lia.
Defined.

(** ** Creating a task: the assignee *)

Lemma trigger_when_assigned_cases (task : obj) (w : world) :
  let a := get_or task "assignedTo" (JStr "") in
  trigger_when_assigned task w
  = match a with
    | JStr s =>
        if String.prefix "Agent:" s && negb (s =? "") then
          match task !! "id" with
          | Some id => (Ok tt, with_trace (trace w ++ [Spawned (co_trigger_agent id)]) w)
          | None => (Raise, w)
          end
        else (Ok tt, w)
    | _ => if truthy a then (Raise, w) else (Ok tt, w)
    end.
Proof.
  intros a. unfold trigger_when_assigned. fold a.
  destruct a as [| b | n | s | items | fields]; cbn [truthy].
  - reflexivity.
  - destruct b; reflexivity.
  - destruct (negb (n =? 0)%Z); reflexivity.
  - destruct (negb (s =? "")); [| by rewrite andb_false_r].
    rewrite andb_true_r. unfold startswith, bind, ret.
    destruct (String.prefix "Agent:" s); [| reflexivity].
    unfold subscript. destruct (task !! "id"); reflexivity.
  - destruct items; reflexivity.
  - destruct fields; reflexivity.
Qed.

Lemma create_task_handler_steps (body : obj) (uuid4 : string) (now na : datetime) (w : world) :
  let task := new_task body uuid4 now in
  create_task_handler body uuid4 now na w
  = match trigger_when_assigned task (announced body uuid4 now na w) with
    | (Ok _, w') => (Ok (json_response (RTask task) 201), w')
    | (Raise, w') => (Raise, w')
    end.
Proof.
  intros task. unfold create_task_handler, get_tasks, bind at 1, gets. fold (tasks_of w).
  change (merge (list_to_map _) body) with task.
  unfold save_tasks, broadcast, emit, modify. unfold bind at 1 2 3 4 5. unfold ret at 1.
  rewrite add_activity_run.
  replace (with_trace _ (logged na _ _)) with (announced body uuid4 now na w).
  - unfold bind, ret. by destruct (trigger_when_assigned task _) as [[[] |] w'].
  - unfold announced, logged, with_trace, with_activity, with_tasks, activity_of. fold task.
    cbn. rewrite <- !app_assoc. reflexivity.
Qed.

Lemma new_task_id (body : obj) (uuid4 : string) (now : datetime) :
  new_task body uuid4 now !! "id"
  = Some (default (JStr (prefix_of 8 uuid4)) (body !! "id")).
Proof.
  unfold new_task, merge. rewrite lookup_union.
  destruct (body !! "id"); reflexivity.
Qed.

Lemma new_task_assignee (body : obj) (uuid4 : string) (now : datetime) :
  get_or (new_task body uuid4 now) "assignedTo" (JStr "") = get_or body "assignedTo" (JStr "").
Proof.
  unfold get_or, new_task, merge. rewrite lookup_union.
  destruct (body !! "assignedTo"); reflexivity.
Qed.

(** X2: a creation request whose [assignedTo] is truthy and not a string
    (a number, [true], a non-empty list or object) fails with an exception,
    but only after the task has been appended and saved, the activity line
    written and [task_created] broadcast: the caller gets an error for a task
    that exists. *)
Theorem create_fails_after_saving (w : world) (body : obj) (uuid4 : string)
    (now na : datetime) :
  let a := get_or body "assignedTo" (JStr "") in
  let task := new_task body uuid4 now in
  truthy a = true → (∀ s, a ≠ JStr s) →
  ∃ w',
    create_task_handler body uuid4 now na w = (Raise, w')
    ∧ tasks_file w' = Some (tasks_of w ++ [task])
    ∧ trace w' = trace w ++ [ Saved TASKS_FILE; Saved ACTIVITY_FILE;
                              Spawned (co_broadcast (activity
                                (mkActivity (stamp na)
                                   (NewTask (get_or task "title" (JStr "Untitled"))))));
                              Broadcast (task_created task) ].
Proof.
  intros a task Htruthy Hstr. exists (announced body uuid4 now na w).
  split; [| split; reflexivity].
  rewrite create_task_handler_steps, trigger_when_assigned_cases, new_task_assignee.
  fold a. destruct a as [| b | n | s | items | fields]; rewrite ?Htruthy; try reflexivity.
  by destruct (Hstr s).
Qed.

Lemma create_fails_after_saving_witness :
  ∃ w',
    create_task_handler {[ "title" := JStr "Review"; "assignedTo" := JNum 7 ]}
      "7f3c9a10-5b1e-4c7e-9d57-0c2b6a1e4f00" morning morning task_world = (Raise, w')
    ∧ length (tasks_of w') = 2.
Proof.
  destruct (create_fails_after_saving task_world
              {[ "title" := JStr "Review"; "assignedTo" := JNum 7 ]}
              "7f3c9a10-5b1e-4c7e-9d57-0c2b6a1e4f00" morning morning)
    as (w' & Hrun & Hfile & _).
  - reflexivity.
  - intros s. discriminate.
  - exists w'. split; [exact Hrun |]. unfold tasks_of. rewrite Hfile. reflexivity.
Defined.

(** X3: the agent is triggered exactly when the task, as created, carries an
    [assignedTo] that is a string starting with "Agent:"; the coroutine is
    started last, after the broadcast, with the id the task carries, and the
    answer is 201 with the task either way. *)
Theorem create_triggers_assigned_agent (w : world) (body : obj) (uuid4 : string)
    (now na : datetime) (assignee : string) :
  let task := new_task body uuid4 now in
  let w1 := announced body uuid4 now na w in
  body !! "assignedTo" = Some (JStr assignee) →
  ∃ w',
    create_task_handler body uuid4 now na w = (Ok (json_response (RTask task) 201), w')
    ∧ (String.prefix "Agent:" assignee = true →
         w' = with_trace (trace w1 ++ [Spawned (co_trigger_agent (get task "id"))]) w1)
    ∧ (String.prefix "Agent:" assignee = false → w' = w1).
Proof.
  intros task w1 Hbody.
  assert (Ha : get_or task "assignedTo" (JStr "") = JStr assignee).
  { unfold task. rewrite new_task_assignee. unfold get_or. by rewrite Hbody. }
  pose proof (new_task_id body uuid4 now) as Hid. fold task in Hid.
  rewrite create_task_handler_steps, trigger_when_assigned_cases. fold task w1.
  rewrite Ha, Hid. unfold get. rewrite Hid. cbn [default].
  destruct (String.prefix "Agent:" assignee) eqn:Hprefix.
  - assert (Hne : (assignee =? "") = false) by (by destruct assignee).
    rewrite Hne. cbn [andb negb]. eexists. split; [reflexivity |]. split; [done | discriminate].
  - cbn [andb]. eexists. split; [reflexivity |]. split; [discriminate | done].
Qed.

Lemma create_triggers_assigned_agent_witness :
  ∃ w',
    create_task_handler {[ "title" := JStr "Deploy"; "assignedTo" := JStr "Agent:coder" ]}
      "7f3c9a10-5b1e-4c7e-9d57-0c2b6a1e4f00" morning morning task_world
    = (Ok (json_response
             (RTask (new_task {[ "title" := JStr "Deploy"; "assignedTo" := JStr "Agent:coder" ]}
                       "7f3c9a10-5b1e-4c7e-9d57-0c2b6a1e4f00" morning)) 201), w')
    ∧ last (trace w') = Some (Spawned (co_trigger_agent (JStr "7f3c9a10"))).
Proof.
  destruct (create_triggers_assigned_agent task_world
              {[ "title" := JStr "Deploy"; "assignedTo" := JStr "Agent:coder" ]}
              "7f3c9a10-5b1e-4c7e-9d57-0c2b6a1e4f00" morning morning "Agent:coder")
    as (w' & Hrun & Hyes & _).
  - reflexivity.
  - exists w'. split; [exact Hrun |]. rewrite (Hyes eq_refl). reflexivity.
Defined.

(** ** Updating a task: what is announced, and updating twice *)

Lemma update_task_handler_steps (w : world) (task_id : string) (body : obj) (now na : datetime)
    (before after : list obj) (task : obj) :
  tasks_of w = before ++ task :: after →
  Forall (other_id task_id) before → has_id task_id task →
  let w1 := move_logged (stamp now) na body task w in
  update_task_handler task_id body now na w
  = (Ok (json_response ROk 200),
     with_trace (trace w1 ++ [ Saved TASKS_FILE;
                               Broadcast (task_updated
                                 (merge {[ "id" := JStr task_id ]}
                                    (stamped_body (stamp now) body task))) ])
       (with_tasks (Some (before ++ updated_task (stamp now) body task :: after)) w1)).
Proof.
  intros Htasks Hbefore Htask w1.
  rewrite update_task_handler_run, Htasks, (update_task_loop_skip _ _ _ _ _ _ _ Hbefore).
  rewrite (update_task_loop_match _ _ _ _ _ _ _ _ Htask (py_eq_refl_str _)).
  reflexivity.
Qed.

(** X4: an update that finds its task answers [{"ok": True}], saves the
    tasks and broadcasts [task_updated] with the request's id under the body
    as the loop left it.  When the update moves the task into in-progress and
    the task has no [startedAt], the event carries the very [startedAt] that
    is stored, and likewise [completedAt] on a move into done or archive.
    The activity log gets one line, before the tasks are saved, exactly when
    the body brings a truthy status that differs from the task's; otherwise
    the event is the plain body and the log is left alone. *)
Theorem update_announces_stamp (w : world) (task_id : string) (body : obj) (now na : datetime)
    (before after : list obj) (task : obj) :
  tasks_of w = before ++ task :: after →
  Forall (other_id task_id) before → has_id task_id task →
  let sent := stamped_body (stamp now) body task in
  let signed := signed_task (stamp now) body task in
  let w1 := move_logged (stamp now) na body task w in
  update_task_handler task_id body now na w
  = (Ok (json_response ROk 200),
     with_trace (trace w1 ++ [ Saved TASKS_FILE;
                               Broadcast (task_updated (merge {[ "id" := JStr task_id ]} sent)) ])
       (with_tasks (Some (before ++ merge signed sent :: after)) w1))
  ∧ (enters_in_progress body task → truthy (get task "startedAt") = false →
       sent = <["startedAt" := JStr (stamp now)]> body
       ∧ merge signed sent !! "startedAt" = Some (JStr (stamp now)))
  ∧ (enters_done_or_archive body task → truthy (get task "completedAt") = false →
       sent = <["completedAt" := JStr (stamp now)]> body
       ∧ merge signed sent !! "completedAt" = Some (JStr (stamp now)))
  ∧ (status_moves body task = true →
       w1 = logged na (TaskMoved (get body "status") (get_or signed "title" (JStr "Untitled"))) w)
  ∧ (status_moves body task = false → sent = body ∧ signed = task ∧ w1 = w).
Proof.
  intros Htasks Hbefore Htask sent signed w1.
  split; [apply (update_task_handler_steps _ _ _ _ _ _ _ _ Htasks Hbefore Htask) |].
  split.
  { intros Hin Hnone. apply enters_in_progress_test, andb_true_iff in Hin as [Hmoves Hstatus].
    assert (Hsent : sent = <["startedAt" := JStr (stamp now)]> body).
    { unfold sent, stamped_body. by rewrite Hmoves, Hstatus, Hnone. }
    split; [exact Hsent |]. apply merge_lookup_over. rewrite Hsent. apply lookup_insert_eq. }
  split.
  { intros Hdone Hnone. pose proof Hdone as [Hnew _].
    apply enters_done_or_archive_test, andb_true_iff in Hdone as [Hmoves Hstatus].
    assert (Hsent : sent = <["completedAt" := JStr (stamp now)]> body).
    { unfold sent, stamped_body. rewrite Hmoves, Hstatus, Hnone.
      by destruct Hnew as [-> | ->]. }
    split; [exact Hsent |]. apply merge_lookup_over. rewrite Hsent. apply lookup_insert_eq. }
  split.
  - intros Hmoves. unfold w1, move_logged. by rewrite Hmoves.
  - intros Hstill. unfold sent, signed, w1, stamped_body, signed_task, move_logged.
    by rewrite Hstill.
Qed.

Lemma update_announces_stamp_witness :
  ∃ w',
    update_task_handler "0a1b2c3d" {[ "status" := JStr "done" ]} noon noon task_world
    = (Ok (json_response ROk 200), w')
    ∧ last (trace w')
      = Some (Broadcast (task_updated {[ "id" := JStr "0a1b2c3d"; "status" := JStr "done";
                                         "completedAt" := JStr "2026-11-03T12:00:00.000250Z" ]})).
Proof.
  destruct (update_announces_stamp task_world "0a1b2c3d" {[ "status" := JStr "done" ]} noon noon
              [] [] report_task) as (Hrun & _).
  - reflexivity.
  - constructor.
  - reflexivity.
  - eexists. split; [exact Hrun |]. vm_compute. reflexivity.
Defined.

Lemma py_eq_refl_hashable (v : json) : hashable v = true → py_eq v v = true.
Proof.
  destruct v as [| b | n | s | items | fields]; cbn; try done.
  - by destruct b.
  - intros _. apply Z.eqb_refl.
  - intros _. apply py_eq_refl_str.
Qed.

Lemma stamped_body_extends (now : string) (body task : obj) :
  body !! "startedAt" = None → body !! "completedAt" = None →
  body ⊆ stamped_body now body task.
Proof.
  intros Hs Hc. unfold stamped_body. repeat case_match; try done; by apply insert_subseteq.
Qed.

Lemma stamped_body_lookup (now : string) (body task : obj) (k : string) :
  k ≠ "startedAt" → k ≠ "completedAt" → stamped_body now body task !! k = body !! k.
Proof.
  intros Hs Hc. unfold stamped_body. repeat case_match; try done; by rewrite lookup_insert_ne.
Qed.

Lemma signed_task_lookup (now : string) (body task : obj) (k : string) :
  k ≠ "completedBy" → signed_task now body task !! k = task !! k.
Proof.
  intros Hk. unfold signed_task. repeat case_match; try done; by rewrite lookup_insert_ne.
Qed.

(** X5: repeating an update changes nothing more.  When the body brings no
    [id], [startedAt] or [completedAt] of its own and its status is a scalar,
    the same request served again, at whatever later time, leaves every task
    as the first request left it (the stamps included), writes no second line
    to the activity log, and announces the plain body. *)
Theorem update_twice_changes_nothing (w : world) (task_id : string) (body : obj)
    (now na now' na' : datetime) (before after : list obj) (task : obj) :
  tasks_of w = before ++ task :: after →
  Forall (other_id task_id) before → has_id task_id task →
  body !! "id" = None → body !! "startedAt" = None → body !! "completedAt" = None →
  hashable (get body "status") = true →
  let w1 := serve w (UpdateTask task_id body now na) in
  update_task_handler task_id body now' na' w1
  = (Ok (json_response ROk 200),
     with_trace (trace w1 ++ [ Saved TASKS_FILE;
                               Broadcast (task_updated (merge {[ "id" := JStr task_id ]} body)) ])
       (with_tasks (Some (tasks_of w1)) w1))
  ∧ tasks_of w1 = before ++ updated_task (stamp now) body task :: after.
Proof.
  intros Htasks Hbefore Htask Hid Hstarted Hcompleted Hscalar w1.
  assert (Hw1 : tasks_of w1 = before ++ updated_task (stamp now) body task :: after)
    by (by apply update_task_handler_hit).
  split; [| exact Hw1].
  set (task' := updated_task (stamp now) body task) in *.
  assert (Htask' : has_id task_id task').
  { unfold has_id, task', updated_task. rewrite merge_lookup_base.
    - by rewrite signed_task_lookup.
    - by rewrite stamped_body_lookup. }
  assert (Hstill : status_moves body task' = false).
  { unfold status_moves. destruct (body !! "status") as [s |] eqn:Hs.
    - assert (Hstored : get task' "status" = s).
      { unfold get, task', updated_task.
        erewrite merge_lookup_over; [reflexivity |]. by rewrite stamped_body_lookup. }
      rewrite Hstored. unfold get in *. rewrite Hs in *. cbn [default] in *.
      by rewrite py_eq_refl_hashable, andb_false_r.
    - unfold get. by rewrite Hs. }
  rewrite (update_task_handler_steps _ _ _ _ _ _ _ _ Hw1 Hbefore Htask').
  unfold move_logged, updated_task at 1, stamped_body at 1 2, signed_task.
  rewrite Hstill. cbn [andb].
  replace (merge task' body) with task'; [by rewrite Hw1 |].
  unfold task', updated_task, merge. rewrite (assoc_L (∪)).
  f_equal. symmetry. apply map_subseteq_union. by apply stamped_body_extends.
Qed.

Lemma update_twice_changes_nothing_witness :
  let w1 := serve task_world (UpdateTask "0a1b2c3d" {[ "status" := JStr "in-progress" ]}
                                morning morning) in
  let w2 := serve w1 (UpdateTask "0a1b2c3d" {[ "status" := JStr "in-progress" ]} noon noon) in
  tasks_of w2 = tasks_of w1
  ∧ get (nth 0 (tasks_of w2) ∅) "startedAt" = JStr "2026-11-03T09:05:00Z".
Proof.
  intros w1 w2.
  destruct (update_twice_changes_nothing task_world "0a1b2c3d"
              {[ "status" := JStr "in-progress" ]} morning morning noon noon [] [] report_task)
    as (Hrun & Hw1); try reflexivity.
  - constructor.
  - fold w1 in Hrun, Hw1. unfold w2, serve at 1. rewrite Hrun. cbn [snd].
    split; [reflexivity |]. vm_compute. reflexivity.
Defined.

(** ** A record without an id *)

Lemma subscript_missing (o : obj) (w : world) :
  o !! "id" = None → subscript o "id" w = (Raise, w).
Proof. intros H. unfold subscript. by rewrite H. Qed.

(** X6: the three loops that look a record up by [record['id']] stop with a
    KeyError at the first record without an [id] that they meet before the
    one they look for: the handler fails and nothing has been written, sent
    or logged. *)
Theorem record_without_id_stops_the_handler :
  (∀ (w : world) (task_id : string) (body : obj) (now na : datetime)
     (before rest : list obj) (t : obj),
     tasks_of w = before ++ t :: rest → Forall (other_id task_id) before → t !! "id" = None →
     update_task_handler task_id body now na w = (Raise, w))
  ∧ (∀ (w : world) (note_id : string) (now : datetime) (before rest : list obj) (n : obj),
       notes_of w = before ++ n :: rest → Forall (other_id note_id) before → n !! "id" = None →
       mark_note_read_handler note_id now w = (Raise, w))
  ∧ (∀ (w : world) (agent_id : string) (body : obj) (now : datetime)
       (before rest : list obj) (a : obj),
       agents_file w = Some (before ++ a :: rest) → Forall (other_id agent_id) before →
       a !! "id" = None →
       update_agent_handler agent_id body now w = (Raise, w)).
Proof.
  split; [| split].
  - intros w task_id body now na before rest t Htasks Hbefore Hnone.
    rewrite update_task_handler_run, Htasks, (update_task_loop_skip _ _ _ _ _ _ _ Hbefore).
    cbn [update_task_loop]. unfold bind. by rewrite (subscript_missing _ _ Hnone).
  - intros w note_id now before rest n Hnotes Hbefore Hnone.
    unfold mark_note_read_handler, get_notes, bind at 1, gets. fold (notes_of w).
    rewrite Hnotes. unfold bind at 1.
    assert (Hloop : mark_read_loop note_id (stamp now) (before ++ n :: rest) w = (Raise, w)).
    { clear Hnotes. induction Hbefore as [| o before Ho _ IH]; cbn.
      - unfold bind. by rewrite (subscript_missing _ _ Hnone).
      - unfold bind at 1. destruct (subscript_other _ _ w Ho) as (v & -> & ->).
        unfold bind. by rewrite IH. }
    by rewrite Hloop.
  - intros w agent_id body now before rest a Hagents Hbefore Hnone.
    assert (Hof : agents_of w = before ++ a :: rest) by (unfold agents_of; by rewrite Hagents).
    assert (Hloaded : agents_loaded w = w) by (unfold agents_loaded; by rewrite Hagents).
    unfold update_agent_handler, bind at 1. rewrite get_agents_run, Hof, Hloaded.
    unfold bind at 1. rewrite (update_agent_loop_skip _ _ _ _ _ _ _ Hbefore).
    cbn [update_agent_loop]. unfold bind. by rewrite (subscript_missing _ _ Hnone).
Qed.

Lemma record_without_id_stops_the_handler_witness :
  let w := mkWorld (Some [ {[ "title" := JStr "no id" ]}; report_task ]) None None None [] [] in
  update_task_handler "0a1b2c3d" {[ "status" := JStr "done" ]} morning morning w = (Raise, w).
Proof.
  intros w.
  destruct record_without_id_stops_the_handler as (Htasks & _).
  apply (Htasks w "0a1b2c3d" {[ "status" := JStr "done" ]} morning morning
           [] [report_task] {[ "title" := JStr "no id" ]}).
  - reflexivity.
  - constructor.
  - reflexivity.
Defined.

(** ** Marking a note read that is not there *)

Lemma mark_read_loop_miss (note_id now : string) (notes : list obj) (w : world) :
  Forall (other_id note_id) notes → mark_read_loop note_id now notes w = (Ok notes, w).
Proof.
  induction 1 as [| o notes Ho _ IH]; cbn; [reflexivity |].
  unfold bind at 1. destruct (subscript_other _ _ w Ho) as (v & -> & ->).
  unfold bind. by rewrite IH.
Qed.

(** X7: marking a note read under an id no note has still answers
    [{"ok": True}]: the notes are written back as they were and subscribers
    are told, with the time of the request, that the note was read. *)
Theorem mark_read_of_missing_note (w : world) (note_id : string) (now : datetime) :
  Forall (other_id note_id) (notes_of w) →
  mark_note_read_handler note_id now w
  = (Ok (json_response ROk 200),
     with_trace (trace w ++ [ Saved NOTES_FILE;
                              Broadcast (note_updated note_id true (stamp now)) ])
       (with_notes (Some (notes_of w)) w)).
Proof.
  intros Hmiss. unfold mark_note_read_handler, get_notes, bind at 1, gets. fold (notes_of w).
  unfold bind at 1. rewrite (mark_read_loop_miss _ _ _ _ Hmiss).
  save_and_broadcast.
Qed.

Lemma mark_read_of_missing_note_witness :
  mark_note_read_handler "zz" morning note_world
  = (Ok (json_response ROk 200),
     with_trace [ Saved NOTES_FILE; Broadcast (note_updated "zz" true "2026-11-03T09:05:00Z") ]
       note_world).
Proof.
  rewrite (mark_read_of_missing_note note_world "zz" morning).
  - reflexivity.
  - repeat constructor; eexists; (split; [reflexivity | discriminate]).
Defined.

(** ** An update whose body brings an id *)

(** X8: the body of an update is merged into the task as it is, its [id]
    included: the task found under the id of the request is stored under the
    id of the body, and the event names that id, not the one of the request.
    When the two differ and no later task has the id of the request, a second
    request under that id finds no task. *)
Theorem update_body_changes_the_id (w : world) (task_id : string) (body : obj)
    (now na : datetime) (before after : list obj) (task : obj) (v : json) :
  tasks_of w = before ++ task :: after →
  Forall (other_id task_id) before → has_id task_id task →
  body !! "id" = Some v →
  ∃ task' data w',
    update_task_handler task_id body now na w = (Ok (json_response ROk 200), w')
    ∧ tasks_of w' = before ++ task' :: after
    ∧ task' !! "id" = Some v
    ∧ last (trace w') = Some (Broadcast (task_updated data))
    ∧ data !! "id" = Some v
    ∧ (v ≠ JStr task_id → Forall (other_id task_id) after →
         Forall (other_id task_id) (tasks_of w')).
Proof.
  intros Htasks Hbefore Htask Hid.
  assert (Hsent : stamped_body (stamp now) body task !! "id" = Some v)
    by (by rewrite stamped_body_lookup).
  exists (updated_task (stamp now) body task),
         (merge {[ "id" := JStr task_id ]} (stamped_body (stamp now) body task)).
  eexists.
  split; [apply (update_task_handler_steps _ _ _ _ _ _ _ _ Htasks Hbefore Htask) |].
  split; [reflexivity |].
  split; [by apply merge_lookup_over |].
  split; [cbn [trace with_trace]; by rewrite last_app |].
  split; [by apply merge_lookup_over |].
  intros Hother Hafter. cbn. apply Forall_app. split; [exact Hbefore |].
  constructor; [| exact Hafter].
  exists v. split; [by apply merge_lookup_over | exact Hother].
Qed.

Lemma update_body_changes_the_id_witness :
  ∃ w',
    update_task_handler "0a1b2c3d" {[ "id" := JStr "moved" ]} morning morning task_world
    = (Ok (json_response ROk 200), w')
    ∧ Forall (other_id "0a1b2c3d") (tasks_of w').
Proof.
  destruct (update_body_changes_the_id task_world "0a1b2c3d" {[ "id" := JStr "moved" ]}
              morning morning [] [] report_task (JStr "moved"))
    as (task' & data & w' & Hrun & _ & _ & _ & _ & Hgone).
  - reflexivity.
  - constructor.
  - reflexivity.
  - reflexivity.
  - exists w'. split; [exact Hrun |]. apply Hgone; [discriminate | constructor].
Defined.

(** ** Agents: what an update stores and what it announces *)

Lemma dict_truthy_lookup (o : obj) (k : string) (v : json) :
  o !! k = Some v → dict_truthy o = true.
Proof.
  intros Hk. unfold dict_truthy. destruct (size o) eqn:Hsize; [| reflexivity].
  apply map_size_empty_iff in Hsize. subst o. by rewrite lookup_empty in Hk.
Qed.

Lemma updated_agent_id (now : string) (body agent : obj) :
  updated_agent now body agent !! "id" = merge agent body !! "id".
Proof. unfold updated_agent. repeat case_match; try done; by rewrite lookup_insert_ne. Qed.

(** X9: an update of an agent that exists, whose body brings no [id],
    stores the agent with the body merged in and stamped, and
    broadcasts [agent_updated] with the request's id, the fields of the body
    and, under [startedWorkingAt], exactly what is now stored there: null
    when the stored agent has none. *)
Theorem agent_event_carries_stored_stamp (w : world) (agent_id : string) (body : obj)
    (now : datetime) (before after : list obj) (agent : obj) :
  agents_of w = before ++ agent :: after →
  Forall (other_id agent_id) before → has_id agent_id agent →
  body !! "id" = None →
  let agent' := updated_agent (stamp now) body agent in
  let data := <["startedWorkingAt" := get agent' "startedWorkingAt"]>
                (<["id" := JStr agent_id]> body) in
  update_agent_handler agent_id body now w
  = (Ok (json_response ROk 200),
     with_trace (trace (agents_loaded w) ++ [Saved AGENTS_FILE; Broadcast (agent_updated data)])
       (with_agents (Some (before ++ agent' :: after)) (agents_loaded w)))
  ∧ (∀ k v, k ≠ "startedWorkingAt" → body !! k = Some v → data !! k = Some v)
  ∧ data !! "id" = Some (JStr agent_id).
Proof.
  intros Hagents Hbefore Hagent Hid agent' data.
  assert (Hagent' : has_id agent_id agent').
  { unfold has_id, agent'. rewrite updated_agent_id. by rewrite merge_lookup_base. }
  split; [| split].
  - unfold update_agent_handler, bind at 1. rewrite get_agents_run, Hagents.
    unfold bind at 1. rewrite (update_agent_loop_hit _ _ _ _ _ _ _ Hbefore Hagent).
    fold agent'. unfold bind at 1.
    rewrite (next_agent_hit _ _ _ _ _ Hbefore Hagent'), (dict_truthy_lookup _ _ _ Hagent').
    replace (merge {[ "id" := JStr agent_id ]} body) with (<["id" := JStr agent_id]> body).
    + fold data. save_and_broadcast.
    + unfold merge. rewrite insert_union_singleton_l.
      apply map_union_comm, map_disjoint_singleton_l_2, Hid.
  - intros k v Hk Hbody. unfold data. rewrite lookup_insert_ne by done.
    rewrite lookup_insert_ne; [exact Hbody |]. intros <-. congruence.
  - unfold data. rewrite lookup_insert_ne by done. apply lookup_insert_eq.
Qed.

Lemma agent_event_carries_stored_stamp_witness :
  ∃ w',
    update_agent_handler "coder" {[ "status" := JStr "Thinking" ]} morning agent_world
    = (Ok (json_response ROk 200), w')
    ∧ last (trace w')
      = Some (Broadcast (agent_updated
                {[ "id" := JStr "coder"; "status" := JStr "Thinking";
                   "startedWorkingAt" := JStr "2026-11-03T08:00:00Z" ]})).
Proof.
  destruct (agent_event_carries_stored_stamp agent_world "coder"
              {[ "status" := JStr "Thinking" ]} morning
              [ {[ "id" := JStr "scout"; "status" := JStr "Working" ]} ] []
              {[ "id" := JStr "coder"; "status" := JStr "Typing";
                 "startedWorkingAt" := JStr "2026-11-03T08:00:00Z" ]})
    as (Hrun & _).
  - reflexivity.
  - repeat constructor. exists (JStr "scout"). split; [reflexivity | discriminate].
  - reflexivity.
  - reflexivity.
  - eexists. split; [exact Hrun |]. vm_compute. reflexivity.
Defined.

(** X10: an update for an id no agent has, whose body brings no [id] of
    its own, creates the agent at the end of the list: the body under the id
    of the request, with [startedWorkingAt] set to the current time when the
    status it brings is a busy label and left out otherwise.  The event of
    such an update always has a [startedWorkingAt]: that stamp, else what the
    body brought, else null. *)
Theorem unknown_agent_is_created (w : world) (agent_id : string) (body : obj) (now : datetime) :
  Forall (other_id agent_id) (agents_of w) →
  body !! "id" = None →
  let created := <["id" := JStr agent_id]> body in
  let new_agent :=
    if busy (get body "status") then <["startedWorkingAt" := JStr (stamp now)]> created
    else created in
  let data := <["startedWorkingAt" := get new_agent "startedWorkingAt"]> created in
  update_agent_handler agent_id body now w
  = (Ok (json_response ROk 200),
     with_trace (trace (agents_loaded w) ++ [Saved AGENTS_FILE; Broadcast (agent_updated data)])
       (with_agents (Some (agents_of w ++ [new_agent])) (agents_loaded w)))
  ∧ (busy (get body "status") = true → data !! "startedWorkingAt" = Some (JStr (stamp now)))
  ∧ (busy (get body "status") = false →
       new_agent = created ∧ data !! "startedWorkingAt" = Some (get body "startedWorkingAt")).
Proof.
  intros Hmiss Hid created new_agent data.
  assert (Hcreated : merge {[ "id" := JStr agent_id ]} body = created).
  { unfold merge, created. rewrite insert_union_singleton_l.
    symmetry. apply map_union_comm, map_disjoint_singleton_l_2, Hid. }
  assert (Hnew : has_id agent_id new_agent).
  { unfold has_id, new_agent, created. destruct (busy (get body "status"));
      rewrite ?(lookup_insert_ne _ "startedWorkingAt") by done; apply lookup_insert_eq. }
  split; [| split].
  - unfold update_agent_handler, bind at 1. rewrite get_agents_run.
    unfold bind at 1. rewrite (update_agent_loop_miss _ _ _ _ _ _ Hmiss), py_in_working.
    rewrite Hcreated.
    replace (truthy (get body "status") && busy (get body "status"))
      with (busy (get body "status"))
      by (destruct (busy (get body "status")) eqn:Hb;
          [by rewrite (busy_truthy _ Hb) | by rewrite andb_false_r]).
    fold new_agent. unfold bind at 1.
    rewrite (next_agent_hit _ _ [] _ _ Hmiss Hnew), (dict_truthy_lookup _ _ _ Hnew).
    fold data. save_and_broadcast.
  - intros Hbusy. unfold data, new_agent. rewrite Hbusy, lookup_insert_eq.
    unfold get. by rewrite lookup_insert_eq.
  - intros Hcalm. unfold data, new_agent. rewrite Hcalm. split; [reflexivity |].
    rewrite lookup_insert_eq. unfold get, created. by rewrite lookup_insert_ne.
Qed.

Lemma unknown_agent_is_created_witness :
  ∃ w',
    update_agent_handler "tester" {[ "status" := JStr "Working" ]} morning agent_world
    = (Ok (json_response ROk 200), w')
    ∧ nth 2 (agents_of w') ∅
      = {[ "id" := JStr "tester"; "status" := JStr "Working";
           "startedWorkingAt" := JStr "2026-11-03T09:05:00Z" ]}.
Proof.
  destruct (unknown_agent_is_created agent_world "tester" {[ "status" := JStr "Working" ]}
              morning) as (Hrun & _).
  - repeat constructor; eexists; (split; [reflexivity | discriminate]).
  - reflexivity.
  - eexists. split; [exact Hrun |]. vm_compute. reflexivity.
Defined.

(** ** The live feed: a post read back, and a timestamp that is no text *)

Lemma last_last_n {A} (n : nat) (l : list A) (x : A) :
  (1 ≤ n)%nat → last (last_n n (l ++ [x])) = Some x.
Proof.
  intros Hn. unfold last_n. rewrite length_app. cbn [length].
  rewrite drop_app_le by lia. apply last_snoc.
Qed.

Lemma limit_of_positive (p : int_param) : (1 ≤ limit_of p)%nat.
Proof. destruct p; unfold limit_of; lia. Qed.

Lemma filter_snoc {A} (test : A → bool) (l : list A) (x : A) :
  List.filter test (l ++ [x]) = List.filter test l ++ (if test x then [x] else []).
Proof. rewrite List.filter_app. reflexivity. Qed.

(** X11: an accepted post is read back.  The entry takes the first eight
    characters of the uuid for its id and the timestamp of the body, or the
    current time when the body brings none; it is broadcast as it is stored.
    A read on a day not after the date of that timestamp, with no [since] or
    one that sorts before the timestamp, answers the entry as its last item,
    whatever the limit. *)
Theorem posted_entry_is_read_back (w : world) (body : obj) (uuid4 : string)
    (now now_prune later : datetime) (kind ts : string)
    (since_param : option string) (limit_param : int_param) :
  get_or body "type" (JStr "working") = JStr kind → kind ∈ FEED_VALID_TYPES →
  Forall has_text_timestamp (feed_entries w) →
  py_or (get body "timestamp") (JStr (stamp now)) = JStr ts →
  (strftime_Ymd later <=? prefix_of 10 ts) = true →
  newer_than (default "" since_param) 
    (mkFeedEntry (prefix_of 8 uuid4) (get_or body "message" (JStr "")) (JStr kind) (JStr ts))
  = true →
  limit_param ≠ IntInvalid →
  let entry := mkFeedEntry (prefix_of 8 uuid4) (get_or body "message" (JStr ""))
                 (JStr kind) (JStr ts) in
  ∃ w1 result w2,
    post_feed_handler body uuid4 now now_prune w
    = (Ok (json_response (ROkId (prefix_of 8 uuid4)) 201), w1)
    ∧ trace w1 = trace w ++ [Broadcast (feed entry)]
    ∧ last (feed_entries w1) = Some entry
    ∧ get_feed_handler since_param limit_param later w1
      = (Ok (json_response (REntries result) 200), w2)
    ∧ last result = Some entry
    ∧ last (feed_entries w2) = Some entry.
Proof.
  intros Hkind Hvalid Htext Hts Hday Hsince Hlimit entry.
  pose proof (post_feed_handler_run body uuid4 now now_prune w kind Hkind Hvalid Htext) as Hpost.
  cbv zeta in Hpost. rewrite Hts in Hpost. fold entry in Hpost.
  set (kept := pruned (strftime_Ymd now_prune) (feed_entries w)) in *.
  set (w1 := with_trace _ _) in Hpost.
  assert (Htext1 : Forall has_text_timestamp (feed_entries w1)).
  { cbn. apply Forall_app. split; [by apply pruned_text |].
    repeat constructor. by exists ts. }
  assert (Hfresh : dated_before (strftime_Ymd later) entry = false).
  { unfold dated_before. cbn. rewrite leb_not_ltb in Hday. by apply negb_true_iff in Hday. }
  pose proof (get_feed_handler_run since_param limit_param later w1 Htext1 Hlimit) as Hread.
  cbv zeta in Hread.
  assert (Hbuffer : pruned (strftime_Ymd later) (feed_entries w1)
                    = pruned (strftime_Ymd later) kept ++ [entry]).
  { cbn. unfold pruned at 1. rewrite filter_snoc. fold (pruned (strftime_Ymd later) kept).
    by rewrite Hfresh. }
  fold entry in Hsince. rewrite Hbuffer, filter_snoc, Hsince in Hread.
  exists w1. eexists. eexists.
  split; [exact Hpost |]. split; [reflexivity |].
  split; [cbn; apply last_snoc |].
  split; [exact Hread |].
  split; [apply last_last_n, limit_of_positive | cbn; apply last_snoc].
Qed.

Lemma posted_entry_is_read_back_witness :
  ∃ w1 result w2,
    post_feed_handler {[ "message" := JStr "deploying"; "type" := JStr "working" ]}
      "7f3c9a10-5b1e-4c7e-9d57-0c2b6a1e4f00" morning morning feed_world
    = (Ok (json_response (ROkId "7f3c9a10") 201), w1)
    ∧ get_feed_handler (Some "2026-11-03T08:30:00Z") IntMissing noon w1
      = (Ok (json_response (REntries result) 200), w2)
    ∧ last result
      = Some (mkFeedEntry "7f3c9a10" (JStr "deploying") (JStr "working")
                (JStr "2026-11-03T09:05:00Z")).
Proof.
  destruct (posted_entry_is_read_back feed_world
              {[ "message" := JStr "deploying"; "type" := JStr "working" ]}
              "7f3c9a10-5b1e-4c7e-9d57-0c2b6a1e4f00" morning morning noon
              "working" "2026-11-03T09:05:00Z" (Some "2026-11-03T08:30:00Z") IntMissing)
    as (w1 & result & w2 & Hpost & _ & _ & Hread & Hlast & _).
  - reflexivity.
  - refine (proj1 (bool_decide_eq_true _) _). vm_compute. reflexivity.
  - repeat constructor; eexists; reflexivity.
  - reflexivity.
  - reflexivity.
  - reflexivity.
  - discriminate.
  - exists w1, result, w2. split; [exact Hpost |]. split; [exact Hread | exact Hlast].
Defined.

Lemma comprehension_raises (keep : feed_entry → M bool) (test : feed_entry → bool)
    (entries rest : list feed_entry) (e : feed_entry) (w : world) :
  Forall (λ e, ∀ w, keep e w = (Ok (test e), w)) entries →
  keep e w = (Raise, w) →
  comprehension keep (entries ++ e :: rest) w = (Raise, w).
Proof.
  intros Hok Hbad. induction Hok as [| x entries Hx _ IH]; cbn [app comprehension].
  - unfold bind. by rewrite Hbad.
  - unfold bind. rewrite Hx. fold (@bind (list feed_entry) (list feed_entry)).
    unfold bind in IH |- *. by rewrite IH.
Qed.

(** X12: one post whose timestamp is truthy and not a text (a number, say)
    is accepted, stored and broadcast like any other; from then on the
    pruning fails on that entry, so every read and every post of a valid type
    fails with an exception and leaves the buffer as it is: the entry is
    never dropped. *)
Theorem non_text_timestamp_breaks_the_feed (w : world) (body : obj) (uuid4 : string)
    (now now_prune : datetime) (kind : string) :
  get_or body "type" (JStr "working") = JStr kind → kind ∈ FEED_VALID_TYPES →
  Forall has_text_timestamp (feed_entries w) →
  truthy (get body "timestamp") = true → (∀ ts, get body "timestamp" ≠ JStr ts) →
  let entry := mkFeedEntry (prefix_of 8 uuid4) (get_or body "message" (JStr ""))
                 (JStr kind) (get body "timestamp") in
  ∃ w1,
    post_feed_handler body uuid4 now now_prune w
    = (Ok (json_response (ROkId (prefix_of 8 uuid4)) 201), w1)
    ∧ feed_entries w1 = pruned (strftime_Ymd now_prune) (feed_entries w) ++ [entry]
    ∧ trace w1 = trace w ++ [Broadcast (feed entry)]
    ∧ (∀ since_param limit_param later,
         get_feed_handler since_param limit_param later w1 = (Raise, w1))
    ∧ (∀ body' uuid4' now' now_prune' kind',
         get_or body' "type" (JStr "working") = JStr kind' → kind' ∈ FEED_VALID_TYPES →
         post_feed_handler body' uuid4' now' now_prune' w1 = (Raise, w1)).
Proof.
  intros Hkind Hvalid Htext Htruthy Hnotext entry.
  assert (Hprune : ∀ later w1,
            feed_entries w1 = pruned (strftime_Ymd now_prune) (feed_entries w) ++ [entry] →
            prune_old_feed_entries later w1 = (Raise, w1)).
  { intros later w1 Hfeed. unfold prune_old_feed_entries, bind at 1, gets. rewrite Hfeed.
    unfold bind.
    rewrite (comprehension_raises _ (λ e, negb (dated_before (strftime_Ymd later) e))).
    - reflexivity.
    - eapply Forall_impl; [apply pruned_text, Htext |]. intros e He w0. by apply from_today_run.
    - unfold from_today, entry. cbn [entry_timestamp].
      destruct (get body "timestamp") as [| b | n | ts | items | fields]; try reflexivity.
      by destruct (Hnotext ts). }
  eexists. split; [| split; [| split; [| split]]].
  - unfold post_feed_handler. rewrite Hkind.
    unfold in_set, bind at 1, ret at 1. rewrite bool_decide_eq_true_2 by exact Hvalid.
    cbn [negb]. unfold bind at 1. rewrite (prune_old_feed_entries_run _ _ Htext).
    unfold py_or. rewrite Htruthy. reflexivity.
  - reflexivity.
  - reflexivity.
  - intros since_param limit_param later. unfold get_feed_handler.
    unfold bind at 1. destruct limit_param as [| n |]; cbn [int_or]; [| | reflexivity];
      unfold ret at 1; unfold bind at 1; by rewrite Hprune.
  - intros body' uuid4' now' now_prune' kind' Hkind' Hvalid'.
    unfold post_feed_handler. rewrite Hkind'.
    unfold in_set, bind at 1, ret at 1. rewrite bool_decide_eq_true_2 by exact Hvalid'.
    cbn [negb]. unfold bind at 1. by rewrite Hprune.
Qed.

Lemma non_text_timestamp_breaks_the_feed_witness :
  ∃ w1,
    post_feed_handler {[ "message" := JStr "tick"; "timestamp" := JNum 1762160700 ]}
      "7f3c9a10-5b1e-4c7e-9d57-0c2b6a1e4f00" morning morning feed_world
    = (Ok (json_response (ROkId "7f3c9a10") 201), w1)
    ∧ get_feed_handler None IntMissing noon w1 = (Raise, w1).
Proof.
  destruct (non_text_timestamp_breaks_the_feed feed_world
              {[ "message" := JStr "tick"; "timestamp" := JNum 1762160700 ]}
              "7f3c9a10-5b1e-4c7e-9d57-0c2b6a1e4f00" morning morning "working")
    as (w1 & Hpost & _ & _ & Hread & _).
  - reflexivity.
  - refine (proj1 (bool_decide_eq_true _) _). vm_compute. reflexivity.
  - repeat constructor; eexists; reflexivity.
  - reflexivity.
  - intros ts. discriminate.
  - exists w1. split; [exact Hpost | apply Hread].
Defined.

(** ** Stamps with and without a fraction of a second *)

(** X13: [isoformat] leaves the fraction out when the microseconds are zero,
    and the handlers compare stamps as texts.  A stamp with a fraction
    against one without compares by date, hour, minute and second, and within
    the same second the one with the fraction sorts first although it is the
    later instant.  So when the cutoff of the sweep falls on a whole second,
    a done task completed later within that very second counts as completed
    before the cutoff. *)
Theorem fraction_sorts_before_whole_second (a b : datetime) :
  printable a → printable b →
  microsecond a ≠ 0%N → microsecond b = 0%N →
  let upto_second (d : datetime) := [year d; month d; day d; hour d; minute d; second d] in
  String.compare (stamp a) (stamp b)
  = match compare_fields (upto_second a) (upto_second b) with
    | Eq => Lt
    | c => c
    end
  ∧ (upto_second a = upto_second b →
       (stamp a <? stamp b) = true ∧ earlier b a
       ∧ ∀ t : obj, t !! "status" = Some (JStr "done") →
                    t !! "completedAt" = Some (JStr (stamp a)) →
                    due (stamp b) t = true).
Proof.
  intros (Hy & Hm & Hd & Hh & Hmi & Hs & Hu) (Hy' & Hm' & Hd' & Hh' & Hmi' & Hs' & Hu')
    Hfrac Hwhole upto_second.
  assert (Hcmp : String.compare (stamp a) (stamp b)
                 = match compare_fields (upto_second a) (upto_second b) with
                   | Eq => Lt
                   | c => c
                   end).
  { unfold upto_second, stamp, isoformat. cbn [compare_fields].
    rewrite !append_assoc.
    do 6 next_field.
    rewrite Hwhole. destruct (N.eqb_spec (microsecond a) 0) as [Ha | _]; [done |].
    rewrite !append_assoc. reflexivity. }
  split; [exact Hcmp |].
  intros Hsame.
  assert (Hlt : (stamp a <? stamp b) = true).
  { unfold String.ltb. rewrite Hcmp, Hsame.
    assert (Hrefl : ∀ l, compare_fields l l = Eq).
    { induction l as [| x l IH]; [reflexivity |]. cbn. by rewrite N.compare_refl. }
    by rewrite Hrefl. }
  split; [exact Hlt |]. split.
  - unfold earlier, datetime_compare, fields. unfold upto_second in Hsame.
    injection Hsame as Ey Em Ed Eh Emi Es. rewrite Ey, Em, Ed, Eh, Emi, Es.
    cbn [compare_fields]. rewrite !N.compare_refl, Hwhole.
    replace (0 ?= microsecond a)%N with Lt; [reflexivity |].
    symmetry. apply N.compare_lt_iff. lia.
  - intros t Hstatus Hcompleted. unfold due, is_done, completed_before.
    by rewrite Hstatus, Hcompleted, Hlt.
Qed.

Lemma fraction_sorts_before_whole_second_witness :
  ("2026-11-03T12:00:00.000250Z" <? "2026-11-03T12:00:00Z") = true
  ∧ earlier (mkDatetime 2026 11 3 12 0 0 0) noon.
Proof.
  destruct (fraction_sorts_before_whole_second noon (mkDatetime 2026 11 3 12 0 0 0))
    as (_ & Hsame).
  - unfold printable. cbn. lia.
  - unfold printable. cbn. lia.
  - discriminate.
  - reflexivity.
  - destruct (Hsame eq_refl) as (Hlt & Hlater & _). split; [exact Hlt | exact Hlater].
Defined.

(** ** Reading the activity log by position *)

Lemma get_activity_run (w : world) : get_activity w = (Ok (activity_of w), w).
Proof. unfold get_activity, bind, gets, ret, activity_of. reflexivity. Qed.

Lemma get_activity_handler_run (since : Z) (w : world) :
  get_activity_handler (IntOf since) w
  = (Ok (json_list_response (slice_from since (activity_of w)) 200), w).
Proof. unfold get_activity_handler, bind at 1. cbn [int_or]. unfold ret at 1, bind.
  by rewrite get_activity_run. Qed.

(** X14: [since] is a position in the log, not a time.  A client that asks
    for the lines after the ones it has seen gets the new line as long as the
    log held fewer than 500 lines; once the log is full, the new line takes
    the place of the oldest, the positions shift, and the same question is
    answered with nothing.  Without [since] the whole log is answered, and a
    [since] that is no integer makes the handler fail. *)
Theorem activity_cursor_misses_lines_once_full (w : world) (na : datetime) (text : narration) :
  let seen := length (activity_of w) in
  let entry := mkActivity (stamp na) text in
  ∃ entries w1,
    add_activity na text w = (Ok entries, w1)
    ∧ ((seen < 500)%nat →
         get_activity_handler (IntOf (Z.of_nat seen)) w1
         = (Ok (json_list_response [entry] 200), w1))
    ∧ ((500 ≤ seen)%nat →
         get_activity_handler (IntOf (Z.of_nat seen)) w1
         = (Ok (json_list_response [] 200), w1))
    ∧ get_activity_handler IntMissing w1 = (Ok (json_list_response entries 200), w1)
    ∧ get_activity_handler (IntOf (-1)) w1 = (Ok (json_list_response [entry] 200), w1)
    ∧ get_activity_handler IntInvalid w1 = (Raise, w1).
Proof.
  intros seen entry.
  exists (last_n 500 (activity_of w ++ [entry])), (logged na text w).
  split; [apply add_activity_run |].
  assert (Hlog : activity_of (logged na text w) = last_n 500 (activity_of w ++ [entry]))
    by reflexivity.
  assert (Hlen : length (activity_of w ++ [entry]) = S seen)
    by (rewrite length_app; cbn [length]; lia).
  split; [| split; [| split; [| split]]].
  - intros Hfew. rewrite get_activity_handler_run, Hlog.
    rewrite last_n_short by lia. unfold slice_from.
    replace (Z.of_nat seen <? 0)%Z with false by lia.
    rewrite Nat2Z.id. unfold seen. by rewrite drop_app_length.
  - intros Hfull. rewrite get_activity_handler_run, Hlog. unfold slice_from.
    replace (Z.of_nat seen <? 0)%Z with false by lia.
    rewrite Nat2Z.id. rewrite drop_ge; [reflexivity |]. rewrite last_n_length. lia.
  - unfold get_activity_handler, bind at 1. cbn [int_or]. unfold ret at 1, bind.
    rewrite get_activity_run, Hlog. unfold slice_from. cbn. by rewrite drop_0.
  - rewrite get_activity_handler_run, Hlog. unfold slice_from. cbn [Z.ltb Z.compare].
    do 3 f_equal. rewrite last_n_length, Hlen. unfold last_n. rewrite Hlen.
    rewrite drop_drop.
    replace (S seen - 500 + Z.to_nat (Z.max 0 (Z.of_nat (min 500 (S seen)) + -1)))
      with seen by lia.
    unfold seen. by rewrite drop_app_length.
  - reflexivity.
Qed.

Lemma activity_cursor_misses_lines_once_full_witness :
  ∃ entries w1,
    add_activity noon (AutoArchived 2) task_world = (Ok entries, w1)
    ∧ get_activity_handler (IntOf 0) w1
      = (Ok (json_list_response
               [mkActivity "2026-11-03T12:00:00.000250Z" (AutoArchived 2)] 200), w1).
Proof.
  destruct (activity_cursor_misses_lines_once_full task_world noon (AutoArchived 2))
    as (entries & w1 & Hrun & Hfew & _).
  exists entries, w1. split; [exact Hrun |]. apply Hfew. cbn. lia.
Defined.

(** ** Listing the tasks *)

Lemma get_tasks_handler_run (active_param : option string) (w : world) :
  get_tasks_handler active_param w
  = (Ok (json_list_response
           (if (lower (default "" active_param) =? "true")
            then List.filter is_active (tasks_of w) else tasks_of w) 200), w).
Proof. reflexivity. Qed.

Lemma serve_create_tasks (w : world) (body : obj) (uuid4 : string) (now na : datetime) :
  tasks_of (serve w (CreateTask body uuid4 now na)) = tasks_of w ++ [new_task body uuid4 now].
Proof.
  unfold serve. rewrite create_task_handler_steps, trigger_when_assigned_cases.
  destruct (get_or (new_task body uuid4 now) "assignedTo" (JStr ""))
    as [| b | n | s | items | fields]; try (destruct (truthy _); reflexivity).
  destruct (String.prefix "Agent:" s && negb (s =? "")); [| reflexivity].
  destruct (new_task body uuid4 now !! "id"); reflexivity.
Qed.

Lemma new_task_status (body : obj) (uuid4 : string) (now : datetime) :
  new_task body uuid4 now !! "status" = body !! "status".
Proof.
  unfold new_task, merge. rewrite lookup_union.
  destruct (body !! "status"); reflexivity.
Qed.

(** X15: the list of active tasks follows the stored status, not the status
    the creation assumed.  The list is filtered when the [active] parameter
    is the word true in any mix of cases, and is the full list otherwise.  A
    task created with status todo or in-progress joins the end of the active
    list; a task created with another status does not; and a task created
    without a status, which the creation stamps like a todo task, is stored
    without one and is missing from the active list. *)
Theorem created_task_in_active_list (w : world) (body : obj) (uuid4 : string)
    (now na : datetime) (active_param : option string) :
  let task := new_task body uuid4 now in
  let w1 := serve w (CreateTask body uuid4 now na) in
  let active_before := List.filter is_active (tasks_of w) in
  let asked := (lower (default "" active_param) =? "true") in
  (asked = false →
     get_tasks_handler active_param w1
     = (Ok (json_list_response (tasks_of w ++ [task]) 200), w1))
  ∧ (asked = true →
     (body !! "status" = Some (JStr "todo") ∨ body !! "status" = Some (JStr "in-progress") →
        get_tasks_handler active_param w1
        = (Ok (json_list_response (active_before ++ [task]) 200), w1))
     ∧ (∀ s, body !! "status" = Some (JStr s) → s ≠ "todo" → s ≠ "in-progress" →
          get_tasks_handler active_param w1
          = (Ok (json_list_response active_before 200), w1))
     ∧ (body !! "status" = None →
          task !! "status" = None
          ∧ task !! "startedAt" = Some (default JNull (body !! "startedAt"))
          ∧ get_tasks_handler active_param w1
            = (Ok (json_list_response active_before 200), w1))).
Proof.
  intros task w1 active_before asked.
  assert (Htasks : tasks_of w1 = tasks_of w ++ [task]) by apply serve_create_tasks.
  pose proof (new_task_status body uuid4 now) as Hstatus. fold task in Hstatus.
  split.
  { intros Hasked. rewrite get_tasks_handler_run. fold asked. by rewrite Hasked, Htasks. }
  intros Hasked.
  assert (Hactive : get_tasks_handler active_param w1
            = (Ok (json_list_response
                     (active_before
                        ++ (if py_in (default JNull (body !! "status"))
                                 [JStr "todo"; JStr "in-progress"]
                            then [task] else [])) 200), w1)).
  { rewrite get_tasks_handler_run. fold asked. rewrite Hasked, Htasks.
    rewrite filter_snoc. unfold is_active at 2, get. by rewrite Hstatus. }
  split; [| split].
  - intros [Hs | Hs]; rewrite Hs in Hactive; exact Hactive.
  - intros s Hs Htodo Hprogress. rewrite Hs in Hactive. rewrite Hactive.
    change (default JNull (Some (JStr s))) with (JStr s). cbn [py_in existsb py_eq].
    replace (s =? "todo") with false by (symmetry; by apply String.eqb_neq).
    replace (s =? "in-progress") with false by (symmetry; by apply String.eqb_neq).
    cbn [orb]. by rewrite app_nil_r.
  - intros Hs. rewrite Hs in Hstatus, Hactive. split; [exact Hstatus |]. split.
    + unfold task, new_task, merge, get_or. rewrite lookup_union, Hs.
      destruct (body !! "startedAt"); reflexivity.
    + rewrite Hactive. cbn. by rewrite app_nil_r.
Qed.

Lemma created_task_in_active_list_witness :
  let w1 := serve task_world (CreateTask {[ "title" := JStr "Review" ]}
                                "7f3c9a10-5b1e-4c7e-9d57-0c2b6a1e4f00" morning morning) in
  get_tasks_handler (Some "True") w1 = (Ok (json_list_response [report_task] 200), w1).
Proof.
  intros w1.
  destruct (created_task_in_active_list task_world {[ "title" := JStr "Review" ]}
              "7f3c9a10-5b1e-4c7e-9d57-0c2b6a1e4f00" morning morning (Some "True"))
    as (_ & Hasked).
  destruct (Hasked eq_refl) as (_ & _ & Hnone).
  destruct (Hnone eq_refl) as (_ & _ & Hlist). exact Hlist.
Defined.

(** ** The sweep and the list of active tasks *)

Lemma swept_active (cutoff : string) (tasks : list obj) :
  List.filter is_active (swept cutoff tasks) = List.filter is_active tasks.
Proof.
  unfold swept. induction tasks as [| t rest IH]; [reflexivity |].
  cbn [map List.filter]. rewrite IH.
  destruct (due cutoff t) eqn:Hdue; [| reflexivity].
  assert (Hdone : t !! "status" = Some (JStr "done")).
  { unfold due, is_done in Hdue. apply andb_true_iff in Hdue as [Hdone _].
    destruct (t !! "status") as [[| | | s | |] |]; try discriminate.
    apply String.eqb_eq in Hdone. by subst s. }
  replace (is_active (archived t)) with false
    by (unfold is_active, archived, get; by rewrite lookup_insert_eq).
  replace (is_active t) with false by (unfold is_active, get; by rewrite Hdone).
  reflexivity.
Qed.

(** X16: the sweep never touches the active tasks.  Whatever the task file
    holds and whether the sweep archives, finds nothing or fails, the tasks
    afterwards are as many as before and the list of active tasks is the
    same list. *)
Theorem sweep_keeps_active_list (w : world) (now na : datetime) :
  let w1 := snd (archive_old_tasks_handler now na w) in
  length (tasks_of w1) = length (tasks_of w)
  ∧ List.filter is_active (tasks_of w1) = List.filter is_active (tasks_of w)
  ∧ get_tasks_handler (Some "true") w1
    = (Ok (json_list_response (List.filter is_active (tasks_of w)) 200), w1).
Proof.
  intros w1.
  assert (Htasks : tasks_of w1 = tasks_of w
                   ∨ ∃ cutoff, tasks_of w1 = swept cutoff (tasks_of w)).
  { unfold w1. rewrite archive_old_tasks_handler_run.
    destruct (cutoff_of now) as [cutoff |]; [| by left].
    destruct (forallb comparable (tasks_of w)); [| by left].
    cbv zeta. destruct (0 <? count_due cutoff (tasks_of w))%nat; [| by left].
    right. by exists cutoff. }
  assert (Hlen : length (tasks_of w1) = length (tasks_of w)).
  { destruct Htasks as [-> | [cutoff ->]]; [reflexivity |]. unfold swept. apply length_map. }
  assert (Hactive : List.filter is_active (tasks_of w1) = List.filter is_active (tasks_of w)).
  { destruct Htasks as [-> | [cutoff ->]]; [reflexivity | apply swept_active]. }
  split; [exact Hlen |]. split; [exact Hactive |].
  by rewrite get_tasks_handler_run, <- Hactive.
Qed.

(** ** The agents of a fresh installation *)

(** X17: while there is no agents file, the first request that lists the
    agents writes the file with the one default agent and answers it; the
    next listing answers the same and writes nothing.  A status update for
    [claude-opus] on the fresh installation updates that default agent: the
    file then holds one agent, not two. *)
Theorem first_listing_creates_the_agents (w : world) :
  agents_file w = None →
  let w1 := with_trace (trace w ++ [Saved AGENTS_FILE]) (with_agents (Some default_agents) w) in
  get_agents_handler w = (Ok (json_list_response default_agents 200), w1)
  ∧ get_agents_handler w1 = (Ok (json_list_response default_agents 200), w1)
  ∧ (∀ (body : obj) (now : datetime), body !! "id" = None →
       ∃ data,
         update_agent_handler "claude-opus" body now w
         = (Ok (json_response ROk 200),
            with_trace (trace w1 ++ [Saved AGENTS_FILE; Broadcast (agent_updated data)])
              (with_agents (Some (updated_agent (stamp now) body <$> default_agents)) w1))).
Proof.
  intros Hnone w1.
  assert (Hloaded : agents_loaded w = w1) by (unfold agents_loaded; by rewrite Hnone).
  assert (Hof : agents_of w = default_agents) by (unfold agents_of; by rewrite Hnone).
  split; [| split].
  - unfold get_agents_handler, bind. by rewrite get_agents_run, Hloaded, Hof.
  - reflexivity.
  - intros body now Hid.
    destruct (update_agent_handler_hit w "claude-opus" body now [] []
                (list_to_map
                   [ ("id", JStr "claude-opus"); ("name", JStr "Jarvis (Opus 4.6)");
                     ("model", JStr "claude-opus-4-6"); ("role", JStr "manager");
                     ("status", JStr "Idle"); ("statusEmoji", JStr "");
                     ("currentTask", JNull) ]))
      as (o & data & Hrun & _ & Hok).
    + exact Hof.
    + constructor.
    + reflexivity.
    + exists data. rewrite Hrun, (Hok Hid), Hloaded. reflexivity.
Qed.

Lemma first_listing_creates_the_agents_witness :
  ∃ w1,
    get_agents_handler task_world = (Ok (json_list_response default_agents 200), w1)
    ∧ agents_file w1 = Some default_agents
    ∧ get_agents_handler w1 = (Ok (json_list_response default_agents 200), w1).
Proof.
  destruct (first_listing_creates_the_agents task_world) as (Hfirst & Hsecond & _).
  - reflexivity.
  - eexists. split; [exact Hfirst |]. split; [reflexivity | exact Hsecond].
Defined.

(** ** Removing agents and notes, clearing the feed *)

Lemma lift_run {A} (c : M A) (s : state) (o : outcome A) (w' : world) (new : list effect) :
  c (store s) = (o, w') → trace w' = trace (store s) ++ new →
  lift c s = (o, mkState w' (events s ++ (Did <$> new))).
Proof.
  intros Hrun Htrace. unfold lift. rewrite Hrun, Htrace. by rewrite drop_app_length.
Qed.

Lemma lift_quiet {A} (c : M A) (s : state) (o : outcome A) :
  c (store s) = (o, store s) → lift c s = (o, s).
Proof.
  intros Hrun. rewrite (lift_run c s o (store s) []); [| exact Hrun | by rewrite app_nil_r].
  cbn. rewrite app_nil_r. by destruct s.
Qed.

Lemma others_run (id : string) (records : list obj) (w : world) :
  Forall (λ r, is_Some (r !! "id")) records →
  others id records w
  = (Ok (List.filter (λ r, negb (py_eq (get r "id") (JStr id))) records), w).
Proof.
  induction 1 as [| r rest [v Hv] _ IH]; [reflexivity |].
  cbn [others List.filter]. unfold bind, subscript. rewrite Hv. unfold ret at 1.
  rewrite IH. unfold ret, get. rewrite Hv.
  change (default JNull (Some v)) with v.
  by destruct (py_eq v (JStr id)).
Qed.

Lemma others_raise (id : string) (before rest : list obj) (r : obj) (w : world) :
  r !! "id" = None →
  others id (before ++ r :: rest) w = (Raise, w).
Proof.
  intros Hnone. induction before as [| x before IH]; cbn [app others].
  - unfold bind, subscript. by rewrite Hnone.
  - unfold bind at 1, subscript. destruct (x !! "id") as [v |]; [| reflexivity].
    unfold ret at 1. unfold bind at 1. by rewrite IH.
Qed.

Lemma others_keeps (id : string) (records : list obj) :
  Forall (λ r, is_Some (r !! "id")) records →
  let kept := List.filter (λ r, negb (py_eq (get r "id") (JStr id))) records in
  Forall (other_id id) kept
  ∧ (∀ r, r ∈ kept ↔ r ∈ records ∧ ¬ has_id id r)
  ∧ (Forall (other_id id) records → kept = records).
Proof.
  intros Hids kept.
  assert (Htest : ∀ r, r ∈ records →
            negb (py_eq (get r "id") (JStr id)) = true ↔ other_id id r).
  { intros r Hr. rewrite Forall_forall in Hids. destruct (Hids r Hr) as [v Hv].
    unfold get, other_id. rewrite Hv. change (default JNull (Some v)) with v.
    rewrite negb_true_iff, py_eq_str_false. split.
    - intros Hne. by exists v.
    - intros (v' & Hv' & Hne). congruence. }
  assert (Hin : ∀ r, r ∈ kept ↔ r ∈ records ∧ other_id id r).
  { intros r. unfold kept. rewrite !list_elem_of_In, filter_In, <- list_elem_of_In.
    split; intros [Hr Ho]; (split; [exact Hr |]); by apply (Htest r Hr). }
  split; [| split].
  - apply Forall_forall. intros r Hr. by apply Hin in Hr as [_ Hr].
  - intros r. rewrite Hin. split; intros [Hr Ho]; (split; [exact Hr |]).
    + intros Hhas. destruct Ho as (v & Hv & Hne). unfold has_id in Hhas. congruence.
    + rewrite Forall_forall in Hids. destruct (Hids r Hr) as [v Hv].
      exists v. split; [exact Hv |]. intros ->. by apply Ho.
  - intros Hother. unfold kept. clear Hin kept. induction Hother as [| r rest Hr Hrest IH].
    + reflexivity.
    + cbn [List.filter].
      assert (Hmem : r ∈ r :: rest) by apply list_elem_of_here.
      rewrite (proj2 (Htest r Hmem) Hr). f_equal. apply IH.
      * by inversion Hids.
      * intros x Hx. apply Htest. by apply list_elem_of_further.
Qed.

(** X18: removing an agent and deleting a note drop every stored record that
    carries the id, keep the others in their order, save the list and
    announce the removal; they answer [{"ok": True}] also when no record had
    the id, the list then being written back as it was.  The list of agents
    read afterwards is the list that was kept: once the default agent of a
    fresh installation is removed, the list is empty and stays so. *)
Theorem removal_drops_every_match (s : state) (id : string) :
  let has_some_id := λ r : obj, is_Some (r !! "id") in
  let keep := List.filter (λ r, negb (py_eq (get r "id") (JStr id))) in
  (Forall has_some_id (agents_of (store s)) →
     let kept := keep (agents_of (store s)) in
     let w1 := agents_loaded (store s) in
     let w2 := with_trace (trace w1 ++ [Saved AGENTS_FILE]) (with_agents (Some kept) w1) in
     remove_agent_handler id s
     = (Ok (json_response ROk 200),
        mkState w2
          (events s ++ match agents_file (store s) with
                       | Some _ => []
                       | None => [Did (Saved AGENTS_FILE)]
                       end
                    ++ [Did (Saved AGENTS_FILE); Announced (agent_removed id)]))
     ∧ get_agents_handler w2 = (Ok (json_list_response kept 200), w2)
     ∧ Forall (other_id id) kept
     ∧ (∀ a, a ∈ kept ↔ a ∈ agents_of (store s) ∧ ¬ has_id id a)
     ∧ (Forall (other_id id) (agents_of (store s)) → kept = agents_of (store s))
     ∧ (agents_file (store s) = None → id = "claude-opus" → kept = []))
  ∧ (Forall has_some_id (notes_of (store s)) →
     let kept := keep (notes_of (store s)) in
     delete_note_handler id s
     = (Ok (json_response ROk 200),
        mkState (with_trace (trace (store s) ++ [Saved NOTES_FILE])
                   (with_notes (Some kept) (store s)))
          (events s ++ [Did (Saved NOTES_FILE); Announced (note_deleted id)]))
     ∧ Forall (other_id id) kept
     ∧ (∀ n, n ∈ kept ↔ n ∈ notes_of (store s) ∧ ¬ has_id id n)
     ∧ (Forall (other_id id) (notes_of (store s)) → kept = notes_of (store s))).
Proof.
  intros has_some_id keep. split.
  - intros Hids kept w1 w2.
    destruct (others_keeps id _ Hids) as (Hother & Hin & Hsame). fold kept in Hother, Hin, Hsame.
    split; [| split; [| split; [| split; [| split]]]]; try assumption.
    + unfold remove_agent_handler, wbind at 1.
      rewrite (lift_run get_agents s (Ok (agents_of (store s))) w1
                 match agents_file (store s) with Some _ => [] | None => [Saved AGENTS_FILE] end).
      * unfold wbind at 1.
        rewrite (lift_run (others id (agents_of (store s))) _ (Ok kept) w1 []);
          [| by apply others_run | by rewrite app_nil_r].
        unfold wbind at 1.
        rewrite (lift_run (save_agents kept) _ (Ok tt) w2 [Saved AGENTS_FILE]);
          [| reflexivity | reflexivity].
        unfold wbind, announce, wret. cbn [store events fmap list_fmap].
        rewrite app_nil_r, <- !app_assoc.
        by destruct (agents_file (store s)).
      * apply get_agents_run.
      * unfold w1, agents_loaded. destruct (agents_file (store s)); [by rewrite app_nil_r | reflexivity].
    + reflexivity.
    + intros Hnone ->. unfold kept, keep, agents_of. rewrite Hnone. reflexivity.
  - intros Hids kept.
    destruct (others_keeps id _ Hids) as (Hother & Hin & Hsame). fold kept in Hother, Hin, Hsame.
    split; [| split; [| split]]; try assumption.
    unfold delete_note_handler, wbind at 1.
    rewrite (lift_quiet get_notes s (Ok (notes_of (store s)))) by reflexivity.
    unfold wbind at 1.
    rewrite (lift_quiet (others id (notes_of (store s))) s (Ok kept)) by (by apply others_run).
    unfold wbind at 1.
    rewrite (lift_run (save_notes kept) s (Ok tt)
               (with_trace (trace (store s) ++ [Saved NOTES_FILE])
                  (with_notes (Some kept) (store s))) [Saved NOTES_FILE]);
      [| reflexivity | reflexivity].
    unfold wbind, announce, wret. cbn [store events fmap list_fmap].
    by rewrite <- !app_assoc.
Qed.

Lemma removal_drops_every_match_witness :
  ∃ s',
    remove_agent_handler "scout" (mkState agent_world []) = (Ok (json_response ROk 200), s')
    ∧ agents_file (store s')
      = Some [ {[ "id" := JStr "coder"; "status" := JStr "Typing";
                  "startedWorkingAt" := JStr "2026-11-03T08:00:00Z" ]} ]
    ∧ events s' = [Did (Saved AGENTS_FILE); Announced (agent_removed "scout")].
Proof.
  destruct (removal_drops_every_match (mkState agent_world []) "scout") as (Hagents & _).
  destruct Hagents as (Hrun & _).
  - repeat constructor; eexists; reflexivity.
  - eexists. split; [exact Hrun |]. split; reflexivity.
Defined.

(** X19: the removing handlers subscript [record['id']] on every stored
    record: one record without an id, wherever it stands in the list, makes
    the removal fail before anything is written or announced.  The updating
    handlers stop at the record they look for, so the same list can still be
    updated when that record comes first. *)
Theorem removal_needs_every_id (s : state) (id : string) (before rest : list obj) (r : obj) :
  r !! "id" = None →
  (agents_file (store s) = Some (before ++ r :: rest) →
     remove_agent_handler id s = (Raise, s))
  ∧ (notes_of (store s) = before ++ r :: rest →
       delete_note_handler id s = (Raise, s)
       ∧ ∀ (first : obj) (others_before : list obj) (now : datetime),
           before = first :: others_before → has_id id first →
           ∃ w', mark_note_read_handler id now (store s) = (Ok (json_response ROk 200), w')).
Proof.
  intros Hnone. split.
  - intros Hagents.
    assert (Hof : agents_of (store s) = before ++ r :: rest)
      by (unfold agents_of; by rewrite Hagents).
    assert (Hloaded : agents_loaded (store s) = store s)
      by (unfold agents_loaded; by rewrite Hagents).
    unfold remove_agent_handler, wbind at 1.
    rewrite (lift_quiet get_agents s (Ok (agents_of (store s))))
      by (by rewrite get_agents_run, Hloaded).
    unfold wbind at 1. rewrite Hof.
    by rewrite (lift_quiet _ s Raise) by (by apply others_raise).
  - intros Hnotes. split.
    + unfold delete_note_handler, wbind at 1.
      rewrite (lift_quiet get_notes s (Ok (notes_of (store s)))) by reflexivity.
      unfold wbind at 1. rewrite Hnotes.
      by rewrite (lift_quiet _ s Raise) by (by apply others_raise).
    + intros first others_before now -> Hfirst.
      unfold mark_note_read_handler, get_notes, bind at 1, gets.
      fold (notes_of (store s)). rewrite Hnotes. unfold bind at 1.
      change ((first :: others_before) ++ r :: rest)
        with ([] ++ first :: (others_before ++ r :: rest)).
      rewrite (mark_read_loop_hit id (stamp now) [] (others_before ++ r :: rest) first
                 (store s) (List.Forall_nil _) Hfirst).
      eexists. save_and_broadcast.
Qed.

Lemma removal_needs_every_id_witness :
  let s := mkState (mkWorld None None None
                      (Some [ {[ "id" := JStr "n0"; "content" := JStr "milk" ]};
                              {[ "content" := JStr "no id" ]} ]) [] []) [] in
  delete_note_handler "n0" s = (Raise, s)
  ∧ ∃ w', mark_note_read_handler "n0" morning (store s) = (Ok (json_response ROk 200), w').
Proof.
  intros s.
  destruct (removal_needs_every_id s "n0" [ {[ "id" := JStr "n0"; "content" := JStr "milk" ]} ]
              [] {[ "content" := JStr "no id" ]}) as (_ & Hnotes).
  - reflexivity.
  - destruct (Hnotes eq_refl) as (Hdelete & Hmark).
    split; [exact Hdelete |]. apply (Hmark {[ "id" := JStr "n0"; "content" := JStr "milk" ]} [] morning); reflexivity.
Defined.

(** X20: clearing the feed empties the buffer whatever it holds, also an
    entry the pruning fails on, announces [feed_cleared] and answers the
    number of entries that were in the buffer, those of earlier days
    included, since nothing is pruned first.  Afterwards a read answers the
    empty list and a post of a valid type is accepted again. *)
Theorem clear_feed_empties_the_buffer (s : state) :
  let w1 := with_feed [] (store s) in
  clear_feed_handler s
  = (Ok (json_cleared_response (length (feed_entries (store s))) 200),
     mkState w1 (events s ++ [Announced feed_cleared]))
  ∧ (∀ since_param limit_param now, limit_param ≠ IntInvalid →
       get_feed_handler since_param limit_param now w1
       = (Ok (json_response (REntries []) 200), w1))
  ∧ (∀ body uuid4 now now_prune kind,
       get_or body "type" (JStr "working") = JStr kind → kind ∈ FEED_VALID_TYPES →
       ∃ entry,
         post_feed_handler body uuid4 now now_prune w1
         = (Ok (json_response (ROkId (prefix_of 8 uuid4)) 201),
            with_trace (trace w1 ++ [Broadcast (feed entry)]) (with_feed [entry] w1))).
Proof.
  intros w1. split; [| split].
  - unfold clear_feed_handler, wbind at 1.
    rewrite (lift_quiet _ s (Ok (length (feed_entries (store s))))) by reflexivity.
    unfold wbind at 1.
    rewrite (lift_run (modify (with_feed [])) s (Ok tt) w1 []);
      [| reflexivity | by rewrite app_nil_r].
    unfold wbind, announce, wret. cbn [store events fmap list_fmap]. by rewrite app_nil_r.
  - intros since_param limit_param now Hlimit.
    rewrite get_feed_handler_run by (done || constructor). reflexivity.
  - intros body uuid4 now now_prune kind Hkind Hvalid. eexists.
    rewrite (post_feed_handler_run _ _ _ _ _ kind Hkind Hvalid) by constructor.
    reflexivity.
Qed.

Lemma clear_feed_empties_the_buffer_witness :
  clear_feed_handler (mkState feed_world [])
  = (Ok (json_cleared_response 3 200),
     mkState (mkWorld None None None None [] []) [Announced feed_cleared]).
Proof.
  destruct (clear_feed_empties_the_buffer (mkState feed_world [])) as (Hrun & _).
  rewrite Hrun. reflexivity.
Defined.
